(** * GitHub project report scripts: a shallow embedding and its properties

    The two scripts [team_metrics.py] and [capitalizacao.py] share, line for
    line, the GraphQL client ([run_query]), the project resolver
    ([get_project_id_from_url]), the paginated fetch ([get_project_items]) and
    the field extractors ([extract_type], [extract_scope]).  They differ in the
    time filter and in the report they write.

    Conventions of the embedding:
    - a decoded JSON document is a value of [json]; a Python [dict] is an
      association list in insertion order, looked up by its first binding;
    - a Python [str] is a [string] whose characters are the code points below
      256; JSON numbers are the integers (Python [int]);
    - a Python expression that may raise evaluates to a [result];
    - the network is an explicit world threaded through every request. *)

From Stdlib Require Import String Ascii ZArith List Bool Arith Lia.
From Stdlib Require Import DecimalString Decimal DecimalZ DecimalNat.
From Stdlib Require Import QArith Permutation.
Import ListNotations.

Local Close Scope Q_scope.
Local Open Scope list_scope.
Local Open Scope string_scope.

(** ** Decoded JSON and Python exceptions *)

#[local] Set Warnings "-register-all".

Inductive json : Type :=
| JNull
| JBool (b : bool)
| JNum (z : Z)
| JStr (s : string)
| JArr (l : list json)
| JObj (m : list (string * json)).

Inductive exn : Type :=
| Exception (msg : string)
| ValueError (msg : string)
| KeyError (key : string)
| TypeError
| AttributeError
| JSONDecodeError
| IsoparseError.

Inductive result (A : Type) : Type :=
| Ok (a : A)
| Raise (e : exn).

Arguments Ok {A} a.
Arguments Raise {A} e.

Definition bind {A B : Type} (r : result A) (k : A -> result B) : result B :=
  match r with
  | Ok a => k a
  | Raise e => Raise e
  end.

Notation "'let*' x ':=' e 'in' k" := (bind e (fun x => k))
  (at level 10, x name, e at level 100, k at level 200).

(** Python's [a and b] and [a or b] on conditions: the right operand is
    evaluated, and may raise, only when the left one does not decide. *)
Definition py_and (a b : result bool) : result bool :=
  let* x := a in if x then b else Ok false.

Definition py_or (a b : result bool) : result bool :=
  let* x := a in if x then Ok true else b.

Definition py_not (a : result bool) : result bool :=
  let* x := a in Ok (negb x).

(** ** Python strings *)

Definition str_concat (l : list string) : string :=
  fold_right append "" l.

Fixpoint str_join (sep : string) (l : list string) : string :=
  match l with
  | [] => ""
  | [s] => s
  | s :: rest => s ++ sep ++ str_join sep rest
  end.

Definition isspace (c : ascii) : bool :=
  let n := nat_of_ascii c in
  (((9 <=? n) && (n <=? 13)) || ((28 <=? n) && (n <=? 32))
   || (n =? 133) || (n =? 160))%nat.

Definition lower_char (c : ascii) : ascii :=
  let n := nat_of_ascii c in
  if (((65 <=? n) && (n <=? 90))
      || ((192 <=? n) && (n <=? 222) && negb (n =? 215)))%nat
  then ascii_of_nat (n + 32) else c.

Fixpoint py_lower (s : string) : string :=
  match s with
  | EmptyString => EmptyString
  | String c s' => String (lower_char c) (py_lower s')
  end.

Fixpoint py_lstrip (s : string) : string :=
  match s with
  | EmptyString => EmptyString
  | String c s' => if isspace c then py_lstrip s' else s
  end.

Fixpoint py_rstrip (s : string) : string :=
  match s with
  | EmptyString => EmptyString
  | String c s' =>
      match py_rstrip s' with
      | EmptyString => if isspace c then EmptyString else String c EmptyString
      | r => String c r
      end
  end.

Definition py_strip (s : string) : string := py_rstrip (py_lstrip s).

(** [sub in s] on two strings. *)
Fixpoint str_contains (sub s : string) : bool :=
  prefix sub s ||
  match s with
  | EmptyString => false
  | String _ s' => str_contains sub s'
  end.

Definition is_digit (c : ascii) : bool :=
  let n := nat_of_ascii c in ((48 <=? n) && (n <=? 57))%nat.

Definition str_of_Z (z : Z) : string := NilZero.string_of_int (Z.to_int z).

(** ** Python's [repr] and [str] on decoded JSON *)

Definition hex_digit (n : nat) : ascii :=
  nth n (list_ascii_of_string "0123456789abcdef") "0"%char.

Definition is_printable (c : ascii) : bool :=
  let n := nat_of_ascii c in
  (((32 <=? n) && (n <=? 126)) || ((161 <=? n) && negb (n =? 173)))%nat.

Definition backslash : ascii := "092"%char.
Definition dquote : ascii := "034"%char.
Definition squote : ascii := "039"%char.

Definition escaped (c : ascii) : string := String backslash (String c EmptyString).

Definition repr_char (quote c : ascii) : string :=
  if (c =? quote)%char || (c =? backslash)%char then escaped c
  else if (c =? "009")%char then escaped "t"
  else if (c =? "010")%char then escaped "n"
  else if (c =? "013")%char then escaped "r"
  else if is_printable c then String c EmptyString
  else let n := nat_of_ascii c in
       String backslash
         (String "x"
            (String (hex_digit (n / 16)) (String (hex_digit (n mod 16)) EmptyString))).

(** Single quotes, unless the string has one and no double quote. *)
Definition repr_str (s : string) : string :=
  let quote :=
    if str_contains (String squote EmptyString) s
       && negb (str_contains (String dquote EmptyString) s)
    then dquote else squote in
  String quote
    (str_concat (map (repr_char quote) (list_ascii_of_string s))
     ++ String quote EmptyString).

Fixpoint py_repr (v : json) : string :=
  match v with
  | JNull => "None"
  | JBool true => "True"
  | JBool false => "False"
  | JNum z => str_of_Z z
  | JStr s => repr_str s
  | JArr l => "[" ++ str_join ", " (map py_repr l) ++ "]"
  | JObj m =>
      "{" ++ str_join ", "
               (map (fun kv => repr_str (fst kv) ++ ": " ++ py_repr (snd kv)) m)
          ++ "}"
  end.

Definition py_str (v : json) : string :=
  match v with
  | JStr s => s
  | _ => py_repr v
  end.

(** ** Python operations on decoded JSON *)

(** Truth value of an object: [None], [False], [0], [""], [[]] and [{}] are
    false. *)
Definition truthy (v : json) : bool :=
  match v with
  | JNull => false
  | JBool b => b
  | JNum z => negb (z =? 0)%Z
  | JStr s => negb (s =? "")
  | JArr l => match l with [] => false | _ => true end
  | JObj m => match m with [] => false | _ => true end
  end.

Definition is_none (v : json) : bool :=
  match v with JNull => true | _ => false end.

Fixpoint lookup (k : string) (m : list (string * json)) : option json :=
  match m with
  | [] => None
  | (k', v) :: rest => if k' =? k then Some v else lookup k rest
  end.

Definition is_str (k : string) (v : json) : bool :=
  match v with JStr s => s =? k | _ => false end.

(** [k in v] for a string [k]: key of a dict, element of a list, substring of
    a string; anything else is not iterable. *)
Definition py_in (k : string) (v : json) : result bool :=
  match v with
  | JObj m => Ok (match lookup k m with Some _ => true | None => false end)
  | JArr l => Ok (existsb (is_str k) l)
  | JStr s => Ok (str_contains k s)
  | _ => Raise TypeError
  end.

(** [v[k]] for a string [k]. *)
Definition py_getitem (v : json) (k : string) : result json :=
  match v with
  | JObj m => match lookup k m with Some x => Ok x | None => Raise (KeyError k) end
  | _ => Raise TypeError
  end.

(** [v.get(k, default)]; only a dict has the method. *)
Definition py_get (v : json) (k : string) (default : json) : result json :=
  match v with
  | JObj m => Ok (match lookup k m with Some x => x | None => default end)
  | _ => Raise AttributeError
  end.

(** The elements a [for] loop (or [list.extend]) draws from [v]. *)
Definition py_iter (v : json) : result (list json) :=
  match v with
  | JArr l => Ok l
  | JObj m => Ok (map (fun kv => JStr (fst kv)) m)
  | JStr s => Ok (map (fun c => JStr (String c "")) (list_ascii_of_string s))
  | _ => Raise TypeError
  end.

(** [v.strip().lower()]; only a string has the methods. *)
Definition py_strip_lower (v : json) : result string :=
  match v with
  | JStr s => Ok (py_lower (py_strip s))
  | _ => Raise AttributeError
  end.

(** ** Configuration constants *)

Definition API_URL : string := "https://api.github.com/graphql".
Definition PROJECT_URL : string := "https://github.com/orgs/stack-spot/projects/251".
Definition START_DATE : string := "2025-10-07".
Definition END_DATE : string := "2025-12-10".
Definition FILTER_MONTHS : list string := ["2025-09"].
Definition KIND_FIELD : string := "Kind".
Definition TYPE_FIELD : string := "Type".
Definition SCOPE_FIELD : string := "Scope".

(** ** Field extractors *)

(** The first half of the loop body shared by [extract_type] and
    [extract_scope]: [Ok None] when the entry is skipped by a [continue],
    [Ok (Some (field_name, field_value))] when it reaches the comparison of
    the field name. *)
Definition scan_field (field : json) : result (option (string * json)) :=
  let* skip :=
    py_or (Ok (negb (truthy field)))
      (py_or (py_not (py_in "field" field))
             (let* f := py_getitem field "field" in Ok (negb (truthy f)))) in
  if skip then Ok None else
  let* f := py_getitem field "field" in
  let* raw_name := py_get f "name" (JStr "") in
  let* field_name := py_strip_lower raw_name in
  let* name_v := py_get field "name" JNull in
  let* field_value :=
    if truthy name_v then Ok name_v else
    let* text_v := py_get field "text" JNull in
    if truthy text_v then Ok text_v else
    let* has_number :=
      py_and (py_in "number" field)
             (let* n := py_getitem field "number" in Ok (negb (is_none n))) in
    if has_number
    then let* n := py_getitem field "number" in Ok (JStr (py_str n))
    else Ok JNull in
  if negb (truthy field_value) then Ok None
  else Ok (Some (field_name, field_value)).

(** [if "fieldValues" in item and "nodes" in item["fieldValues"]] followed by
    the evaluation of the iterable of the [for] loop; [Ok None] when the
    condition is false. *)
Definition field_nodes (item : json) : result (option (list json)) :=
  let* has :=
    py_and (py_in "fieldValues" item)
           (let* fv := py_getitem item "fieldValues" in py_in "nodes" fv) in
  if has then
    let* fv := py_getitem item "fieldValues" in
    let* nodes := py_getitem fv "nodes" in
    let* l := py_iter nodes in
    Ok (Some l)
  else Ok None.

(** The loop of [extract_type], threading [(kind_value, type_value)]. *)
Fixpoint extract_type_loop (nodes : list json) (kind_value type_value : json)
  : result (json * json) :=
  match nodes with
  | [] => Ok (kind_value, type_value)
  | field :: rest =>
      let* e := scan_field field in
      match e with
      | None => extract_type_loop rest kind_value type_value
      | Some (field_name, field_value) =>
          if field_name =? py_lower KIND_FIELD
          then extract_type_loop rest field_value type_value
          else if field_name =? py_lower TYPE_FIELD
          then extract_type_loop rest kind_value field_value
          else extract_type_loop rest kind_value type_value
      end
  end.

Definition extract_type (item : json) : result json :=
  let* nodes := field_nodes item in
  let* kt :=
    match nodes with
    | Some l => extract_type_loop l JNull JNull
    | None => Ok (JNull, JNull)
    end in
  let '(kind_value, type_value) := kt in
  if truthy kind_value then Ok kind_value else
  if truthy type_value then Ok type_value else
  let* issue := py_get item "content" JNull in
  let* has_type :=
    py_and (Ok (truthy issue))
      (py_and (py_in "issueType" issue)
              (let* t := py_getitem issue "issueType" in Ok (truthy t))) in
  if has_type then
    let* t := py_getitem issue "issueType" in
    let* n := py_get t "name" JNull in
    Ok (if truthy n then n else JStr "Desconhecido")
  else Ok (JStr "Desconhecido").

(** The loop of [extract_scope]: [Some v] when the loop returns [v]. *)
Fixpoint extract_scope_loop (nodes : list json) : result (option json) :=
  match nodes with
  | [] => Ok None
  | field :: rest =>
      let* e := scan_field field in
      match e with
      | None => extract_scope_loop rest
      | Some (field_name, field_value) =>
          if field_name =? py_lower SCOPE_FIELD
          then Ok (Some field_value)
          else extract_scope_loop rest
      end
  end.

Definition extract_scope (item : json) : result json :=
  let* nodes := field_nodes item in
  let* found :=
    match nodes with
    | Some l => extract_scope_loop l
    | None => Ok None
    end in
  match found with
  | Some v => Ok v
  | None => Ok (JStr "Sem Scope")
  end.

(** [[a["login"] for a in nodes if a and a.get("login")]] *)
Fixpoint logins (nodes : list json) : result (list json) :=
  match nodes with
  | [] => Ok []
  | a :: rest =>
      let* keep :=
        py_and (Ok (truthy a))
               (let* l := py_get a "login" JNull in Ok (truthy l)) in
      if keep then
        let* l := py_getitem a "login" in
        let* ls := logins rest in
        Ok (l :: ls)
      else logins rest
  end.

Definition extract_assignees (item : json) : result (list json) :=
  let* issue := py_get item "content" JNull in
  let* has :=
    py_and (Ok (truthy issue))
      (py_and (py_in "assignees" issue)
         (py_and (let* a := py_getitem issue "assignees" in Ok (truthy a))
                 (let* a := py_getitem issue "assignees" in py_in "nodes" a))) in
  if has then
    let* a := py_getitem issue "assignees" in
    let* nodes := py_getitem a "nodes" in
    let* l := py_iter nodes in
    logins l
  else Ok [].

(** ** GraphQL documents

    The text of the three queries, as the triple-quoted literals of the
    scripts.  The items query of [team_metrics.py] also selects the assignees;
    this is the only difference between the two scripts' [get_project_items]. *)

Definition ORG_QUERY : string := "
        query($org: String!, $number: Int!) {
            organization(login: $org) {
                projectV2(number: $number) { id title }
            }
        }
        ".

Definition USER_QUERY : string := "
        query($user: String!, $number: Int!) {
            user(login: $user) {
                projectV2(number: $number) { id title }
            }
        }
        ".

Definition ITEMS_QUERY_team_metrics : string := "
    query($projectId: ID!, $cursor: String) {
      node(id: $projectId) {
        ... on ProjectV2 {
          items(first: 50, after: $cursor) {
            pageInfo { hasNextPage endCursor }
            nodes {
              content {
                ... on Issue {
                  id number title closedAt state
                  repository { nameWithOwner }
                  labels(first: 20) { nodes { name } }
                  issueType { name }
                  parent { ... on Issue { number title repository { nameWithOwner } } }
                  assignees(first: 20) { nodes { login } }
                }
              }
              fieldValues(first: 20) {
                nodes {
                  ... on ProjectV2ItemFieldSingleSelectValue {
                    field { ... on ProjectV2FieldCommon { name } }
                    name
                  }
                  ... on ProjectV2ItemFieldTextValue {
                    field { ... on ProjectV2FieldCommon { name } }
                    text
                  }
                  ... on ProjectV2ItemFieldNumberValue {
                    field { ... on ProjectV2FieldCommon { name } }
                    number
                  }
                }
              }
            }
          }
        }
      }
    }
    ".

Definition ITEMS_QUERY_capitalizacao : string := "
    query($projectId: ID!, $cursor: String) {
      node(id: $projectId) {
        ... on ProjectV2 {
          items(first: 50, after: $cursor) {
            pageInfo { hasNextPage endCursor }
            nodes {
              content {
                ... on Issue {
                  id number title closedAt state
                  repository { nameWithOwner }
                  labels(first: 20) { nodes { name } }
                  issueType { name }
                  parent { ... on Issue { number title repository { nameWithOwner } } }
                }
              }
              fieldValues(first: 20) {
                nodes {
                  ... on ProjectV2ItemFieldSingleSelectValue {
                    field { ... on ProjectV2FieldCommon { name } }
                    name
                  }
                  ... on ProjectV2ItemFieldTextValue {
                    field { ... on ProjectV2FieldCommon { name } }
                    text
                  }
                  ... on ProjectV2ItemFieldNumberValue {
                    field { ... on ProjectV2FieldCommon { name } }
                    number
                  }
                }
              }
            }
          }
        }
      }
    }
    ".

(** ** The pattern of [get_project_id_from_url]

    [re.search(r"github.com/(orgs|users)/([^/]+)/projects/(\d+)", url)]: the
    pattern is tried at every position from the left; the unescaped [.] is the
    wildcard of the regular expression (any character but a newline), [[^/]+]
    and [\d+] are greedy. No alternative of the pattern can succeed where the
    greedy choice fails, so the match at a position is unique. *)

Definition obind {A B : Type} (o : option A) (k : A -> option B) : option B :=
  match o with
  | Some a => k a
  | None => None
  end.

Notation "'let?' x ':=' e 'in' k" := (obind e (fun x => k))
  (at level 10, x name, e at level 100, k at level 200).

(** The rest of [s] after the literal [p], when [s] starts with [p]. *)
Fixpoint strip_prefix (p s : string) : option string :=
  match p, s with
  | EmptyString, _ => Some s
  | String a p', String b s' => if (a =? b)%char then strip_prefix p' s' else None
  | String _ _, EmptyString => None
  end.

(** The longest prefix of [s] whose characters satisfy [f], and the rest. *)
Fixpoint span (f : ascii -> bool) (s : string) : string * string :=
  match s with
  | EmptyString => (EmptyString, EmptyString)
  | String c s' =>
      if f c then let '(a, b) := span f s' in (String c a, b)
      else (EmptyString, s)
  end.

Definition newline : ascii := "010"%char.

Definition re_dot (s : string) : option string :=
  match s with
  | String c s' => if (c =? newline)%char then None else Some s'
  | EmptyString => None
  end.

Definition re_orgs_or_users (s : string) : option (string * string) :=
  match strip_prefix "orgs" s with
  | Some r => Some ("orgs", r)
  | None =>
      match strip_prefix "users" s with
      | Some r => Some ("users", r)
      | None => None
      end
  end.

Definition not_slash (c : ascii) : bool := negb (c =? "/")%char.

(** The pattern anchored at the start of [s]; the three groups. *)
Definition re_match (s : string) : option (string * string * string) :=
  let? r := strip_prefix "github" s in
  let? r := re_dot r in
  let? r := strip_prefix "com/" r in
  let? g1 := re_orgs_or_users r in
  let? r := strip_prefix "/" (snd g1) in
  let '(g2, r) := span not_slash r in
  if g2 =? "" then None else
  let? r := strip_prefix "/projects/" r in
  let '(g3, _) := span is_digit r in
  if g3 =? "" then None else Some (fst g1, g2, g3).

Fixpoint re_search (s : string) : option (string * string * string) :=
  match re_match s with
  | Some g => Some g
  | None =>
      match s with
      | EmptyString => None
      | String _ s' => re_search s'
      end
  end.

(** [int(number)] on a string of decimal digits, as the exact integer: the
    cap an interpreter may put on the number of digits is left out. *)
Definition digit_value (c : ascii) : Z := Z.of_nat (nat_of_ascii c) - 48.

Fixpoint py_int_acc (acc : Z) (s : string) : Z :=
  match s with
  | EmptyString => acc
  | String c s' => py_int_acc (10 * acc + digit_value c) s'
  end.

Definition py_int (s : string) : Z := py_int_acc 0 s.

(** ** The GraphQL client and what is built on it *)

Record response : Type := {
  status_code : Z;
  text : string;
  decoded : option json  (** [response.json()]; [None] when the body is not JSON *)
}.

Definition a_acute : string := String (ascii_of_nat 225) "".

(** [d[k1][k2]...] *)
Fixpoint py_path (v : json) (ks : list string) : result json :=
  match ks with
  | [] => Ok v
  | k :: ks' => let* x := py_getitem v k in py_path x ks'
  end.

(** [data["data"][owner]["projectV2"]["id"], data["data"][owner]["projectV2"]["title"]] *)
Definition id_and_title (owner : string) (data : json) : result (json * json) :=
  let* id := py_path data ["data"; owner; "projectV2"; "id"] in
  let* title := py_path data ["data"; owner; "projectV2"; "title"] in
  Ok (id, title).

(** The body of the POST request and the variables of the items query. *)
Definition payload (query : string) (variables : json) : json :=
  JObj [("query", JStr query); ("variables", variables)].

Definition items_variables (project_id cursor : json) : json :=
  JObj [("projectId", project_id); ("cursor", cursor)].

Section Network.

Variable world : Type.

(** [requests.post(url, json=payload, headers=headers)] *)
Variable requests_post :
  string -> json -> list (string * string) -> world -> response * world.

(** The value of the environment variable; the scripts stop at start-up when
    it is unset. *)
Variable GITHUB_TOKEN : string.

Definition HEADERS : list (string * string) :=
  [("Authorization", "Bearer " ++ GITHUB_TOKEN)].

(** Computations that talk to the network and may raise. *)
Definition M (A : Type) : Type := world -> result A * world.

Definition ret {A : Type} (a : A) : M A := fun w => (Ok a, w).

Definition lift {A : Type} (r : result A) : M A := fun w => (r, w).

Definition mbind {A B : Type} (m : M A) (k : A -> M B) : M B :=
  fun w =>
    match m w with
    | (Ok a, w') => k a w'
    | (Raise e, w') => (Raise e, w')
    end.

Notation "'do*' x ':=' e 'in' k" := (mbind e (fun x => k))
  (at level 10, x name, e at level 100, k at level 200).

Definition run_query (query : string) (variables : json) : M json :=
  fun w =>
    let '(response, w') :=
      requests_post API_URL (payload query variables) HEADERS w in
    if negb (status_code response =? 200)%Z then
      (Raise (Exception ("Erro na API GitHub: "
                         ++ str_of_Z (status_code response) ++ ", "
                         ++ text response)), w')
    else
      match decoded response with
      | None => (Raise JSONDecodeError, w')
      | Some data =>
          (let* has_errors := py_in "errors" data in
           if has_errors then
             let* errors := py_getitem data "errors" in
             Raise (Exception ("Erro GraphQL: " ++ py_str errors))
           else Ok data, w')
      end.

Definition get_project_id_from_url (url : string) : M (json * json) :=
  match re_search url with
  | None => lift (Raise (ValueError ("URL inv" ++ a_acute ++ "lida de project: " ++ url)))
  | Some (entity_type, entity_name, number) =>
      if entity_type =? "orgs" then
        let variables :=
          JObj [("org", JStr entity_name); ("number", JNum (py_int number))] in
        do* data := run_query ORG_QUERY variables in
        lift (id_and_title "organization" data)
      else
        let variables :=
          JObj [("user", JStr entity_name); ("number", JNum (py_int number))] in
        do* data := run_query USER_QUERY variables in
        lift (id_and_title "user" data)
  end.

(** One iteration of the [while True] loop of [get_project_items]: the new
    [results], and the next cursor unless the loop breaks. *)
Definition fetch_page (query : string) (project_id cursor : json)
    (results : list json) : M (list json * option json) :=
  do* data := run_query query (items_variables project_id cursor) in
  lift (let* items := py_path data ["data"; "node"; "items"] in
        let* nodes := py_getitem items "nodes" in
        let* l := py_iter nodes in
        let results' := (results ++ l)%list in
        let* more := py_path items ["pageInfo"; "hasNextPage"] in
        if negb (truthy more) then Ok (results', None)
        else
          let* c := py_path items ["pageInfo"; "endCursor"] in
          Ok (results', Some c)).

(** The loop is unbounded in the source; [fuel] bounds the number of
    iterations and [None] is the loop still running when it is used up. *)
Fixpoint get_project_items_loop (fuel : nat) (query : string)
    (project_id cursor : json) (results : list json) (w : world)
  : option (result (list json)) * world :=
  match fuel with
  | O => (None, w)
  | S fuel' =>
      match fetch_page query project_id cursor results w with
      | (Raise e, w') => (Some (Raise e), w')
      | (Ok (results', None), w') => (Some (Ok results'), w')
      | (Ok (results', Some cursor'), w') =>
          get_project_items_loop fuel' query project_id cursor' results' w'
      end
  end.

(** [query] is the items query of the script at hand. *)
Definition get_project_items (fuel : nat) (query : string) (project_id : json)
    (w : world) : option (result (list json)) * world :=
  get_project_items_loop fuel query project_id JNull [] w.

End Network.

Arguments ret {world A} a.
Arguments lift {world A} r.
Arguments mbind {world A B} m k.

(** ** Dates

    Modelled library function: [dateutil.parser.isoparse], restricted to the
    format in which the API returns [closedAt], [YYYY-MM-DDTHH:MM:SSZ] with
    the hour below 24.  Any other string is outside this fragment and is given
    the error the library raises on malformed input. *)

Record datetime : Type := {
  year : Z; month : Z; day : Z;
  hour : Z; minute : Z; second : Z
}.

Fixpoint take_digits (n : nat) (acc : Z) (s : string) : option (Z * string) :=
  match n with
  | O => Some (acc, s)
  | S n' =>
      match s with
      | String c s' =>
          if is_digit c then take_digits n' (10 * acc + digit_value c) s'
          else None
      | EmptyString => None
      end
  end.

Definition expect (c : ascii) (s : string) : option string :=
  match s with
  | String c' s' => if (c' =? c)%char then Some s' else None
  | EmptyString => None
  end.

Definition is_leap (y : Z) : bool :=
  ((y mod 4 =? 0) && (negb (y mod 100 =? 0) || (y mod 400 =? 0)))%Z.

Definition days_in_month (y m : Z) : Z :=
  if (m =? 2)%Z then (if is_leap y then 29 else 28)
  else if ((m =? 4) || (m =? 6) || (m =? 9) || (m =? 11))%Z then 30
  else 31.

Definition valid_datetime (d : datetime) : bool :=
  ((1 <=? year d) && (1 <=? month d) && (month d <=? 12)
   && (1 <=? day d) && (day d <=? days_in_month (year d) (month d))
   && (hour d <=? 23) && (minute d <=? 59) && (second d <=? 59))%Z.

Definition isoparse_str (s : string) : option datetime :=
  let? y := take_digits 4 0 s in
  let? r := expect "-" (snd y) in
  let? m := take_digits 2 0 r in
  let? r := expect "-" (snd m) in
  let? d := take_digits 2 0 r in
  let? r := expect "T" (snd d) in
  let? h := take_digits 2 0 r in
  let? r := expect ":" (snd h) in
  let? mi := take_digits 2 0 r in
  let? r := expect ":" (snd mi) in
  let? se := take_digits 2 0 r in
  let? r := expect "Z" (snd se) in
  let dt := {| year := fst y; month := fst m; day := fst d;
               hour := fst h; minute := fst mi; second := fst se |} in
  if (r =? "") && valid_datetime dt then Some dt else None.

Definition isoparse (v : json) : result datetime :=
  match v with
  | JStr s =>
      match isoparse_str s with
      | Some dt => Ok dt
      | None => Raise IsoparseError
      end
  | _ => Raise TypeError
  end.

(** [format(n, "0<width>d")] for a natural number [n]. *)
Definition pad_zero (width : nat) (n : Z) : string :=
  let s := str_of_Z n in
  string_of_list_ascii (repeat "0"%char (width - String.length s)) ++ s.

(** [closed.date().isoformat()] *)
Definition date_isoformat (d : datetime) : string :=
  pad_zero 4 (year d) ++ "-" ++ pad_zero 2 (month d) ++ "-" ++ pad_zero 2 (day d).

(** [f"{closed.year}-{closed.month:02d}"] *)
Definition year_month (d : datetime) : string :=
  str_of_Z (year d) ++ "-" ++ pad_zero 2 (month d).

(** ** Dictionary keys

    A [dict], a [Counter] or a [set] identifies its keys by [==] and [hash]:
    among the decoded JSON values the lists and dicts are unhashable, and
    [True], [False] are the keys [1], [0]. *)

Inductive pykey : Type :=
| KNone
| KInt (z : Z)
| KStr (s : string).

Definition to_key (v : json) : result pykey :=
  match v with
  | JNull => Ok KNone
  | JBool b => Ok (KInt (if b then 1 else 0))
  | JNum z => Ok (KInt z)
  | JStr s => Ok (KStr s)
  | JArr _ | JObj _ => Raise TypeError
  end.

Definition pykey_eqb (a b : pykey) : bool :=
  match a, b with
  | KNone, KNone => true
  | KInt x, KInt y => (x =? y)%Z
  | KStr s, KStr t => s =? t
  | _, _ => false
  end.

(** ** Insertion-ordered dictionaries of lists and of counts *)

Section DefaultDict.

Context {K V : Type}.
Variable eqb : K -> K -> bool.

(** [d[k]] on a [defaultdict] followed by a mutation [upd] of the value found:
    a missing key is first bound, at the end, to the value [default] of the
    factory. *)
Fixpoint dd_update (k : K) (upd : V -> V) (default : V) (d : list (K * V))
  : list (K * V) :=
  match d with
  | [] => [(k, upd default)]
  | (k', v) :: rest =>
      if eqb k' k then (k', upd v) :: rest
      else (k', v) :: dd_update k upd default rest
  end.

End DefaultDict.

Section Grouping.

Context {K A : Type}.
Variable eqb : K -> K -> bool.

(** [d[k].append(x)] on a [defaultdict(list)]. *)
Definition dd_append (k : K) (x : A) (d : list (K * list A)) : list (K * list A) :=
  dd_update eqb k (fun xs => (xs ++ [x])%list) [] d.

(** [for x in l: d[key(x)].append(x)]; the key of an element may fail to
    hash. *)
Fixpoint group_by_loop (key : A -> result K) (l : list A) (d : list (K * list A))
  : result (list (K * list A)) :=
  match l with
  | [] => Ok d
  | x :: rest =>
      let* k := key x in
      group_by_loop key rest (dd_append k x d)
  end.

(** [c[k] += 1] on a [Counter]: a missing key counts for 0. *)
Definition counter_add (k : K) (c : list (K * nat)) : list (K * nat) :=
  dd_update eqb k S O c.

(** [Counter(l)] *)
Definition Counter (l : list K) : list (K * nat) :=
  fold_left (fun c k => counter_add k c) l [].

(** One representative of every key of [l]: the elements of [set(l)]. *)
Fixpoint distinct (l : list K) : list K :=
  match l with
  | [] => []
  | k :: rest => if existsb (eqb k) rest then distinct rest else k :: distinct rest
  end.

End Grouping.

(** [100.0 * count / total if total else 0], as the exact rational. *)
Definition percentage (count total : nat) : Q :=
  if (total =? 0)%nat then 0%Q
  else (100 * inject_Z (Z.of_nat count) / inject_Z (Z.of_nat total))%Q.

(** Evaluate [f] on every element, stopping at the first that raises. *)
Fixpoint mapM {A B : Type} (f : A -> result B) (l : list A) : result (list B) :=
  match l with
  | [] => Ok []
  | x :: rest =>
      let* y := f x in
      let* ys := mapM f rest in
      Ok (y :: ys)
  end.

(** [issue["parent"][k] if issue.get("parent") else ""] *)
Definition parent_field (issue : json) (k : string) : result json :=
  let* p := py_get issue "parent" JNull in
  if truthy p then py_path issue ["parent"; k] else Ok (JStr "").

(** ** [team_metrics.py]: the main block *)

Module TeamMetrics.

Record issue_dict : Type := {
  project : json;
  scope : json;
  type : json;
  repo : json;
  number : json;
  title : json;
  state : json;
  closedAt : json;
  parent_number : json;
  parent_title : json;
  assignees : list json
}.

(** [START_DATE <= closed.date().isoformat() <= END_DATE] *)
Definition in_date_range (closed : datetime) : bool :=
  (START_DATE <=? date_isoformat closed) && (date_isoformat closed <=? END_DATE).

(** The dictionary built for an item that passed the filter. *)
Definition build_issue_dict (project_title item issue : json) : result issue_dict :=
  let* tipo := extract_type item in
  let* scope := extract_scope item in
  let* assignees := extract_assignees item in
  let* repo := py_path issue ["repository"; "nameWithOwner"] in
  let* number := py_getitem issue "number" in
  let* title := py_getitem issue "title" in
  let* state := py_getitem issue "state" in
  let* closedAt := py_getitem issue "closedAt" in
  let* parent_number := parent_field issue "number" in
  let* parent_title := parent_field issue "title" in
  Ok {| project := project_title; scope := scope; type := tipo;
        repo := repo; number := number; title := title; state := state;
        closedAt := closedAt; parent_number := parent_number;
        parent_title := parent_title; assignees := assignees |}.

(** The body of the loop over [items]: [Ok None] on a [continue], the
    dictionary appended to [filtered_issues] otherwise. *)
Definition filter_item (project_title item : json) : result (option issue_dict) :=
  let* issue := py_get item "content" JNull in
  let* skip :=
    py_or (Ok (negb (truthy issue)))
          (let* c := py_get issue "closedAt" JNull in Ok (negb (truthy c))) in
  if skip then Ok None else
  let* c := py_getitem issue "closedAt" in
  let* closed := isoparse c in
  if negb (in_date_range closed) then Ok None else
  let* issue_dict := build_issue_dict project_title item issue in
  Ok (Some issue_dict).

Fixpoint filtered_issues (project_title : json) (items : list json)
  : result (list issue_dict) :=
  match items with
  | [] => Ok []
  | item :: rest =>
      let* r := filter_item project_title item in
      let* rs := filtered_issues project_title rest in
      Ok (match r with Some i => i :: rs | None => rs end)
  end.

Definition type_to_issues (filtered : list issue_dict)
  : result (list (pykey * list issue_dict)) :=
  group_by_loop pykey_eqb (fun i => to_key (type i)) filtered [].

(** One line of the summary: the type, its count, its percentage and the
    number of distinct assignees. *)
Definition report_line (total_issues : nat) (g : pykey * list issue_dict)
  : result (pykey * nat * Q * nat) :=
  let count := length (snd g) in
  let perc := percentage count total_issues in
  let* all_people := mapM to_key (concat (map assignees (snd g))) in
  Ok (fst g, count, perc, length (distinct pykey_eqb all_people)).

(** The total printed first and the lines that follow it. *)
Definition report (filtered : list issue_dict)
  : result (nat * list (pykey * nat * Q * nat)) :=
  let* groups := type_to_issues filtered in
  let total_issues := length filtered in
  let* lines := mapM (report_line total_issues) groups in
  Ok (total_issues, lines).

End TeamMetrics.

(** ** [capitalizacao.py]: the main block *)

Module Capitalizacao.

Record issue_dict : Type := {
  project : json;
  month : string;
  scope : json;
  type : json;
  repo : json;
  number : json;
  title : json;
  state : json;
  closedAt : json;
  parent_number : json;
  parent_title : json
}.

Definition month_scope_dict : Type :=
  list (string * list (pykey * list issue_dict)).

(** [month_scope_issues[m][s].append(i)] on the nested [defaultdict]. *)
Definition dd2_append (m : string) (s : pykey) (i : issue_dict)
    (d : month_scope_dict) : month_scope_dict :=
  dd_update String.eqb m (dd_append pykey_eqb s i) [] d.

(** The dictionary built for an item that passed the filter. *)
Definition build_issue_dict (project_title item issue : json)
    (closed_month : string) : result issue_dict :=
  let* tipo := extract_type item in
  let* scope := extract_scope item in
  let* repo := py_path issue ["repository"; "nameWithOwner"] in
  let* number := py_getitem issue "number" in
  let* title := py_getitem issue "title" in
  let* state := py_getitem issue "state" in
  let* closedAt := py_getitem issue "closedAt" in
  let* parent_number := parent_field issue "number" in
  let* parent_title := parent_field issue "title" in
  Ok {| project := project_title; month := closed_month; scope := scope;
        type := tipo; repo := repo; number := number; title := title;
        state := state; closedAt := closedAt;
        parent_number := parent_number; parent_title := parent_title |}.

(** The body of the loop over [items], up to the dictionary it builds:
    [Ok None] on a [continue]. *)
Definition filter_item (project_title item : json) : result (option issue_dict) :=
  let* issue := py_get item "content" JNull in
  let* skip :=
    py_or (Ok (negb (truthy issue)))
          (let* c := py_get issue "closedAt" JNull in Ok (negb (truthy c))) in
  if skip then Ok None else
  let* c := py_getitem issue "closedAt" in
  let* closed := isoparse c in
  let closed_month := year_month closed in
  if negb (existsb (String.eqb closed_month) FILTER_MONTHS) then Ok None else
  let* issue_dict := build_issue_dict project_title item issue closed_month in
  Ok (Some issue_dict).

(** The loop over [items], threading [month_scope_issues]. *)
Fixpoint month_scope_loop (project_title : json) (items : list json)
    (d : month_scope_dict) : result month_scope_dict :=
  match items with
  | [] => Ok d
  | item :: rest =>
      let* r := filter_item project_title item in
      match r with
      | None => month_scope_loop project_title rest d
      | Some i =>
          let* s := to_key (scope i) in
          month_scope_loop project_title rest (dd2_append (month i) s i d)
      end
  end.

(** The summary of one scope of one month: the total and, per type, the count
    and the percentage. *)
Definition scope_summary (issues : list issue_dict)
  : result (nat * list (pykey * nat * Q)) :=
  let total := length issues in
  let* types := mapM (fun i => to_key (type i)) issues in
  let type_counter := Counter pykey_eqb types in
  Ok (total, map (fun tc => (fst tc, snd tc, percentage (snd tc) total)) type_counter).

(** The report of one month: a summary per scope, and the rows of the CSV. *)
Definition month_report (scopes : list (pykey * list issue_dict))
  : result (list (pykey * (nat * list (pykey * nat * Q))) * list issue_dict) :=
  let* summaries :=
    mapM (fun g => let* s := scope_summary (snd g) in Ok (fst g, s)) scopes in
  Ok (summaries, concat (map snd scopes)).

Definition report (d : month_scope_dict) :=
  mapM (fun ms => let* r := month_report (snd ms) in Ok (fst ms, r)) d.

End Capitalizacao.

(** ** Vocabulary of the statements about the extractors *)

(** A string, [null] or nothing under key [k]. *)
Definition optional_str (k : string) (m : list (string * json)) : bool :=
  match lookup k m with
  | None | Some JNull | Some (JStr _) => true
  | Some _ => false
  end.

(** A field-value record as the items query selects it: [null], or an object
    whose [field], when present, is [null] or an object with a string [name],
    and whose [name] and [text] are strings and [number] a number when they
    are present and not [null]. The object is empty for a value of a kind the
    query does not select. *)
Definition wf_field_value (f : json) : bool :=
  match f with
  | JNull => true
  | JObj m =>
      match lookup "field" m with
      | None | Some JNull => true
      | Some (JObj fm) =>
          match lookup "name" fm with
          | None | Some (JStr _) => true
          | Some _ => false
          end
      | Some _ => false
      end
      && optional_str "name" m && optional_str "text" m
      && match lookup "number" m with
         | None | Some JNull | Some (JNum _) => true
         | Some _ => false
         end
  | _ => false
  end.

Definition wf_field_values (m : list (string * json)) : bool :=
  match lookup "fieldValues" m with
  | None => true
  | Some (JObj fv) =>
      match lookup "nodes" fv with
      | None => true
      | Some (JArr l) => forallb wf_field_value l
      | Some _ => false
      end
  | Some _ => false
  end.

Definition wf_content (m : list (string * json)) : bool :=
  match lookup "content" m with
  | None | Some JNull => true
  | Some (JObj c) =>
      match lookup "issueType" c with
      | None | Some JNull => true
      | Some (JObj t) => optional_str "name" t
      | Some _ => false
      end
  | Some _ => false
  end.

(** A raw item: an object with an optional [content] and a list of
    field-value records. *)
Definition wf_item (item : json) : bool :=
  match item with
  | JObj m => wf_field_values m && wf_content m
  | _ => false
  end.

(** The field-value records of an item. *)
Definition item_fields (item : json) : list json :=
  match item with
  | JObj m =>
      match lookup "fieldValues" m with
      | Some (JObj fv) =>
          match lookup "nodes" fv with
          | Some (JArr l) => l
          | _ => []
          end
      | _ => []
      end
  | _ => []
  end.

(** [f] is a field whose name, stripped and lowered, is [name] and whose
    coerced value is [v], not empty. *)
Definition populated_with (name : string) (f v : json) : Prop :=
  scan_field f = Ok (Some (name, v)).

Definition populated (name : string) (f : json) : bool :=
  match scan_field f with
  | Ok (Some (n, _)) => n =? name
  | _ => false
  end.

(** The name of the issue type of the content of an item, [null] when any
    step on the way to it is missing. *)
Definition issue_type_name (item : json) : json :=
  match item with
  | JObj m =>
      match lookup "content" m with
      | Some (JObj c) =>
          match lookup "issueType" c with
          | Some (JObj t) =>
              match lookup "name" t with
              | Some n => n
              | None => JNull
              end
          | _ => JNull
          end
      | _ => JNull
      end
  | _ => JNull
  end.

Fixpoint str_forall (f : ascii -> bool) (s : string) : bool :=
  match s with
  | EmptyString => true
  | String c s' => f c && str_forall f s'
  end.

(** An entry of the field-value list whose field is named [x]. *)
Definition named_entry (x : string) (fattrs rest : list (string * json)) : json :=
  JObj (("field", JObj (("name", JStr x) :: fattrs)) :: rest).

(** An item with the given field-value records. *)
Definition item_with_nodes (nodes : list json) (other : list (string * json)) : json :=
  JObj (("fieldValues", JObj [("nodes", JArr nodes)]) :: other).

Definition item_with_entry (pre : list json) (x : string)
    (fattrs rest : list (string * json)) (post : list json)
    (other : list (string * json)) : json :=
  item_with_nodes (pre ++ named_entry x fattrs rest :: post)%list other.

(** Nothing, [null] or the empty string under key [k]. *)
Definition empty_str (k : string) (m : list (string * json)) : bool :=
  match lookup k m with
  | None | Some JNull | Some (JStr EmptyString) => true
  | Some _ => false
  end.

(** A field-value record that is [null], has no field or a field without a
    name, or carries no value: neither a name nor a text that is not empty,
    nor a number. *)
Definition skippable (f : json) : bool :=
  match f with
  | JNull => true
  | JObj m =>
      match lookup "field" m with
      | None | Some JNull => true
      | Some (JObj fm) =>
          match lookup "name" fm with
          | None => true
          | Some _ => false
          end
      | Some _ => false
      end
      || (empty_str "name" m && empty_str "text" m
          && match lookup "number" m with
             | None | Some JNull => true
             | Some _ => false
             end)
  | _ => false
  end.

(** ** Vocabulary of the statements about the resolver and the fetch *)


(** [resp] is a successful answer to the items query carrying the nodes
    [items]; [next] is the cursor it announces, [None] when it reports that no
    page follows. *)
Definition page_response (resp : response) (items : list json) (next : option json)
  : Prop :=
  status_code resp = 200%Z /\
  exists data itemsobj more,
    decoded resp = Some data
    /\ py_in "errors" data = Ok false
    /\ py_path data ["data"; "node"; "items"] = Ok itemsobj
    /\ py_getitem itemsobj "nodes" = Ok (JArr items)
    /\ py_path itemsobj ["pageInfo"; "hasNextPage"] = Ok more
    /\ match next with
       | None => truthy more = false
       | Some c => truthy more = true
                   /\ py_path itemsobj ["pageInfo"; "endCursor"] = Ok c
       end.

(** The API answers the request for [cursor] with the first of [pages] and
    chains the others behind it by their cursors; the last one reports the
    end. *)
Inductive serves {world : Type}
    (requests_post : string -> json -> list (string * string) -> world -> response * world)
    (GITHUB_TOKEN query : string) (project_id : json)
  : world -> json -> list (list json) -> world -> Prop :=
| serves_last w cursor resp w' items :
    requests_post API_URL (payload query (items_variables project_id cursor))
                  (HEADERS GITHUB_TOKEN) w = (resp, w') ->
    page_response resp items None ->
    serves requests_post GITHUB_TOKEN query project_id w cursor [items] w'
| serves_more w cursor resp w1 items next pages w' :
    requests_post API_URL (payload query (items_variables project_id cursor))
                  (HEADERS GITHUB_TOKEN) w = (resp, w1) ->
    page_response resp items (Some next) ->
    serves requests_post GITHUB_TOKEN query project_id w1 next pages w' ->
    serves requests_post GITHUB_TOKEN query project_id w cursor (items :: pages) w'.

(** *** Test doubles of the API *)

(** An API that gives the same answer to every request. *)
Definition const_server (r : response)
  : string -> json -> list (string * string) -> unit -> response * unit :=
  fun _ _ _ w => (r, w).

Definition page_json (items : list json) (more : bool) (end_cursor : json) : json :=
  JObj [("data",
         JObj [("node",
                JObj [("items",
                       JObj [("pageInfo",
                              JObj [("hasNextPage", JBool more);
                                    ("endCursor", end_cursor)]);
                             ("nodes", JArr items)])])])].

Definition cursor_of_index (i : nat) : json :=
  JStr (NilEmpty.string_of_uint (Nat.to_uint i)).

Definition index_of_cursor (cursor : json) : option nat :=
  match cursor with
  | JNull => Some O
  | JStr s => option_map Nat.of_uint (NilEmpty.uint_of_string s)
  | _ => None
  end.

(** A stateless API that holds the items in the given pages: the cursor of a
    page is its index, in decimal. *)
Definition paged_server (pages : list (list json))
  : string -> json -> list (string * string) -> unit -> response * unit :=
  fun _ body _ w =>
    match (let* c := py_path body ["variables"; "cursor"] in
           match index_of_cursor c with
           | Some i => Ok i
           | None => Raise TypeError
           end) with
    | Ok i =>
        ({| status_code := 200; text := "";
            decoded := Some (page_json (nth i pages [])
                                       (S i <? length pages)%nat
                                       (cursor_of_index (S i))) |}, w)
    | Raise _ => ({| status_code := 400; text := "bad cursor"; decoded := None |}, w)
    end.

(** [l] cut into pages of [n] items, the last one possibly shorter. *)
Fixpoint chunks_upto {A : Type} (fuel n : nat) (l : list A) : list (list A) :=
  match fuel with
  | O => [l]
  | S fuel' =>
      if (length l <=? n)%nat then [l]
      else firstn n l :: chunks_upto fuel' n (skipn n l)
  end.

Definition chunks {A : Type} (n : nat) (l : list A) : list (list A) :=
  chunks_upto (length l) n l.

(** ** Vocabulary of the statements about dates *)

(** The calendar date as one number, [YYYYMMDD]. *)
Definition date_key (d : datetime) : Z := (year d * 10000 + month d * 100 + day d)%Z.

Definition month_day (m d : Z) : string := "-" ++ pad_zero 2 m ++ "-" ++ pad_zero 2 d.

Fixpoint nat_forall (n : nat) (f : nat -> bool) : bool :=
  match n with
  | O => true
  | S k => f k && nat_forall k f
  end.

Definition comparison_eqb (a b : comparison) : bool :=
  match a, b with
  | Eq, Eq | Lt, Lt | Gt, Gt => true
  | _, _ => false
  end.

(** ** Vocabulary of the statements about the reports *)


Section GroupingSpec.

Context {K A : Type}.
Variable eqb : K -> K -> bool.
Variable key : A -> result K.

(** [x] has the key [k]. *)
Definition has_key (k : K) (x : A) : bool :=
  match key x with
  | Ok k' => eqb k' k
  | Raise _ => false
  end.

(** [d] holds the elements of [l], each once, under their keys and in the
    order of [l]. *)
Record grouped (d : list (K * list A)) (l : list A) : Prop := {
  grouped_nodup : NoDup (map fst d);
  grouped_groups : forall k xs, In (k, xs) d -> xs = filter (has_key k) l /\ xs <> [];
  grouped_cover : forall x, In x l -> exists k, key x = Ok k /\ In k (map fst d);
  grouped_perm : Permutation (concat (map snd d)) l
}.

(** [c] counts the occurrences of every key of [ks]. *)
Record counted (c : list (K * nat)) (ks : list K) : Prop := {
  counted_nodup : NoDup (map fst c);
  counted_counts : forall k n, In (k, n) c ->
                     n = length (filter (fun k' => eqb k' k) ks) /\ n <> O;
  counted_cover : forall k, In k ks -> In k (map fst c);
  counted_total : list_sum (map snd c) = length ks
}.

End GroupingSpec.

Definition line_type (line : pykey * nat * Q * nat) : pykey := fst (fst (fst line)).
Definition line_count (line : pykey * nat * Q * nat) : nat := snd (fst (fst line)).
Definition line_perc (line : pykey * nat * Q * nat) : Q := snd (fst line).

Definition tm_type_key (i : TeamMetrics.issue_dict) : result pykey :=
  to_key (TeamMetrics.type i).

Definition cap_type_key (i : Capitalizacao.issue_dict) : result pykey :=
  to_key (Capitalizacao.type i).

Definition cap_scope_key (i : Capitalizacao.issue_dict) : result pykey :=
  to_key (Capitalizacao.scope i).

Definition in_month (m : string) (i : Capitalizacao.issue_dict) : bool :=
  Capitalizacao.month i =? m.

(** The issues that pass the filter of [capitalizacao.py], in the order of
    the items. *)
Fixpoint cap_extracted (project_title : json) (items : list json)
  : result (list Capitalizacao.issue_dict) :=
  match items with
  | [] => Ok []
  | item :: rest =>
      let* r := Capitalizacao.filter_item project_title item in
      let* rs := cap_extracted project_title rest in
      Ok (match r with Some i => i :: rs | None => rs end)
  end.

(** [d] holds the issues [rows], each once: under every month the issues of
    that month, grouped by scope. *)
Record month_grouped (d : Capitalizacao.month_scope_dict)
    (rows : list Capitalizacao.issue_dict) : Prop := {
  month_nodup : NoDup (map fst d);
  month_groups : forall m scopes, In (m, scopes) d ->
      grouped pykey_eqb cap_scope_key scopes (filter (in_month m) rows);
  month_cover : forall i, In i rows -> In (Capitalizacao.month i) (map fst d);
  month_perm : Permutation (concat (map snd (concat (map snd d)))) rows
}.

(** ** Vocabulary of the statements about the rest of the code *)

(** The record [m] of a field-value entry has a field object with the name
    [fname]. *)
Definition field_named (m : list (string * json)) (fname : string) : Prop :=
  exists p fm, lookup "field" m = Some (JObj (p :: fm))
               /\ lookup "name" (p :: fm) = Some (JStr fname).

(** The two values the loop of [extract_type] leaves, on the entries of an
    item. *)
Definition kind_and_type (item : json) : result (json * json) :=
  let* nodes := field_nodes item in
  match nodes with
  | Some l => extract_type_loop l JNull JNull
  | None => Ok (JNull, JNull)
  end.

(** The login of an assignee node, when it has one that is not empty. *)
Definition login_of (a : json) : option json :=
  match a with
  | JObj m =>
      match lookup "login" m with
      | Some (JStr s) => if s =? "" then None else Some (JStr s)
      | _ => None
      end
  | _ => None
  end.

(** The assignee nodes of the content of an item. *)
Definition assignee_nodes (item : json) : list json :=
  match item with
  | JObj m =>
      match lookup "content" m with
      | Some (JObj c) =>
          match lookup "assignees" c with
          | Some (JObj a) =>
              match lookup "nodes" a with
              | Some (JArr l) => l
              | _ => []
              end
          | _ => []
          end
      | _ => []
      end
  | _ => []
  end.

Definition wf_login_node (a : json) : bool :=
  match a with
  | JNull => true
  | JObj m => optional_str "login" m
  | _ => false
  end.

(** The assignees of the content, as the items query selects them: nothing,
    [null], or an object whose nodes, when present, are a list of [null]s and
    of objects with a string login. *)
Definition wf_assignees (item : json) : bool :=
  match item with
  | JObj m =>
      match lookup "content" m with
      | None | Some JNull => true
      | Some (JObj c) =>
          match lookup "assignees" c with
          | None | Some JNull => true
          | Some (JObj a) =>
              match lookup "nodes" a with
              | None => true
              | Some (JArr l) => forallb wf_login_node l
              | Some _ => false
              end
          | Some _ => false
          end
      | Some _ => false
      end
  | _ => false
  end.

Fixpoint choose {A B : Type} (f : A -> option B) (l : list A) : list B :=
  match l with
  | [] => []
  | x :: rest =>
      match f x with
      | Some y => y :: choose f rest
      | None => choose f rest
      end
  end.

(** The API answers the requests from [cursor] on with the pages [pages],
    each announcing a next one; [cursor'] is the cursor the last of them
    announces. *)
Inductive serves_on {world : Type}
    (requests_post : string -> json -> list (string * string) -> world -> response * world)
    (GITHUB_TOKEN query : string) (project_id : json)
  : world -> json -> list (list json) -> world -> json -> Prop :=
| serves_on_nil w cursor :
    serves_on requests_post GITHUB_TOKEN query project_id w cursor [] w cursor
| serves_on_cons w cursor resp w1 items next pages w' cursor' :
    requests_post API_URL (payload query (items_variables project_id cursor))
                  (HEADERS GITHUB_TOKEN) w = (resp, w1) ->
    page_response resp items (Some next) ->
    serves_on requests_post GITHUB_TOKEN query project_id w1 next pages w' cursor' ->
    serves_on requests_post GITHUB_TOKEN query project_id w cursor (items :: pages)
              w' cursor'.

(** A request as the API sees it: URL, body and headers. *)
Definition request : Type := (string * json * list (string * string))%type.

(** The API [requests_post] with a record of the requests made. *)
Definition logged {world : Type}
    (requests_post : string -> json -> list (string * string) -> world -> response * world)
  : string -> json -> list (string * string) -> world * list request
    -> response * (world * list request) :=
  fun url body headers wl =>
    let '(r, w') := requests_post url body headers (fst wl) in
    (r, (w', (snd wl ++ [(url, body, headers)])%list)).

(** What a row of [team_metrics.py] records of the item it was built from:
    the project, what the extractors give, a date of closing in the range,
    and the members of the issue. *)
Definition row_of_item (project_title item : json) (r : TeamMetrics.issue_dict) : Prop :=
  TeamMetrics.project r = project_title
  /\ extract_type item = Ok (TeamMetrics.type r)
  /\ extract_scope item = Ok (TeamMetrics.scope r)
  /\ extract_assignees item = Ok (TeamMetrics.assignees r)
  /\ (exists s dt, TeamMetrics.closedAt r = JStr s /\ isoparse_str s = Some dt
                   /\ (20251007 <= date_key dt <= 20251210)%Z)
  /\ exists issue,
       py_get item "content" JNull = Ok issue
       /\ py_path issue ["repository"; "nameWithOwner"] = Ok (TeamMetrics.repo r)
       /\ py_getitem issue "number" = Ok (TeamMetrics.number r)
       /\ py_getitem issue "title" = Ok (TeamMetrics.title r)
       /\ py_getitem issue "state" = Ok (TeamMetrics.state r)
       /\ py_getitem issue "closedAt" = Ok (TeamMetrics.closedAt r)
       /\ parent_field issue "number" = Ok (TeamMetrics.parent_number r)
       /\ parent_field issue "title" = Ok (TeamMetrics.parent_title r).

(** [rows] are built from a selection of [items], in their order. *)
Inductive rows_of {R : Type} (built : json -> R -> Prop) : list json -> list R -> Prop :=
| rows_of_nil : rows_of built [] []
| rows_of_skip item items rows :
    rows_of built items rows -> rows_of built (item :: items) rows
| rows_of_keep item items r rows :
    built item r -> rows_of built items rows ->
    rows_of built (item :: items) (r :: rows).

(** What a row of [capitalizacao.py] records of the item it was built from. *)
Definition month_row_of_item (project_title item : json)
    (r : Capitalizacao.issue_dict) : Prop :=
  Capitalizacao.project r = project_title
  /\ Capitalizacao.month r = "2025-09"
  /\ extract_type item = Ok (Capitalizacao.type r)
  /\ extract_scope item = Ok (Capitalizacao.scope r)
  /\ (exists s dt, Capitalizacao.closedAt r = JStr s /\ isoparse_str s = Some dt
                   /\ year dt = 2025%Z /\ month dt = 9%Z)
  /\ exists issue,
       py_get item "content" JNull = Ok issue
       /\ py_path issue ["repository"; "nameWithOwner"] = Ok (Capitalizacao.repo r)
       /\ py_getitem issue "number" = Ok (Capitalizacao.number r)
       /\ py_getitem issue "title" = Ok (Capitalizacao.title r)
       /\ py_getitem issue "state" = Ok (Capitalizacao.state r)
       /\ py_getitem issue "closedAt" = Ok (Capitalizacao.closedAt r)
       /\ parent_field issue "number" = Ok (Capitalizacao.parent_number r)
       /\ parent_field issue "title" = Ok (Capitalizacao.parent_title r).

(** The keys of [l] in the order in which they first appear. *)
Fixpoint first_seen {K : Type} (eqb : K -> K -> bool) (l : list K) : list K :=
  match l with
  | [] => []
  | k :: rest => k :: filter (fun k' => negb (eqb k' k)) (first_seen eqb rest)
  end.

(** [x] is not among the keys [ks]. *)
Definition not_among {K : Type} (eqb : K -> K -> bool) (ks : list K) (x : K) : bool :=
  negb (existsb (fun k => eqb k x) ks).

Definition line_people (line : pykey * nat * Q * nat) : nat := snd line.

Definition present (k : string) (m : list (string * json)) : bool :=
  match lookup k m with
  | Some _ => true
  | None => false
  end.

(** The parent of an issue: nothing, [null], an empty object, or an object
    with a number and a title. *)
Definition wf_parent (c : list (string * json)) : bool :=
  match lookup "parent" c with
  | None | Some JNull | Some (JObj []) => true
  | Some (JObj p) => present "number" p && present "title" p
  | Some _ => false
  end.

(** An issue that is not closed, or is closed at a date in the format of the
    API and has the members the rows are built from. *)
Definition complete_issue (c : list (string * json)) : bool :=
  match lookup "closedAt" c with
  | None | Some JNull => true
  | Some (JStr s) =>
      (s =? "")
      || (match isoparse_str s with Some _ => true | None => false end
          && match lookup "repository" c with
             | Some (JObj r) => present "nameWithOwner" r
             | _ => false
             end
          && present "number" c && present "title" c && present "state" c
          && wf_parent c)
  | Some _ => false
  end.

(** An item of the shape the items query gives. *)
Definition complete_item (item : json) : bool :=
  wf_item item && wf_assignees item
  && match item with
     | JObj m =>
         match lookup "content" m with
         | Some (JObj c) => complete_issue c
         | _ => true
         end
     | _ => false
     end.

Definition nonempty_str (v : json) : Prop := exists s, v = JStr s /\ s <> "".

(** ** The names of the files of rows *)






(** ** Sample data *)

(** A single-select value of the field [field_name]. *)
Definition select_entry (field_name value : string) : json :=
  named_entry field_name [] [("name", JStr value)].

Definition item_type_then_kind : json :=
  item_with_nodes [select_entry "Type" "Feature"; select_entry "Kind" "Bug"] [].

Definition item_two_kinds : json :=
  item_with_nodes [select_entry "Kind" "A"; select_entry "Kind" "B"] [].

(** A text value of a field that has no name. *)
Definition nameless_entry : json :=
  JObj [("field", JObj [("id", JStr "F1")]); ("text", JStr "Core")].

Definition item_with_scope : json :=
  item_with_nodes [JNull; JObj []; select_entry "Scope" "Core"] [].

(** A closed issue with a Kind, as the items query returns it. *)
Definition issue_content (closed : string) : list (string * json) :=
  [("closedAt", JStr closed);
   ("repository", JObj [("nameWithOwner", JStr "stack-spot/portal")]);
   ("number", JNum 7); ("title", JStr "t"); ("state", JStr "CLOSED")].

Definition closed_issue_members (closed kind : string) : list (string * json) :=
  [("content", JObj (issue_content closed));
   ("fieldValues", JObj [("nodes", JArr [select_entry "Kind" kind])])].

Definition closed_issue (closed kind : string) : json :=
  JObj (closed_issue_members closed kind).

Definition ok_response (data : json) : response :=
  {| status_code := 200; text := ""; decoded := Some data |}.

Definition fixture_120 : list json := map (fun n => JNum (Z.of_nat n)) (seq 0 120).

(** Three issues closed in September 2025, two of kind Bug and one of kind
    Feature. *)
Definition september_items : list json :=
  [closed_issue "2025-09-02T10:00:00Z" "Bug";
   closed_issue "2025-09-15T10:00:00Z" "Bug";
   closed_issue "2025-09-30T10:00:00Z" "Feature"].

Definition september_dict : Capitalizacao.month_scope_dict :=
  Eval vm_compute in
    match Capitalizacao.month_scope_loop (JStr "Portal") september_items [] with
    | Ok d => d
    | Raise _ => []
    end.


(** Three issues closed in the range of [team_metrics.py]. *)
Definition october_rows : list TeamMetrics.issue_dict :=
  Eval vm_compute in
    match TeamMetrics.filtered_issues (JStr "Portal")
            [closed_issue "2025-10-07T23:59:59Z" "Bug";
             closed_issue "2025-11-15T10:00:00Z" "Bug";
             closed_issue "2025-12-10T00:00:00Z" "Feature"] with
    | Ok l => l
    | Raise _ => []
    end.

Definition october_lines : list (pykey * nat * Q * nat) :=
  [(KStr "Bug", 2%nat, percentage 2 3, 0%nat);
   (KStr "Feature", 1%nat, percentage 1 3, 0%nat)].



(** A number value of a field whose name is padded with blanks. *)
Definition points_entry_members : list (string * json) :=
  [("field", JObj [("name", JStr " Story Points ")]); ("number", JNum 5)].

Definition item_two_types : json :=
  item_with_nodes [select_entry "Type" "Feature"; select_entry "Type" "Task"] [].

(** An item with no field values, whose issue has a type. *)
Definition item_with_issue_type : json :=
  JObj [("content", JObj [("issueType", JObj [("name", JStr "Bug")])])].

(** A text value of a field whose name is [null]. *)
Definition null_name_members : list (string * json) :=
  [("field", JObj [("name", JNull)]); ("text", JStr "x")].

(** An issue with two assignees among nodes that carry no login. *)
Definition assigned_item : json :=
  JObj [("content",
         JObj [("assignees",
                JObj [("nodes",
                       JArr [JObj [("login", JStr "ana")]; JNull;
                             JObj [("login", JStr "")];
                             JObj [("login", JStr "bia")]])])])].

(** A pull request on the board: the query selects nothing of it. *)
Definition pull_request_members : list (string * json) :=
  [("content", JObj []); ("fieldValues", JNull)].

(** An API that answers its first [good] requests as [paged_server] does and
    every later one with the status 502; its state is the number of requests
    it has seen. *)
Definition flaky_server (good : nat) (pages : list (list json))
  : string -> json -> list (string * string) -> nat -> response * nat :=
  fun url body headers n =>
    if (n <? good)%nat then (fst (paged_server pages url body headers tt), S n)
    else ({| status_code := 502; text := "Bad Gateway"; decoded := None |}, S n).

(** The answer of the API for a project that exists. *)
Definition project_response : response :=
  ok_response
    (JObj [("data",
            JObj [("organization",
                   JObj [("projectV2",
                          JObj [("id", JStr "PVT_1"); ("title", JStr "Portal")])])])]).

(** The answer of the API for a project that does not exist, or that the
    token may not see. *)
Definition no_project_response : response :=
  ok_response (JObj [("data", JObj [("organization", JObj [("projectV2", JNull)])])]).

Definition october_items : list json :=
  [closed_issue "2025-10-07T23:59:59Z" "Bug";
   closed_issue "2025-11-15T10:00:00Z" "Bug";
   closed_issue "2025-12-10T00:00:00Z" "Feature"].

(** The items of September with one closed in October among them. *)
Definition autumn_items : list json :=
  closed_issue "2025-10-07T23:59:59Z" "Bug" :: september_items.

Definition september_scopes : list (pykey * list Capitalizacao.issue_dict) :=
  Eval vm_compute in concat (map snd september_dict).

(** A closed issue of the given kind with the given assignees. *)
Definition assigned_issue (closed kind : string) (people : list string) : json :=
  JObj [("content",
         JObj (issue_content closed
               ++ [("assignees",
                    JObj [("nodes",
                           JArr (map (fun p => JObj [("login", JStr p)]) people))])])%list);
        ("fieldValues", JObj [("nodes", JArr [select_entry "Kind" kind])])].

(** Two issues of kind Bug that share an assignee. *)
Definition shared_rows : list TeamMetrics.issue_dict :=
  Eval vm_compute in
    match TeamMetrics.filtered_issues (JStr "Portal")
            [assigned_issue "2025-10-08T10:00:00Z" "Bug" ["ana"; "bia"];
             assigned_issue "2025-10-09T10:00:00Z" "Bug" ["bia"]] with
    | Ok l => l
    | Raise _ => []
    end.

Definition shared_lines : list (pykey * nat * Q * nat) :=
  [(KStr "Bug", 2%nat, percentage 2 2, 2%nat)].
(** * Properties *)

(** ** Field extractors *)

(** Case analysis on the scrutinee of a [match] of the goal or of a
    hypothesis. *)
Ltac destr_match :=
  match goal with
  | H : context [match ?x with _ => _ end] |- _ =>
      lazymatch x with
      | context [match _ with _ => _ end] => fail
      | _ => let E := fresh "E" in destruct x eqn:E
      end
  | |- context [match ?x with _ => _ end] =>
      lazymatch x with
      | context [match _ with _ => _ end] => fail
      | _ => let E := fresh "E" in destruct x eqn:E
      end
  end.

(** Closes a goal about the outcome of [scan_field] once it is computed. *)
Ltac scan_done :=
  eexists; split; [reflexivity|];
  let n := fresh "n" in let v := fresh "v" in let X := fresh "X" in
  intros n v X;
  solve [ discriminate X
        | inversion X; subst; eexists; split; [reflexivity|];
          let Hs := fresh in
          intro Hs;
          repeat match goal with
                 | H : context [String.eqb _ _] |- _ =>
                     first [rewrite Hs in H | subst]; cbn in H
                 end;
          congruence ].

(** A value is the one before the step, or the one of a field of the list. *)
Ltac keep_or_found f :=
  match goal with
  | H : _ = _ \/ (exists g, In g _ /\ _) |- _ = _ \/ (exists g, In g (_ :: _) /\ _) =>
      destruct H as [->|(?g & ?Hg & ?Pg)];
      [first [left; reflexivity | right; exists f; split; [left; reflexivity|assumption]]
      |right; eexists; split; [right; eassumption|assumption]]
  end.

Lemma truthy_str (s : string) : truthy (JStr s) = true -> s <> "".
Proof.
  simpl. intros H E. subst. discriminate.
Qed.

Lemma scan_field_wf (f : json) :
  wf_field_value f = true ->
  exists r, scan_field f = Ok r /\
            forall n v, r = Some (n, v) -> exists s, v = JStr s /\ s <> "".
Proof.
  intro W. destruct f; try discriminate.
  - scan_done.
  - unfold wf_field_value, optional_str in W.
    unfold scan_field, py_or, py_and, py_not, py_in, py_getitem, py_get, py_strip_lower, bind.
    destruct m as [|p m]; [scan_done|].
    cbn [truthy negb].
    repeat (destr_match; try discriminate; subst; cbn [truthy negb is_none py_str bind] in * );
    try scan_done.
Qed.

Lemma field_nodes_wf (item : json) :
  wf_item item = true ->
  (field_nodes item = Ok (Some (item_fields item))
   \/ (field_nodes item = Ok None /\ item_fields item = []))
  /\ forallb wf_field_value (item_fields item) = true.
Proof.
  destruct item; try discriminate. simpl. intro W.
  apply andb_true_iff in W. destruct W as [W _].
  unfold wf_field_values in W. unfold field_nodes, py_and, py_in, py_getitem, py_iter, bind.
  destruct (lookup "fieldValues" m) as [fv|]; [|split; [right|]; auto].
  destruct fv; try discriminate.
  destruct (lookup "nodes" m0) as [ns|]; [|split; [right|]; auto].
  destruct ns; try discriminate. split; [left|]; auto.
Qed.

Lemma extract_type_loop_cons (f : json) (rest : list json) (k t : json) :
  extract_type_loop (f :: rest) k t =
  let* e := scan_field f in
  match e with
  | None => extract_type_loop rest k t
  | Some (n, v) =>
      if n =? py_lower KIND_FIELD then extract_type_loop rest v t
      else if n =? py_lower TYPE_FIELD then extract_type_loop rest k v
      else extract_type_loop rest k t
  end.
Proof. reflexivity. Qed.

Lemma extract_scope_loop_cons (f : json) (rest : list json) :
  extract_scope_loop (f :: rest) =
  let* e := scan_field f in
  match e with
  | None => extract_scope_loop rest
  | Some (n, v) =>
      if n =? py_lower SCOPE_FIELD then Ok (Some v) else extract_scope_loop rest
  end.
Proof. reflexivity. Qed.

Lemma extract_type_loop_app (l1 l2 : list json) (k t : json) :
  extract_type_loop (l1 ++ l2) k t =
  let* kt := extract_type_loop l1 k t in extract_type_loop l2 (fst kt) (snd kt).
Proof.
  revert k t. induction l1 as [|f l1 IH]; intros k t.
  - reflexivity.
  - rewrite <- app_comm_cons, !extract_type_loop_cons.
    destruct (scan_field f) as [[[n v]|]|e]; cbn [bind]; auto.
    destruct (n =? py_lower KIND_FIELD); [apply IH|].
    destruct (n =? py_lower TYPE_FIELD); apply IH.
Qed.

(** Along well-formed records the loop of [extract_type] does not raise, and
    each of the two values it returns is the one it started with or the
    value of a populated field of that name. *)
Lemma extract_type_loop_wf (l : list json) :
  forallb wf_field_value l = true ->
  forall k t, exists k' t',
    extract_type_loop l k t = Ok (k', t')
    /\ (k' = k \/ exists f, In f l /\ populated_with (py_lower KIND_FIELD) f k')
    /\ (t' = t \/ exists f, In f l /\ populated_with (py_lower TYPE_FIELD) f t').
Proof.
  induction l as [|f l IH]; intros W k t.
  - exists k, t. cbn. auto.
  - cbn [forallb] in W. apply andb_true_iff in W. destruct W as [Wf Wl].
    destruct (scan_field_wf f Wf) as (r & Hr & _).
    rewrite extract_type_loop_cons, Hr. cbn [bind].
    destruct r as [[n v]|].
    + destruct (n =? py_lower KIND_FIELD) eqn:En;
        [|destruct (n =? py_lower TYPE_FIELD) eqn:Et];
        try (apply String.eqb_eq in En); try (apply String.eqb_eq in Et); subst.
      * destruct (IH Wl v t) as (k' & t' & H1 & H2 & H3).
        exists k', t'. split; [exact H1|]. split.
        -- right. destruct H2 as [->|(g & Hg & Pg)];
             [exists f; split; [left; reflexivity|exact Hr]
             |exists g; split; [right; exact Hg|exact Pg]].
        -- keep_or_found f.
      * destruct (IH Wl k v) as (k' & t' & H1 & H2 & H3).
        exists k', t'. split; [exact H1|]. split.
        -- keep_or_found f.
        -- right. destruct H3 as [->|(g & Hg & Pg)];
             [exists f; split; [left; reflexivity|exact Hr]
             |exists g; split; [right; exact Hg|exact Pg]].
      * destruct (IH Wl k t) as (k' & t' & H1 & H2 & H3).
        exists k', t'. split; [exact H1|]. split; keep_or_found f.
    + destruct (IH Wl k t) as (k' & t' & H1 & H2 & H3).
      exists k', t'. split; [exact H1|]. split; keep_or_found f.
Qed.

(** Records without a populated field of a name leave the value of that name
    as it was. *)
Lemma extract_type_loop_no_kind (l : list json) :
  forallb wf_field_value l = true ->
  existsb (populated (py_lower KIND_FIELD)) l = false ->
  forall k t, exists t', extract_type_loop l k t = Ok (k, t').
Proof.
  induction l as [|f l IH]; intros W N k t.
  - exists t. reflexivity.
  - cbn [forallb existsb] in W, N. apply andb_true_iff in W. destruct W as [Wf Wl].
    apply orb_false_iff in N. destruct N as [Nf Nl].
    destruct (scan_field_wf f Wf) as (r & Hr & _).
    unfold populated in Nf. rewrite extract_type_loop_cons. rewrite Hr in *. cbn [bind].
    destruct r as [[n v]|]; [|apply IH; auto].
    rewrite Nf. destruct (n =? py_lower TYPE_FIELD); apply IH; auto.
Qed.

Lemma extract_type_loop_no_type (l : list json) :
  forallb wf_field_value l = true ->
  existsb (populated (py_lower TYPE_FIELD)) l = false ->
  forall k t, exists k', extract_type_loop l k t = Ok (k', t).
Proof.
  induction l as [|f l IH]; intros W N k t.
  - exists k. reflexivity.
  - cbn [forallb existsb] in W, N. apply andb_true_iff in W. destruct W as [Wf Wl].
    apply orb_false_iff in N. destruct N as [Nf Nl].
    destruct (scan_field_wf f Wf) as (r & Hr & _).
    unfold populated in Nf. rewrite extract_type_loop_cons. rewrite Hr in *. cbn [bind].
    destruct r as [[n v]|]; [|apply IH; auto].
    rewrite Nf. destruct (n =? py_lower KIND_FIELD); apply IH; auto.
Qed.

Lemma populated_with_truthy (name : string) (f v : json) :
  populated_with name f v -> truthy v = true.
Proof.
  unfold populated_with, scan_field. intro H.
  repeat match type of H with
  | bind ?x _ = _ => destruct x; cbn [bind] in H; try discriminate
  | (if ?x then _ else _) = _ => destruct x eqn:?; try discriminate
  end.
  inversion H; subst. apply negb_false_iff. assumption.
Qed.

Lemma extract_scope_loop_wf (l : list json) :
  forallb wf_field_value l = true ->
  exists r, extract_scope_loop l = Ok r
            /\ (forall v, r = Some v -> exists s, v = JStr s /\ s <> "")
            /\ (existsb (populated (py_lower SCOPE_FIELD)) l = false -> r = None).
Proof.
  induction l as [|f l IH]; intro W.
  - exists None. cbn. repeat split; auto. discriminate.
  - cbn [forallb] in W. apply andb_true_iff in W. destruct W as [Wf Wl].
    destruct (scan_field_wf f Wf) as (r & Hr & Hv).
    destruct (IH Wl) as (r' & H1 & H2 & H3).
    rewrite extract_scope_loop_cons, Hr. cbn [bind existsb]. unfold populated at 1. rewrite Hr.
    destruct r as [[n v]|].
    + destruct (n =? py_lower SCOPE_FIELD).
      * exists (Some v). split; [reflexivity|]. split.
        -- intros v' E. inversion E; subst. eapply Hv; reflexivity.
        -- discriminate.
      * exists r'. auto.
    + exists r'. auto.
Qed.

Lemma field_nodes_some (item : json) (f : json) :
  wf_item item = true -> In f (item_fields item) ->
  field_nodes item = Ok (Some (item_fields item)).
Proof.
  intros W I. destruct (field_nodes_wf item W) as [[H|[_ H]] _]; [exact H|].
  rewrite H in I. contradiction.
Qed.

Lemma extract_type_of_kind (item : json) (l : list json) (k t : json) :
  field_nodes item = Ok (Some l) ->
  extract_type_loop l JNull JNull = Ok (k, t) ->
  truthy k = true ->
  extract_type item = Ok k.
Proof.
  intros Hn Hl Hk. unfold extract_type. rewrite Hn. cbn [bind].
  rewrite Hl. cbn [bind]. rewrite Hk. reflexivity.
Qed.

(** The value of a populated Kind field wins, and it is the one of the last
    such field. *)
Lemma extract_type_kind_split (item : json) (l1 l2 : list json) (fk vk : json) :
  wf_item item = true ->
  item_fields item = (l1 ++ fk :: l2)%list ->
  populated_with (py_lower KIND_FIELD) fk vk ->
  exists f v,
    In f (fk :: l2) /\ populated_with (py_lower KIND_FIELD) f v
    /\ extract_type item = Ok v
    /\ (existsb (populated (py_lower KIND_FIELD)) l2 = false -> v = vk).
Proof.
  intros W E P.
  assert (I : In fk (item_fields item)) by (rewrite E; apply in_elt).
  pose proof (field_nodes_some item fk W I) as Hn.
  destruct (field_nodes_wf item W) as [_ Wl]. rewrite E in Wl.
  rewrite forallb_app in Wl. apply andb_true_iff in Wl. destruct Wl as [W1 W2].
  cbn [forallb] in W2. apply andb_true_iff in W2. destruct W2 as [_ W2].
  destruct (extract_type_loop_wf l1 W1 JNull JNull) as (k1 & t1 & H1 & _).
  destruct (extract_type_loop_wf l2 W2 vk t1) as (k2 & t2 & H2 & Hk & _).
  assert (Hl : extract_type_loop (item_fields item) JNull JNull = Ok (k2, t2)).
  { rewrite E, extract_type_loop_app, H1. cbn [bind fst snd].
    rewrite extract_type_loop_cons. unfold populated_with in P. rewrite P.
    cbn [bind]. rewrite String.eqb_refl. exact H2. }
  destruct Hk as [->|(g & Hg & Pg)].
  - exists fk, vk. split; [left; reflexivity|]. split; [exact P|]. split; [|reflexivity].
    eapply extract_type_of_kind; eauto. eapply populated_with_truthy; eauto.
  - exists g, k2. split; [right; exact Hg|]. split; [exact Pg|]. split.
    + eapply extract_type_of_kind; eauto. eapply populated_with_truthy; eauto.
    + intro N. destruct (extract_type_loop_no_kind l2 W2 N vk t1) as (t' & H').
      rewrite H' in H2. inversion H2. reflexivity.
Qed.

Lemma extract_scope_nonempty (item : json) :
  wf_item item = true ->
  exists s, extract_scope item = Ok (JStr s) /\ s <> "".
Proof.
  intro W. destruct (field_nodes_wf item W) as [Hn Wl].
  destruct (extract_scope_loop_wf _ Wl) as (r & H1 & H2 & _).
  unfold extract_scope.
  destruct Hn as [Hn|[Hn _]]; rewrite Hn; cbn [bind].
  - rewrite H1. cbn [bind]. destruct r as [v|].
    + destruct (H2 v eq_refl) as (s & -> & Hs). exists s. auto.
    + exists "Sem Scope". split; [reflexivity|discriminate].
  - exists "Sem Scope". split; [reflexivity|discriminate].
Qed.

Lemma extract_scope_absent (item : json) :
  wf_item item = true ->
  existsb (populated (py_lower SCOPE_FIELD)) (item_fields item) = false ->
  extract_scope item = Ok (JStr "Sem Scope").
Proof.
  intros W N. destruct (field_nodes_wf item W) as [Hn Wl].
  destruct (extract_scope_loop_wf _ Wl) as (r & H1 & _ & H3).
  unfold extract_scope.
  destruct Hn as [Hn|[Hn _]]; rewrite Hn; cbn [bind]; [|reflexivity].
  rewrite H1, (H3 N). reflexivity.
Qed.

Lemma extract_type_absent (item : json) :
  wf_item item = true ->
  existsb (populated (py_lower KIND_FIELD)) (item_fields item) = false ->
  existsb (populated (py_lower TYPE_FIELD)) (item_fields item) = false ->
  truthy (issue_type_name item) = false ->
  extract_type item = Ok (JStr "Desconhecido").
Proof.
  intros W Nk Nt Ni. destruct (field_nodes_wf item W) as [Hn Wl].
  destruct (extract_type_loop_no_kind _ Wl Nk JNull JNull) as (t' & Hk).
  destruct (extract_type_loop_no_type _ Wl Nt JNull JNull) as (k' & Ht).
  rewrite Hk in Ht. inversion Ht; subst.
  unfold extract_type.
  destruct item as [| | | | |m]; try discriminate.
  assert (Y : (let* nodes := field_nodes (JObj m) in
               match nodes with
               | Some l => extract_type_loop l JNull JNull
               | None => Ok (JNull, JNull)
               end) = Ok (JNull, JNull)).
  { destruct Hn as [Hn|[Hn _]]; rewrite Hn; cbn [bind]; [rewrite Hk|]; reflexivity. }
  destruct (field_nodes (JObj m)) as [o|e]; cbn [bind] in Y |- *; [|discriminate].
  rewrite Y. cbn [bind truthy].
  cbn [wf_item] in W. apply andb_true_iff in W. destruct W as [_ Wc].
  unfold wf_content, optional_str in Wc. cbn [issue_type_name] in Ni.
  unfold py_get, py_and, py_in, py_getitem, bind.
  repeat (destr_match; try discriminate; subst; cbn [truthy negb bind] in * );
    try reflexivity; try congruence.
Qed.

(** A record that can be skipped is passed over by a [continue], or reaches
    the comparison with the empty name. *)
Lemma scan_field_skippable (f : json) :
  wf_field_value f = true -> skippable f = true ->
  scan_field f = Ok None \/ exists v, scan_field f = Ok (Some ("", v)).
Proof.
  intros W S. destruct f; try discriminate; [left; reflexivity|].
  unfold wf_field_value, optional_str in W. unfold skippable, empty_str in S.
  unfold scan_field, py_or, py_and, py_not, py_in, py_getitem, py_get, py_strip_lower, bind.
  destruct m as [|p m]; [left; reflexivity|].
  cbn [truthy negb].
  repeat (destr_match; try discriminate; subst;
          cbn [truthy negb is_none py_str bind orb andb String.eqb] in * );
    try (left; reflexivity); try (right; eexists; reflexivity); try discriminate.
Qed.

Lemma extract_scope_loop_skip (pre post : list json) (f : json) :
  scan_field f = Ok None \/ (exists v, scan_field f = Ok (Some ("", v))) ->
  extract_scope_loop (pre ++ f :: post) = extract_scope_loop (pre ++ post).
Proof.
  intro H. induction pre as [|g pre IH].
  - cbn [Datatypes.app]. rewrite extract_scope_loop_cons.
    destruct H as [H|(v & H)]; rewrite H; reflexivity.
  - rewrite <- !app_comm_cons, !extract_scope_loop_cons, IH. reflexivity.
Qed.

Lemma field_nodes_item_with_nodes (nodes : list json) (other : list (string * json)) :
  field_nodes (item_with_nodes nodes other) = Ok (Some nodes).
Proof. reflexivity. Qed.

Lemma extract_scope_item_with_nodes (nodes : list json) (other : list (string * json)) :
  extract_scope (item_with_nodes nodes other) =
  let* found := extract_scope_loop nodes in
  match found with Some v => Ok v | None => Ok (JStr "Sem Scope") end.
Proof. reflexivity. Qed.

Lemma extract_type_item_with_nodes (nodes nodes' : list json) (other : list (string * json)) :
  extract_type_loop nodes JNull JNull = extract_type_loop nodes' JNull JNull ->
  extract_type (item_with_nodes nodes other) = extract_type (item_with_nodes nodes' other).
Proof.
  intro H. unfold extract_type. rewrite !field_nodes_item_with_nodes. cbn [bind].
  rewrite H. reflexivity.
Qed.

Lemma scan_field_named_entry (n n' : string) (fattrs rest : list (string * json)) :
  py_lower (py_strip n) = py_lower (py_strip n') ->
  scan_field (named_entry n fattrs rest) = scan_field (named_entry n' fattrs rest).
Proof.
  intro H. unfold scan_field, named_entry.
  cbn [truthy negb py_or py_not py_in py_getitem py_get lookup String.eqb Ascii.eqb Bool.eqb bind py_strip_lower].
  rewrite H. reflexivity.
Qed.

Lemma extract_type_loop_same_scan (pre post : list json) (e e' : json) (k t : json) :
  scan_field e = scan_field e' ->
  extract_type_loop (pre ++ e :: post) k t = extract_type_loop (pre ++ e' :: post) k t.
Proof.
  intro H. rewrite !extract_type_loop_app.
  destruct (extract_type_loop pre k t) as [kt|]; cbn [bind]; [|reflexivity].
  rewrite !extract_type_loop_cons, H. reflexivity.
Qed.

Lemma extract_scope_loop_same_scan (pre post : list json) (e e' : json) :
  scan_field e = scan_field e' ->
  extract_scope_loop (pre ++ e :: post) = extract_scope_loop (pre ++ e' :: post).
Proof.
  intro H. induction pre as [|g pre IH].
  - cbn [Datatypes.app]. rewrite !extract_scope_loop_cons, H. reflexivity.
  - rewrite <- !app_comm_cons, !extract_scope_loop_cons, IH. reflexivity.
Qed.

Lemma py_lstrip_spaces (ws s : string) :
  str_forall isspace ws = true -> py_lstrip (ws ++ s) = py_lstrip s.
Proof.
  induction ws as [|c ws IH]; intro H; [reflexivity|].
  cbn [str_forall] in H. apply andb_true_iff in H. destruct H as [Hc Hw].
  cbn [append py_lstrip]. rewrite Hc. auto.
Qed.

Lemma py_rstrip_all_spaces (ws : string) :
  str_forall isspace ws = true -> py_rstrip ws = "".
Proof.
  induction ws as [|c ws IH]; intro H; [reflexivity|].
  cbn [str_forall] in H. apply andb_true_iff in H. destruct H as [Hc Hw].
  cbn [py_rstrip]. rewrite (IH Hw), Hc. reflexivity.
Qed.

Lemma py_rstrip_spaces (s ws : string) :
  str_forall isspace ws = true -> py_rstrip (s ++ ws) = py_rstrip s.
Proof.
  intro H. induction s as [|c s IH].
  - cbn [append]. rewrite py_rstrip_all_spaces; auto.
  - cbn [append py_rstrip]. rewrite IH. reflexivity.
Qed.

Lemma py_strip_spaces_right (s ws : string) :
  str_forall isspace ws = true -> py_strip (s ++ ws) = py_strip s.
Proof.
  intro H. unfold py_strip. induction s as [|c s IH].
  - assert (L : forall w, str_forall isspace w = true -> py_lstrip w = "").
    { induction w as [|a w IHw]; intro X; [reflexivity|].
      cbn [str_forall] in X. apply andb_true_iff in X. destruct X as [Xa Xw].
      cbn [py_lstrip]. rewrite Xa. auto. }
    cbn [append]. rewrite (L ws H). reflexivity.
  - cbn [append py_lstrip]. destruct (isspace c); [exact IH|].
    change (String c (s ++ ws)) with (String c s ++ ws).
    apply py_rstrip_spaces. exact H.
Qed.

(** Whitespace around a field name is not seen by the comparison. *)
Lemma py_strip_padding (ws1 ws2 s : string) :
  str_forall isspace ws1 = true -> str_forall isspace ws2 = true ->
  py_strip (ws1 ++ s ++ ws2) = py_strip s.
Proof.
  intros H1 H2. unfold py_strip. rewrite py_lstrip_spaces by exact H1.
  apply py_strip_spaces_right. exact H2.
Qed.


(** *** The claims about the extractors *)

(** C1. For every well-formed item whose field-value list has a field named
    Kind with a coerced value that is not empty and a field named Type with
    one, wherever the two stand in the list, [extract_type] returns the value
    of a populated Kind field, not that of the Type field; when all the
    populated Kind fields carry one value, it returns that value. *)
Theorem extract_type_prefers_kind (item fk vk ft vt : json) :
  wf_item item = true ->
  In fk (item_fields item) -> populated_with (py_lower KIND_FIELD) fk vk ->
  In ft (item_fields item) -> populated_with (py_lower TYPE_FIELD) ft vt ->
  (exists f v,
      In f (item_fields item) /\ populated_with (py_lower KIND_FIELD) f v
      /\ extract_type item = Ok v)
  /\ ((forall f v, In f (item_fields item) ->
                   populated_with (py_lower KIND_FIELD) f v -> v = vk) ->
      extract_type item = Ok vk).
Proof.
  intros W Ik Pk _ _.
  destruct (in_split _ _ Ik) as (l1 & l2 & E).
  destruct (extract_type_kind_split item l1 l2 fk vk W E Pk) as (f & v & I & P & H & _).
  assert (I' : In f (item_fields item)).
  { rewrite E. apply in_or_app. right. exact I. }
  split.
  - exists f, v. auto.
  - intro U. rewrite <- (U f v I' P). exact H.
Qed.

Lemma extract_type_prefers_kind_witness :
  wf_item item_type_then_kind = true
  /\ ((exists f v,
          In f (item_fields item_type_then_kind)
          /\ populated_with (py_lower KIND_FIELD) f v
          /\ extract_type item_type_then_kind = Ok v)
      /\ ((forall f v, In f (item_fields item_type_then_kind) ->
                       populated_with (py_lower KIND_FIELD) f v -> v = JStr "Bug") ->
          extract_type item_type_then_kind = Ok (JStr "Bug"))).
Proof.
  split; [reflexivity|].
  apply (extract_type_prefers_kind item_type_then_kind
           (select_entry "Kind" "Bug") (JStr "Bug")
           (select_entry "Type" "Feature") (JStr "Feature")).
  - reflexivity.
  - right. left. reflexivity.
  - reflexivity.
  - left. reflexivity.
  - reflexivity.
Defined.

(** C4, as amended. For every well-formed item without a populated Kind or
    Type field and without a name of its issue type, [extract_type] returns
    the sentinel "Desconhecido"; without a populated Scope field,
    [extract_scope] returns the sentinel "Sem Scope". Neither sentinel is
    empty. *)
Theorem extract_sentinels (item : json) :
  wf_item item = true ->
  (existsb (populated (py_lower KIND_FIELD)) (item_fields item) = false ->
   existsb (populated (py_lower TYPE_FIELD)) (item_fields item) = false ->
   truthy (issue_type_name item) = false ->
   extract_type item = Ok (JStr "Desconhecido"))
  /\ (existsb (populated (py_lower SCOPE_FIELD)) (item_fields item) = false ->
      extract_scope item = Ok (JStr "Sem Scope"))
  /\ "Desconhecido" <> "" /\ "Sem Scope" <> "".
Proof.
  intro W. split; [|split; [|split; discriminate]].
  - apply extract_type_absent. exact W.
  - apply extract_scope_absent. exact W.
Qed.

Lemma extract_sentinels_witness :
  extract_type (JObj []) = Ok (JStr "Desconhecido")
  /\ extract_scope (JObj []) = Ok (JStr "Sem Scope").
Proof.
  destruct (extract_sentinels (JObj []) eq_refl) as (T & S & _).
  split; [apply T; reflexivity|apply S; reflexivity].
Defined.

(** C4 as stated fails: on the empty item, which has no field and no
    content, the sentinels returned are not "Unknown" and "No Scope". *)
Lemma extract_sentinels_counterexample :
  wf_item (JObj []) = true
  /\ existsb (populated (py_lower KIND_FIELD)) (item_fields (JObj [])) = false
  /\ existsb (populated (py_lower TYPE_FIELD)) (item_fields (JObj [])) = false
  /\ existsb (populated (py_lower SCOPE_FIELD)) (item_fields (JObj [])) = false
  /\ truthy (issue_type_name (JObj [])) = false
  /\ extract_type (JObj []) <> Ok (JStr "Unknown")
  /\ extract_scope (JObj []) <> Ok (JStr "No Scope").
Proof.
  repeat split; discriminate.
Qed.

(** C5. On every well-formed item [extract_scope] returns, without raising, a
    string that is not empty; being a function of the item alone it returns
    it at every call. A field-value record that is [null], has no field or a
    field without a name, or carries no value is passed over: the result is
    the one of the item without it. *)
Theorem extract_scope_total :
  (forall item, wf_item item = true ->
                exists s, extract_scope item = Ok (JStr s) /\ s <> "")
  /\ (forall pre f post other,
         wf_field_value f = true -> skippable f = true ->
         extract_scope (item_with_nodes (pre ++ f :: post)%list other)
         = extract_scope (item_with_nodes (pre ++ post)%list other)).
Proof.
  split.
  - exact extract_scope_nonempty.
  - intros pre f post other W S.
    rewrite !extract_scope_item_with_nodes.
    rewrite (extract_scope_loop_skip pre post f (scan_field_skippable f W S)).
    reflexivity.
Qed.

Lemma extract_scope_total_witness :
  (exists s, extract_scope item_with_scope = Ok (JStr s) /\ s <> "")
  /\ extract_scope (item_with_nodes ([JNull] ++ JObj [] :: [select_entry "Scope" "Core"]) [])
     = extract_scope (item_with_nodes ([JNull] ++ [select_entry "Scope" "Core"]) [])
  /\ extract_scope (item_with_nodes ([] ++ nameless_entry :: [select_entry "Scope" "Core"]) [])
     = extract_scope (item_with_nodes ([] ++ [select_entry "Scope" "Core"]) []).
Proof.
  split; [|split].
  - apply (proj1 extract_scope_total item_with_scope). reflexivity.
  - apply (proj2 extract_scope_total [JNull] (JObj []) [select_entry "Scope" "Core"] []);
      reflexivity.
  - apply (proj2 extract_scope_total [] nameless_entry [select_entry "Scope" "Core"] []);
      reflexivity.
Defined.

(** C6, as amended. When the field-value list of a well-formed item has
    fields named Kind with a coerced value that is not empty, [extract_type]
    returns the value of the last of them in list order: the scan runs to the
    end of the list and every match replaces the one before. *)
Theorem extract_type_last_kind (item : json) (pre post : list json) (f v : json) :
  wf_item item = true ->
  item_fields item = (pre ++ f :: post)%list ->
  populated_with (py_lower KIND_FIELD) f v ->
  existsb (populated (py_lower KIND_FIELD)) post = false ->
  extract_type item = Ok v.
Proof.
  intros W E P N.
  destruct (extract_type_kind_split item pre post f v W E P) as (g & v' & _ & _ & H & L).
  rewrite (L N) in H. exact H.
Qed.

Lemma extract_type_last_kind_witness :
  extract_type item_two_kinds = Ok (JStr "B").
Proof.
  apply (extract_type_last_kind item_two_kinds
           [select_entry "Kind" "A"] [] (select_entry "Kind" "B") (JStr "B"));
    reflexivity.
Defined.

(** C6 as stated fails: of two populated Kind fields, "A" then "B", the
    value returned is not the one of the first. *)
Lemma extract_type_first_kind_counterexample :
  item_fields item_two_kinds = [select_entry "Kind" "A"; select_entry "Kind" "B"]
  /\ populated_with (py_lower KIND_FIELD) (select_entry "Kind" "A") (JStr "A")
  /\ populated_with (py_lower KIND_FIELD) (select_entry "Kind" "B") (JStr "B")
  /\ extract_type item_two_kinds <> Ok (JStr "A").
Proof.
  repeat split. discriminate.
Qed.

(** The first populated Scope field ends the loop of [extract_scope]. *)
Lemma extract_scope_loop_first (pre post : list json) (f v : json) :
  forallb wf_field_value pre = true ->
  existsb (populated (py_lower SCOPE_FIELD)) pre = false ->
  populated_with (py_lower SCOPE_FIELD) f v ->
  extract_scope_loop (pre ++ f :: post) = Ok (Some v).
Proof.
  intros W N P. induction pre as [|g pre IH].
  - cbn [Datatypes.app]. rewrite extract_scope_loop_cons.
    unfold populated_with in P. rewrite P. cbn [bind]. rewrite String.eqb_refl.
    reflexivity.
  - cbn [forallb existsb] in W, N. apply andb_true_iff in W. destruct W as [Wg Wp].
    apply orb_false_iff in N. destruct N as [Ng Np].
    rewrite <- app_comm_cons, extract_scope_loop_cons.
    destruct (scan_field_wf g Wg) as (r & Hr & _). unfold populated in Ng.
    rewrite Hr in *. cbn [bind]. destruct r as [[n x]|]; [rewrite Ng|]; auto.
Qed.

(** A single-select value under a named field is read with the stripped and
    lowered name of the field. *)
Lemma scan_field_named_select (x : string) (fattrs rest : list (string * json))
    (s : string) :
  lookup "name" rest = Some (JStr s) -> s <> "" ->
  scan_field (named_entry x fattrs rest) = Ok (Some (py_lower (py_strip x), JStr s)).
Proof.
  intros H Hs. apply String.eqb_neq in Hs. unfold scan_field, named_entry.
  cbn [truthy negb py_or py_not py_in py_getitem py_get lookup String.eqb Ascii.eqb
       Bool.eqb bind py_strip_lower].
  rewrite H. repeat (progress (cbn [truthy negb bind]; rewrite ?Hs)). reflexivity.
Qed.

(** C10. In [extract_type] and in [extract_scope] a field name is stripped of
    the whitespace around it and lowered before it is compared: an entry
    whose field is named [name] between runs of whitespace is read as any
    entry whose name has the same stripped and lowered form. So "  KIND  "
    is read as "kind" is, and it is recognised: when the stripped and
    lowered name is the one of the Kind field, [extract_type] returns the
    value of the entry unless a later Kind field replaces it, and when it is
    the one of the Scope field, [extract_scope] returns the value of the
    entry unless an earlier Scope field is populated. *)
Theorem field_name_stripped_and_lowered
    (ws1 ws2 name n' : string) (fattrs rest other : list (string * json))
    (pre post : list json) :
  str_forall isspace ws1 = true -> str_forall isspace ws2 = true ->
  py_lower (py_strip name) = py_lower (py_strip n') ->
  (extract_type (item_with_entry pre (ws1 ++ name ++ ws2) fattrs rest post other)
   = extract_type (item_with_entry pre n' fattrs rest post other)
   /\ extract_scope (item_with_entry pre (ws1 ++ name ++ ws2) fattrs rest post other)
      = extract_scope (item_with_entry pre n' fattrs rest post other))
  /\ (forall s,
        lookup "name" rest = Some (JStr s) -> s <> "" ->
        forallb wf_field_value pre = true ->
        (py_lower (py_strip n') = py_lower KIND_FIELD ->
         forallb wf_field_value post = true ->
         existsb (populated (py_lower KIND_FIELD)) post = false ->
         extract_type (item_with_entry pre (ws1 ++ name ++ ws2) fattrs rest post other)
         = Ok (JStr s))
        /\ (py_lower (py_strip n') = py_lower SCOPE_FIELD ->
            existsb (populated (py_lower SCOPE_FIELD)) pre = false ->
            extract_scope (item_with_entry pre (ws1 ++ name ++ ws2) fattrs rest post other)
            = Ok (JStr s))).
Proof.
  intros H1 H2 H.
  assert (S : scan_field (named_entry (ws1 ++ name ++ ws2) fattrs rest)
              = scan_field (named_entry n' fattrs rest)).
  { apply scan_field_named_entry. rewrite py_strip_padding; assumption. }
  unfold item_with_entry. split; [split|].
  - apply extract_type_item_with_nodes, extract_type_loop_same_scan, S.
  - rewrite !extract_scope_item_with_nodes.
    rewrite (extract_scope_loop_same_scan pre post _ _ S). reflexivity.
  - intros s Hv Hs Wpre.
    pose proof (scan_field_named_select n' fattrs rest s Hv Hs) as V.
    rewrite <- S in V. split.
    + intros K Wpost Nk. rewrite K in V.
      destruct (extract_type_loop_wf pre Wpre JNull JNull) as (k' & t' & Hp & _).
      destruct (extract_type_loop_no_kind post Wpost Nk (JStr s) t') as (t'' & Hq).
      apply (extract_type_of_kind _ _ (JStr s) t'' (field_nodes_item_with_nodes _ _)).
      * rewrite extract_type_loop_app, Hp. cbn [bind fst snd].
        rewrite extract_type_loop_cons, V. cbn [bind].
        rewrite String.eqb_refl. exact Hq.
      * cbn [truthy]. apply negb_true_iff, String.eqb_neq. exact Hs.
    + intros K Ns. rewrite K in V. rewrite extract_scope_item_with_nodes.
      rewrite (extract_scope_loop_first pre post _ (JStr s) Wpre Ns V). reflexivity.
Qed.

Lemma field_name_stripped_and_lowered_witness :
  extract_type (item_with_entry [] ("  " ++ "KIND" ++ "  ") [] [("name", JStr "Bug")] [] [])
  = Ok (JStr "Bug")
  /\ extract_scope (item_with_entry [] ("  " ++ "SCOPE" ++ "  ") []
                      [("name", JStr "Core")] [] [])
     = Ok (JStr "Core")
  /\ extract_type (item_with_entry [] ("  " ++ "KIND" ++ "  ") [] [("name", JStr "Bug")] [] [])
     = extract_type (item_with_entry [] "kind" [] [("name", JStr "Bug")] [] [])
  /\ extract_scope (item_with_entry [] ("  " ++ "KIND" ++ "  ") [] [("name", JStr "Bug")] [] [])
     = extract_scope (item_with_entry [] "kind" [] [("name", JStr "Bug")] [] []).
Proof.
  split; [|split].
  - apply (proj1 (proj2 (field_name_stripped_and_lowered "  " "  " "KIND" "kind"
                           [] [("name", JStr "Bug")] [] [] [] eq_refl eq_refl eq_refl)
                    "Bug" eq_refl ltac:(discriminate) eq_refl)); reflexivity.
  - apply (proj2 (proj2 (field_name_stripped_and_lowered "  " "  " "SCOPE" "scope"
                           [] [("name", JStr "Core")] [] [] [] eq_refl eq_refl eq_refl)
                    "Core" eq_refl ltac:(discriminate) eq_refl)); reflexivity.
  - apply (proj1 (field_name_stripped_and_lowered "  " "  " "KIND" "kind"
                    [] [("name", JStr "Bug")] [] [] [] eq_refl eq_refl eq_refl)).
Defined.


(** ** The pattern of the project URL *)



Lemma strip_prefix_complete (p r : string) : strip_prefix p (p ++ r) = Some r.
Proof.
  induction p as [|a p IH]; cbn; [reflexivity|].
  rewrite Ascii.eqb_refl. exact IH.
Qed.


(** A run of characters satisfying [f] followed by one that does not is
    taken whole. *)
Lemma span_stop (f : ascii -> bool) (a : string) (c : ascii) (r : string) :
  str_forall f a = true -> f c = false ->
  span f (a ++ String c r) = (a, String c r).
Proof.
  intros F N. induction a as [|x a IH]; cbn.
  - rewrite N. reflexivity.
  - cbn in F. apply andb_true_iff in F. destruct F as [Fx Fa].
    rewrite Fx, (IH Fa). reflexivity.
Qed.





Lemma re_search_here (s : string) (g : string * string * string) :
  re_match s = Some g -> re_search s = Some g.
Proof.
  intro H. destruct s; cbn [re_search]; rewrite H; reflexivity.
Qed.



Example py_int_251 : py_int "251" = 251%Z.
Proof. reflexivity. Qed.

(** The [.] of the pattern is a wildcard: a URL of another host is accepted
    when it differs from [github.com] in that one character. *)
Remark re_search_dot_is_wildcard :
  re_search "https://githubXcom/orgs/acme/projects/7" = Some ("orgs", "acme", "7").
Proof. reflexivity. Qed.

(** ** The GraphQL client and the resolver *)

Section NetworkFacts.

Variable world : Type.
Variable requests_post :
  string -> json -> list (string * string) -> world -> response * world.
Variable GITHUB_TOKEN : string.

(** C3, as amended. [run_query] raises [Exception], with the status and the
    body in its message, when the HTTP status is not 200; when the status is
    200 and the body decodes to a JSON object, it raises [Exception], with the
    raw errors in its message, exactly when the object has a top-level
    "errors" key, and otherwise returns the whole decoded response, of which
    the callers take the "data" member themselves. *)
Theorem run_query_outcome (query : string) (variables : json)
    (w w' : world) (resp : response) :
  requests_post API_URL (payload query variables) (HEADERS GITHUB_TOKEN) w = (resp, w') ->
  (status_code resp <> 200%Z ->
   run_query world requests_post GITHUB_TOKEN query variables w =
   (Raise (Exception ("Erro na API GitHub: " ++ str_of_Z (status_code resp)
                      ++ ", " ++ text resp)), w'))
  /\ (status_code resp = 200%Z -> forall m, decoded resp = Some (JObj m) ->
      (forall errors, lookup "errors" m = Some errors ->
         run_query world requests_post GITHUB_TOKEN query variables w =
         (Raise (Exception ("Erro GraphQL: " ++ py_str errors)), w'))
      /\ (lookup "errors" m = None ->
          run_query world requests_post GITHUB_TOKEN query variables w
          = (Ok (JObj m), w'))).
Proof.
  intro P. unfold run_query. rewrite P. split.
  - intro S. apply Z.eqb_neq in S. rewrite S. reflexivity.
  - intros S m D. rewrite S, D. cbn [Z.eqb Pos.eqb negb py_in bind].
    split.
    + intros errors E. cbn [py_getitem]. rewrite E. reflexivity.
    + intro E. rewrite E. reflexivity.
Qed.


End NetworkFacts.

Lemma run_query_outcome_witness :
  run_query unit (const_server (ok_response (JObj [("data", JNum 1)]))) "token"
            "query" (JObj []) tt
  = (Ok (JObj [("data", JNum 1)]), tt)
  /\ run_query unit (const_server (ok_response (JObj [("errors", JArr [JStr "bad"])])))
               "token" "query" (JObj []) tt
     = (Raise (Exception ("Erro GraphQL: " ++ py_str (JArr [JStr "bad"]))), tt)
  /\ run_query unit
       (const_server {| status_code := 502; text := "Bad Gateway"; decoded := None |})
       "token" "query" (JObj []) tt
     = (Raise (Exception ("Erro na API GitHub: " ++ str_of_Z 502 ++ ", " ++ "Bad Gateway")), tt).
Proof.
  split; [|split].
  - apply (proj2 (run_query_outcome unit
                    (const_server (ok_response (JObj [("data", JNum 1)])))
                    "token" "query" (JObj []) tt tt _ eq_refl)
                 eq_refl [("data", JNum 1)] eq_refl).
    reflexivity.
  - apply (proj2 (run_query_outcome unit
                    (const_server (ok_response (JObj [("errors", JArr [JStr "bad"])])))
                    "token" "query" (JObj []) tt tt _ eq_refl)
                 eq_refl [("errors", JArr [JStr "bad"])] eq_refl).
    reflexivity.
  - apply (proj1 (run_query_outcome unit
                    (const_server {| status_code := 502; text := "Bad Gateway";
                                     decoded := None |})
                    "token" "query" (JObj []) tt tt _ eq_refl)).
    discriminate.
Defined.

(** C3 as stated fails: on a response of status 200 without errors what is
    returned is the decoded response, not its "data" member. *)
Lemma run_query_data_payload_counterexample :
  py_getitem (JObj [("data", JNum 1)]) "data" = Ok (JNum 1)
  /\ fst (run_query unit (const_server (ok_response (JObj [("data", JNum 1)])))
                    "token" "query" (JObj []) tt)
     <> Ok (JNum 1).
Proof.
  split; [reflexivity|discriminate].
Qed.


(** ** The paginated fetch *)

Section Pagination.

Variable world : Type.
Variable requests_post :
  string -> json -> list (string * string) -> world -> response * world.
Variable GITHUB_TOKEN : string.
Variable query : string.
Variable project_id : json.

Lemma fetch_page_served (cursor : json) (results : list json) (w w' : world)
    (resp : response) (items : list json) (next : option json) :
  requests_post API_URL (payload query (items_variables project_id cursor))
                (HEADERS GITHUB_TOKEN) w = (resp, w') ->
  page_response resp items next ->
  fetch_page world requests_post GITHUB_TOKEN query project_id cursor results w
  = (Ok ((results ++ items)%list, next), w').
Proof.
  intros P (S & data & itemsobj & more & D & E & I & N & M & X).
  unfold fetch_page, mbind, run_query.
  fold (items_variables project_id cursor).
  fold (payload query (items_variables project_id cursor)).
  rewrite P, S, D. cbn [Z.eqb Pos.eqb negb]. rewrite E. cbn [bind].
  unfold lift. rewrite I. cbn [bind]. rewrite N. cbn [bind py_iter]. rewrite M. cbn [bind].
  destruct next as [c|].
  - destruct X as [T C]. rewrite T, C. reflexivity.
  - rewrite X. reflexivity.
Qed.

Lemma get_project_items_loop_served (w w' : world) (cursor : json)
    (pages : list (list json)) :
  serves requests_post GITHUB_TOKEN query project_id w cursor pages w' ->
  forall (results : list json) (fuel : nat),
    (length pages <= fuel ->
     get_project_items_loop world requests_post GITHUB_TOKEN fuel query project_id
                            cursor results w
     = (Some (Ok (results ++ concat pages)%list), w'))
    /\ (fuel < length pages ->
        fst (get_project_items_loop world requests_post GITHUB_TOKEN fuel query
                                    project_id cursor results w) = None).
Proof.
  induction 1 as [w cursor resp w' items P R
                 |w cursor resp w1 items next pages w' P R S IH];
    intros results fuel; split; intro L.
  - destruct fuel as [|fuel]; [cbn in L; lia|].
    cbn [get_project_items_loop].
    rewrite (fetch_page_served _ _ _ _ _ _ _ P R).
    cbn [concat]. rewrite app_nil_r. reflexivity.
  - destruct fuel as [|fuel]; [reflexivity|cbn in L; lia].
  - destruct fuel as [|fuel]; [cbn in L; lia|].
    cbn [get_project_items_loop].
    rewrite (fetch_page_served _ _ _ _ _ _ _ P R).
    destruct (IH (results ++ items)%list fuel) as [H _].
    rewrite H by (cbn in L; lia). cbn [concat]. rewrite app_assoc. reflexivity.
  - destruct fuel as [|fuel]; [reflexivity|].
    cbn [get_project_items_loop].
    rewrite (fetch_page_served _ _ _ _ _ _ _ P R).
    destruct (IH (results ++ items)%list fuel) as [_ H].
    apply H. cbn in L. lia.
Qed.

End Pagination.


Lemma index_of_cursor_of_index (i : nat) : index_of_cursor (cursor_of_index i) = Some i.
Proof.
  unfold index_of_cursor, cursor_of_index.
  rewrite NilEmpty.usu. cbn [option_map]. rewrite Unsigned.of_to. reflexivity.
Qed.

Lemma paged_server_serves (pages : list (list json)) (token query : string)
    (project_id : json) :
  forall (k i : nat) (cursor : json),
    index_of_cursor cursor = Some i ->
    i + S k = length pages ->
    serves (paged_server pages) token query project_id tt cursor (skipn i pages) tt.
Proof.
  induction k as [|k IH]; intros i cursor C L.
  - assert (E : skipn i pages = [nth i pages []]).
    { clear C. revert i L. induction pages as [|p ps IHp]; intros i L; [cbn in L; lia|].
      destruct i as [|i].
      - cbn in L. destruct ps; [reflexivity|cbn in L; lia].
      - cbn [skipn nth]. apply IHp. cbn in L. lia. }
    rewrite E. eapply serves_last.
    + unfold paged_server, payload, items_variables.
      cbn [py_path py_getitem lookup String.eqb Ascii.eqb Bool.eqb bind].
      rewrite C. reflexivity.
    + split; [reflexivity|].
      eexists _, _, _. repeat split; try reflexivity.
      cbn [truthy]. apply Nat.ltb_ge. lia.
  - assert (E : skipn i pages = nth i pages [] :: skipn (S i) pages).
    { clear C IH. revert i L. induction pages as [|p ps IHp]; intros i L; [cbn in L; lia|].
      destruct i as [|i]; [reflexivity|].
      cbn [nth]. change (skipn (S i) (p :: ps)) with (skipn i ps).
      change (skipn (S (S i)) (p :: ps)) with (skipn (S i) ps).
      apply IHp. cbn in L. lia. }
    rewrite E. eapply serves_more with (next := cursor_of_index (S i)).
    + unfold paged_server, payload, items_variables.
      cbn [py_path py_getitem lookup String.eqb Ascii.eqb Bool.eqb bind].
      rewrite C. reflexivity.
    + split; [reflexivity|].
      eexists _, _, _. repeat split; try reflexivity.
      cbn [truthy]. apply Nat.ltb_lt. lia.
    + apply IH; [apply index_of_cursor_of_index|lia].
Qed.

Lemma paged_server_serves_all (pages : list (list json)) (token query : string)
    (project_id : json) :
  pages <> [] ->
  serves (paged_server pages) token query project_id tt JNull pages tt.
Proof.
  intro N. destruct pages as [|p ps]; [contradiction|].
  apply (paged_server_serves (p :: ps) token query project_id (length ps) 0 JNull);
    [reflexivity|cbn; lia].
Qed.

Lemma concat_chunks_upto {A : Type} (fuel n : nat) (l : list A) :
  concat (chunks_upto fuel n l) = l.
Proof.
  revert l. induction fuel as [|fuel IH]; intro l; cbn [chunks_upto].
  - cbn. apply app_nil_r.
  - destruct (length l <=? n)%nat; [cbn; apply app_nil_r|].
    cbn [concat]. rewrite IH. apply firstn_skipn.
Qed.

Lemma chunks_upto_nonempty {A : Type} (fuel n : nat) (l : list A) :
  chunks_upto fuel n l <> [].
Proof.
  destruct fuel; cbn [chunks_upto]; [discriminate|].
  destruct (length l <=? n)%nat; discriminate.
Qed.


(** C2. When the API serves a project in pages chained by their cursors,
    [get_project_items] asks for the first page with a [null] cursor, follows
    the end cursor of every page that reports a next one, stops at the page
    that reports none, not before, and returns the nodes of all the pages in
    the order served. Two ways of cutting one sequence of items into pages
    give the same result. *)
Theorem get_project_items_concatenates_pages
    (world1 world2 : Type)
    (post1 : string -> json -> list (string * string) -> world1 -> response * world1)
    (post2 : string -> json -> list (string * string) -> world2 -> response * world2)
    (token1 token2 query : string) (project_id : json)
    (w1 w1' : world1) (w2 w2' : world2) (pages1 pages2 : list (list json)) :
  serves post1 token1 query project_id w1 JNull pages1 w1' ->
  serves post2 token2 query project_id w2 JNull pages2 w2' ->
  concat pages1 = concat pages2 ->
  (forall fuel, length pages1 <= fuel ->
     get_project_items world1 post1 token1 fuel query project_id w1
     = (Some (Ok (concat pages1)), w1'))
  /\ (forall fuel, fuel < length pages1 ->
        fst (get_project_items world1 post1 token1 fuel query project_id w1) = None)
  /\ (forall fuel1 fuel2, length pages1 <= fuel1 -> length pages2 <= fuel2 ->
        fst (get_project_items world1 post1 token1 fuel1 query project_id w1)
        = fst (get_project_items world2 post2 token2 fuel2 query project_id w2)).
Proof.
  intros S1 S2 E. unfold get_project_items.
  pose proof (get_project_items_loop_served _ _ _ _ _ _ _ _ _ S1 []) as H1.
  pose proof (get_project_items_loop_served _ _ _ _ _ _ _ _ _ S2 []) as H2.
  split; [|split].
  - intros fuel L. apply (H1 fuel). exact L.
  - intros fuel L. apply (H1 fuel). exact L.
  - intros fuel1 fuel2 L1 L2.
    rewrite (proj1 (H1 fuel1) L1), (proj1 (H2 fuel2) L2). cbn [fst].
    rewrite E. reflexivity.
Qed.

(** The fixture of 120 items, served 50, 50 and 20 at a time and 60 and 60
    at a time. *)
Lemma get_project_items_concatenates_pages_witness :
  map (@length json) (chunks 50 fixture_120) = [50; 50; 20]
  /\ map (@length json) (chunks 60 fixture_120) = [60; 60]
  /\ get_project_items unit (paged_server (chunks 50 fixture_120)) "token" 3
       ITEMS_QUERY_team_metrics (JStr "PVT_1") tt
     = (Some (Ok fixture_120), tt)
  /\ fst (get_project_items unit (paged_server (chunks 50 fixture_120)) "token" 2
            ITEMS_QUERY_team_metrics (JStr "PVT_1") tt) = None
  /\ fst (get_project_items unit (paged_server (chunks 50 fixture_120)) "token" 3
            ITEMS_QUERY_team_metrics (JStr "PVT_1") tt)
     = fst (get_project_items unit (paged_server (chunks 60 fixture_120)) "token" 2
              ITEMS_QUERY_team_metrics (JStr "PVT_1") tt).
Proof.
  pose proof (get_project_items_concatenates_pages unit unit
                (paged_server (chunks 50 fixture_120))
                (paged_server (chunks 60 fixture_120))
                "token" "token" ITEMS_QUERY_team_metrics (JStr "PVT_1") tt tt tt tt
                (chunks 50 fixture_120) (chunks 60 fixture_120)
                (paged_server_serves_all _ _ _ _ (chunks_upto_nonempty _ _ _))
                (paged_server_serves_all _ _ _ _ (chunks_upto_nonempty _ _ _))
                eq_refl) as (A & B & C).
  split; [reflexivity|]. split; [reflexivity|]. split; [|split].
  - rewrite (A 3); [|vm_compute; lia].
    unfold chunks. rewrite concat_chunks_upto. reflexivity.
  - apply (B 2). vm_compute. lia.
  - apply (C 3 2); vm_compute; lia.
Defined.

(** ** The date range of [team_metrics.py] *)

Lemma nat_forall_spec (n : nat) (f : nat -> bool) :
  nat_forall n f = true -> forall k, (k < n)%nat -> f k = true.
Proof.
  induction n as [|n IH]; intros H k L; [lia|].
  cbn in H. apply andb_true_iff in H. destruct H as [H1 H2].
  destruct (Nat.eq_dec k n) as [->|N]; [exact H1|apply IH; [exact H2|lia]].
Qed.

Lemma comparison_eqb_eq (a b : comparison) : comparison_eqb a b = true -> a = b.
Proof. destruct a, b; cbn; congruence. Qed.

Lemma compare_app (a b x y : string) :
  String.length a = String.length b ->
  (a ++ x ?= b ++ y) = match (a ?= b) with Eq => (x ?= y) | c => c end.
Proof.
  revert b. induction a as [|c a IH]; intros [|c' b] L; cbn in L; try discriminate.
  - reflexivity.
  - cbn [append String.compare]. destruct (Ascii.compare c c'); auto.
Qed.

Lemma digit_value_range (c : ascii) :
  is_digit c = true -> (0 <= digit_value c <= 9)%Z.
Proof.
  unfold is_digit, digit_value. intro H. apply andb_true_iff in H.
  destruct H as [H1 H2]. apply Nat.leb_le in H1, H2. lia.
Qed.

Lemma take_digits_range (n : nat) (acc : Z) (s r : string) (v : Z) :
  take_digits n acc s = Some (v, r) ->
  (acc * 10 ^ Z.of_nat n <= v < (acc + 1) * 10 ^ Z.of_nat n)%Z.
Proof.
  revert acc s. induction n as [|n IH]; intros acc s H.
  - cbn in H. inversion H; subst. cbn. lia.
  - cbn [take_digits] in H. destruct s as [|c s]; [discriminate|].
    destruct (is_digit c) eqn:D; [|discriminate].
    apply IH in H. apply digit_value_range in D.
    rewrite Nat2Z.inj_succ, Z.pow_succ_r by lia. nia.
Qed.

Lemma year_compare_check :
  nat_forall (Z.to_nat 10000) (fun k =>
    (String.length (pad_zero 4 (Z.of_nat k)) =? 4)%nat
    && comparison_eqb ("2025" ?= pad_zero 4 (Z.of_nat k)) (2025 ?= Z.of_nat k)%Z) = true.
Proof. vm_compute. reflexivity. Qed.

Lemma month_day_compare_check :
  nat_forall 100 (fun m => nat_forall 100 (fun d =>
    comparison_eqb ("-10-07" ?= month_day (Z.of_nat m) (Z.of_nat d))
                   (1007 ?= Z.of_nat m * 100 + Z.of_nat d)%Z
    && comparison_eqb ("-12-10" ?= month_day (Z.of_nat m) (Z.of_nat d))
                      (1210 ?= Z.of_nat m * 100 + Z.of_nat d)%Z)) = true.
Proof. vm_compute. reflexivity. Qed.

Lemma year_compare (y : Z) :
  (0 <= y < 10000)%Z ->
  String.length (pad_zero 4 y) = 4%nat /\ ("2025" ?= pad_zero 4 y) = (2025 ?= y)%Z.
Proof.
  intro R.
  pose proof (nat_forall_spec _ _ year_compare_check (Z.to_nat y)) as H.
  cbv beta in H. rewrite (Z2Nat.id y) in H by lia.
  assert (L : (Z.to_nat y < Z.to_nat 10000)%nat) by lia.
  apply H in L. apply andb_true_iff in L. destruct L as [L1 L2].
  split; [apply Nat.eqb_eq; exact L1|apply comparison_eqb_eq; exact L2].
Qed.

Lemma month_day_compare (m d : Z) :
  (0 <= m < 100)%Z -> (0 <= d < 100)%Z ->
  ("-10-07" ?= month_day m d) = (1007 ?= m * 100 + d)%Z
  /\ ("-12-10" ?= month_day m d) = (1210 ?= m * 100 + d)%Z.
Proof.
  intros Rm Rd.
  pose proof (nat_forall_spec _ _ month_day_compare_check (Z.to_nat m)) as H.
  cbv beta in H.
  assert (Lm : (Z.to_nat m < 100)%nat) by lia. apply H in Lm. clear H.
  pose proof (nat_forall_spec _ _ Lm (Z.to_nat d)) as H.
  cbv beta in H. rewrite (Z2Nat.id m), (Z2Nat.id d) in H by lia.
  assert (Ld : (Z.to_nat d < 100)%nat) by lia. apply H in Ld.
  apply andb_true_iff in Ld. destruct Ld as [L1 L2].
  split; apply comparison_eqb_eq; assumption.
Qed.

Lemma date_isoformat_split (dt : datetime) :
  date_isoformat dt = pad_zero 4 (year dt) ++ month_day (month dt) (day dt).
Proof. reflexivity. Qed.

Lemma key_compare (cy cmd y md : Z) :
  (0 <= cmd < 10000)%Z -> (0 <= md < 10000)%Z ->
  (cy * 10000 + cmd ?= y * 10000 + md)%Z
  = match (cy ?= y)%Z with Eq => (cmd ?= md)%Z | c => c end.
Proof.
  intros R1 R2. destruct (Z.compare_spec cy y) as [->|L|L].
  - destruct (Z.compare_spec cmd md) as [->|L|L].
    + apply Z.compare_refl.
    + apply Z.compare_lt_iff. lia.
    + apply Z.compare_gt_iff. lia.
  - apply Z.compare_lt_iff. lia.
  - apply Z.compare_gt_iff. lia.
Qed.

(** On dates the comparison of the ISO strings is the comparison of the
    calendar dates. *)
Lemma isoformat_compare (dt : datetime) :
  (0 <= year dt < 10000)%Z -> (0 <= month dt < 100)%Z -> (0 <= day dt < 100)%Z ->
  (START_DATE ?= date_isoformat dt) = (20251007 ?= date_key dt)%Z
  /\ (END_DATE ?= date_isoformat dt) = (20251210 ?= date_key dt)%Z.
Proof.
  intros Ry Rm Rd.
  destruct (year_compare _ Ry) as [Ly Cy].
  destruct (month_day_compare _ _ Rm Rd) as [C1 C2].
  rewrite date_isoformat_split. unfold date_key.
  change START_DATE with ("2025" ++ "-10-07").
  change END_DATE with ("2025" ++ "-12-10").
  rewrite !compare_app by (rewrite Ly; reflexivity).
  rewrite Cy, C1, C2.
  rewrite <- !Z.add_assoc.
  change 20251007%Z with (2025 * 10000 + 1007)%Z.
  change 20251210%Z with (2025 * 10000 + 1210)%Z.
  rewrite !key_compare by lia. split; reflexivity.
Qed.

Lemma isoparse_str_ranges (s : string) (dt : datetime) :
  isoparse_str s = Some dt ->
  (1 <= year dt < 10000)%Z /\ (1 <= month dt <= 12)%Z /\ (1 <= day dt <= 31)%Z.
Proof.
  unfold isoparse_str, obind. intro H.
  repeat match type of H with
  | match ?x with _ => _ end = _ => let E := fresh "E" in destruct x eqn:E; try discriminate
  | (if ?x then _ else _) = _ => let E := fresh "E" in destruct x eqn:E; try discriminate
  end.
  inversion H; subst; clear H.
  match goal with X : _ && valid_datetime _ = true |- _ =>
    apply andb_true_iff in X; destruct X as [_ V] end.
  unfold valid_datetime in V. cbn [year month day hour minute second] in *.
  repeat (apply andb_true_iff in V; destruct V as [V ?]).
  repeat match goal with X : (_ <=? _)%Z = true |- _ => apply Z.leb_le in X end.
  match goal with X : take_digits 4 0 s = Some ?p |- _ =>
    destruct p as [yv yr]; apply take_digits_range in X end.
  cbn [fst snd] in *.
  assert (D : forall y m, (days_in_month y m <= 31)%Z).
  { intros y m. unfold days_in_month.
    destruct (m =? 2)%Z; [destruct (is_leap y); lia|].
    destruct ((m =? 4) || (m =? 6) || (m =? 9) || (m =? 11))%Z; lia. }
  match goal with X : (_ <= days_in_month ?y ?m)%Z |- _ => pose proof (D y m) end.
  change (10 ^ Z.of_nat 4)%Z with 10000%Z in *. lia.
Qed.




(** ** Grouping, counting and percentages *)

Section DefaultDictFacts.

Context {K V : Type}.
Variable eqb : K -> K -> bool.
Hypothesis eqb_spec : forall a b, eqb a b = true <-> a = b.
Variables (k : K) (upd : V -> V) (default : V).

Lemma eqb_false (a b : K) : eqb a b = false <-> a <> b.
Proof.
  split.
  - intros H E. apply eqb_spec in E. congruence.
  - intro N. destruct (eqb a b) eqn:E; [|reflexivity]. apply eqb_spec in E. contradiction.
Qed.

Lemma dd_update_keys (d : list (K * V)) :
  (In k (map fst d) /\ map fst (dd_update eqb k upd default d) = map fst d)
  \/ (~ In k (map fst d)
      /\ map fst (dd_update eqb k upd default d) = (map fst d ++ [k])%list).
Proof.
  induction d as [|[k' v] d IH]; cbn [dd_update map fst].
  - right. split; [intros []|reflexivity].
  - destruct (eqb k' k) eqn:E.
    + apply eqb_spec in E. subst. left. split; [left; reflexivity|reflexivity].
    + apply eqb_false in E. destruct IH as [[I M]|[N M]].
      * left. split; [right; exact I|]. cbn [map fst]. rewrite M. reflexivity.
      * right. split; [intros [X|X]; [congruence|contradiction]|].
        cbn [map fst app]. rewrite M. reflexivity.
Qed.

Lemma dd_update_nodup (d : list (K * V)) :
  NoDup (map fst d) -> NoDup (map fst (dd_update eqb k upd default d)).
Proof.
  intro N. destruct (dd_update_keys d) as [[_ M]|[X M]]; rewrite M; [exact N|].
  apply NoDup_app; [exact N|repeat constructor; intros []|].
  intros a Ia [<-|[]]. contradiction.
Qed.

Lemma dd_update_in (d : list (K * V)) (k' : K) (v' : V) :
  NoDup (map fst d) ->
  In (k', v') (dd_update eqb k upd default d) ->
  (k' <> k /\ In (k', v') d)
  \/ (k' = k /\ ((exists v, In (k, v) d /\ v' = upd v)
                 \/ (~ In k (map fst d) /\ v' = upd default))).
Proof.
  induction d as [|[k0 v0] d IH]; cbn [dd_update map fst]; intros N I.
  - destruct I as [I|[]]. inversion I; subst. right. split; [reflexivity|].
    right. split; [intros []|reflexivity].
  - inversion N as [|? ? N1 N2]; subst.
    destruct (eqb k0 k) eqn:E.
    + apply eqb_spec in E. subst k0. destruct I as [I|I].
      * inversion I; subst. right. split; [reflexivity|]. left.
        exists v0. split; [left; reflexivity|reflexivity].
      * left. split; [|right; exact I].
        intro X. subst. apply N1. apply (in_map fst) in I. exact I.
    + apply eqb_false in E. destruct I as [I|I].
      * inversion I; subst. left. split; [exact E|left; reflexivity].
      * destruct (IH N2 I) as [[X Y]|[X [(v & Y & Z)|[Y Z]]]].
        -- left. split; [exact X|right; exact Y].
        -- right. split; [exact X|]. left. exists v. split; [right; exact Y|exact Z].
        -- right. split; [exact X|]. right. split; [|exact Z].
           intros [W|W]; [congruence|contradiction].
Qed.

(** What a key is bound to after the update. *)
Lemma dd_update_old (d : list (K * V)) (k' : K) (v : V) :
  k' <> k -> In (k', v) d -> In (k', v) (dd_update eqb k upd default d).
Proof.
  intros N. induction d as [|[k0 v0] d IH]; cbn [dd_update]; intro I; [contradiction|].
  destruct (eqb k0 k) eqn:E.
  - apply eqb_spec in E. subst k0. destruct I as [I|I]; [inversion I; congruence|right; exact I].
  - destruct I as [I|I]; [left; exact I|right; apply IH; exact I].
Qed.

Lemma dd_update_perm {A : Type} (flat : V -> list A) (x : A) (d : list (K * V)) :
  (forall v, Permutation (flat (upd v)) (flat v ++ [x])) ->
  flat default = [] ->
  Permutation (concat (map (fun kv => flat (snd kv)) (dd_update eqb k upd default d)))
              (concat (map (fun kv => flat (snd kv)) d) ++ [x]).
Proof.
  intros U D. induction d as [|[k0 v0] d IH]; cbn [dd_update map concat snd].
  - rewrite app_nil_r. cbn. specialize (U default). rewrite D in U. exact U.
  - destruct (eqb k0 k); cbn [map concat snd].
    + rewrite <- app_assoc.
      etransitivity; [apply Permutation_app_tail, U|].
      rewrite <- !app_assoc. apply Permutation_app_head, Permutation_app_comm.
    + rewrite <- app_assoc. apply Permutation_app_head, IH.
Qed.

End DefaultDictFacts.

Section GroupingFacts.

Context {K A : Type}.
Variable eqb : K -> K -> bool.
Hypothesis eqb_spec : forall a b, eqb a b = true <-> a = b.
Variable key : A -> result K.

Lemma grouped_nil : grouped eqb key [] [].
Proof.
  split; cbn; try constructor; intros; contradiction.
Qed.

Lemma has_key_own (k : K) (x : A) : key x = Ok k -> has_key eqb key k x = true.
Proof. intro H. unfold has_key. rewrite H. apply eqb_spec. reflexivity. Qed.

Lemma has_key_other (k k' : K) (x : A) : key x = Ok k -> k' <> k -> has_key eqb key k' x = false.
Proof.
  intros H N. unfold has_key. rewrite H. apply (eqb_false eqb eqb_spec). congruence.
Qed.

Lemma grouped_step (d : list (K * list A)) (l : list A) (x : A) (k : K) :
  grouped eqb key d l -> key x = Ok k -> grouped eqb key (dd_append eqb k x d) (l ++ [x]).
Proof.
  intros [N G C P] Hk. unfold dd_append. split.
  - apply dd_update_nodup; assumption.
  - intros k' xs I. rewrite filter_app. cbn [filter].
    destruct (dd_update_in eqb eqb_spec _ _ _ _ _ _ N I)
      as [[X Y]|[X [(v & Y & Z)|[Y Z]]]].
    + rewrite (has_key_other _ _ _ Hk X), app_nil_r. apply G. exact Y.
    + subst. rewrite (has_key_own _ _ Hk). destruct (G _ _ Y) as [-> _].
      split; [reflexivity|]. intro E. apply app_eq_nil in E. destruct E; discriminate.
    + subst. rewrite (has_key_own _ _ Hk). split; [|discriminate].
      assert (E : filter (has_key eqb key k) l = []).
      { clear - C Y eqb_spec. induction l as [|a l IH]; [reflexivity|].
        cbn [filter]. destruct (C a (or_introl eq_refl)) as (ka & Ha & Ia).
        rewrite (has_key_other ka k a Ha) by (intro; subst; contradiction).
        apply IH. intros y Iy. apply C. right. exact Iy. }
      rewrite E. reflexivity.
  - intros y Iy. apply in_app_or in Iy.
    destruct (dd_update_keys eqb eqb_spec k (fun xs => (xs ++ [x])%list) [] d)
      as [[Ik M]|[Nk M]]; rewrite M.
    + destruct Iy as [Iy|[<-|[]]]; [apply C; exact Iy|exists k; auto].
    + destruct Iy as [Iy|[<-|[]]].
      * destruct (C y Iy) as (ky & Hy & Jy). exists ky. split; [exact Hy|].
        apply in_or_app. left. exact Jy.
      * exists k. split; [exact Hk|]. apply in_or_app. right. left. reflexivity.
  - etransitivity;
      [apply (dd_update_perm eqb k _ [] (fun v : list A => v) x d); [reflexivity|reflexivity]|].
    apply Permutation_app_tail. exact P.
Qed.

Lemma group_by_loop_grouped (l' : list A) :
  forall d l d', grouped eqb key d l -> group_by_loop eqb key l' d = Ok d' -> grouped eqb key d' (l ++ l').
Proof.
  induction l' as [|x l' IH]; intros d l d' G H; cbn [group_by_loop] in H.
  - inversion H; subst. rewrite app_nil_r. exact G.
  - destruct (key x) as [k|e] eqn:Hk; cbn [bind] in H; [|discriminate].
    replace (l ++ x :: l')%list with ((l ++ [x]) ++ l')%list by (rewrite <- app_assoc; reflexivity).
    eapply IH; [|exact H]. apply grouped_step; assumption.
Qed.

Lemma group_by_loop_total (l : list A) (d : list (K * list A)) :
  (forall x, In x l -> exists k, key x = Ok k) ->
  exists d', group_by_loop eqb key l d = Ok d'.
Proof.
  revert d. induction l as [|x l IH]; intros d T; cbn [group_by_loop].
  - exists d. reflexivity.
  - destruct (T x (or_introl eq_refl)) as (k & Hk). rewrite Hk. cbn [bind].
    apply IH. intros y Iy. apply T. right. exact Iy.
Qed.

End GroupingFacts.

Section CounterFacts.

Context {K : Type}.
Variable eqb : K -> K -> bool.
Hypothesis eqb_spec : forall a b, eqb a b = true <-> a = b.

Lemma counter_add_sum (k : K) (c : list (K * nat)) :
  list_sum (map snd (counter_add eqb k c)) = S (list_sum (map snd c)).
Proof.
  unfold counter_add, list_sum.
  induction c as [|[k' n] c IH]; cbn [dd_update map snd fold_right].
  - reflexivity.
  - destruct (eqb k' k); cbn [map snd fold_right]; [reflexivity|]. rewrite IH. lia.
Qed.

Lemma counted_step (c : list (K * nat)) (ks : list K) (k : K) :
  counted eqb c ks -> counted eqb (counter_add eqb k c) (ks ++ [k]).
Proof.
  intros [N G C T]. unfold counter_add. split.
  - apply dd_update_nodup; assumption.
  - intros k' n I. rewrite filter_app, length_app. cbn [filter].
    destruct (dd_update_in eqb eqb_spec _ _ _ _ _ _ N I)
      as [[X Y]|[X [(v & Y & Z)|[Y Z]]]].
    + assert (E : eqb k k' = false) by (apply (eqb_false eqb eqb_spec); congruence).
      rewrite E. cbn [length]. rewrite Nat.add_0_r. apply G. exact Y.
    + subst. rewrite (proj2 (eqb_spec k k) eq_refl). cbn [length].
      destruct (G _ _ Y) as [E _]. lia.
    + subst. rewrite (proj2 (eqb_spec k k) eq_refl). cbn [length].
      assert (E : filter (fun k' => eqb k' k) ks = []).
      { clear - C Y eqb_spec. induction ks as [|a ks IH]; [reflexivity|].
        cbn [filter]. assert (X : eqb a k = false).
        { apply (eqb_false eqb eqb_spec). intro; subst. apply Y, C. left. reflexivity. }
        rewrite X. apply IH. intros y Iy. apply C. right. exact Iy. }
      rewrite E. cbn. lia.
  - intros y Iy. apply in_app_or in Iy.
    destruct (dd_update_keys eqb eqb_spec k S O c) as [[Ik M]|[Nk M]]; rewrite M.
    + destruct Iy as [Iy|[<-|[]]]; [apply C; exact Iy|exact Ik].
    + apply in_or_app. destruct Iy as [Iy|[<-|[]]]; [left; apply C; exact Iy|right; left; reflexivity].
  - pose proof (counter_add_sum k c) as X. unfold counter_add in X.
    rewrite X, T, length_app. cbn. lia.
Qed.

Lemma Counter_counted (ks : list K) : counted eqb (Counter eqb ks) ks.
Proof.
  unfold Counter.
  assert (G : forall l c ks0, counted eqb c ks0 ->
                counted eqb (fold_left (fun c k => counter_add eqb k c) l c) (ks0 ++ l)).
  { induction l as [|k l IH]; intros c ks0 H; cbn [fold_left].
    - rewrite app_nil_r. exact H.
    - replace (ks0 ++ k :: l)%list with ((ks0 ++ [k]) ++ l)%list
        by (rewrite <- app_assoc; reflexivity).
      apply IH, counted_step, H. }
  apply (G ks [] []). split; cbn; try constructor; intros; contradiction.
Qed.

End CounterFacts.




Lemma pykey_eqb_spec (a b : pykey) : pykey_eqb a b = true <-> a = b.
Proof.
  destruct a, b; cbn; split; intro H; try discriminate; try reflexivity;
    try (apply Z.eqb_eq in H; congruence); try (apply String.eqb_eq in H; congruence);
    inversion H; subst; [apply Z.eqb_refl|apply String.eqb_refl].
Qed.

Lemma mapM_Forall2 {A B : Type} (f : A -> result B) (l : list A) (r : list B) :
  mapM f l = Ok r -> Forall2 (fun a b => f a = Ok b) l r.
Proof.
  revert r. induction l as [|a l IH]; intros r H; cbn [mapM] in H.
  - inversion H. constructor.
  - destruct (f a) as [b|] eqn:E; cbn [bind] in H; [|discriminate].
    destruct (mapM f l) as [bs|]; cbn [bind] in H; [|discriminate].
    inversion H; subst. constructor; auto.
Qed.

Lemma string_eqb_spec (a b : string) : (a =? b) = true <-> a = b.
Proof. apply String.eqb_eq. Qed.

Lemma filter_none {A : Type} (f : A -> bool) (l : list A) :
  (forall x, In x l -> f x = false) -> filter f l = [].
Proof.
  induction l as [|a l IH]; intro H; [reflexivity|].
  cbn [filter]. rewrite (H a (or_introl eq_refl)). apply IH.
  intros x I. apply H. right. exact I.
Qed.

Lemma month_grouped_step (d : Capitalizacao.month_scope_dict)
    (rows : list Capitalizacao.issue_dict) (i : Capitalizacao.issue_dict) (s : pykey) :
  month_grouped d rows -> cap_scope_key i = Ok s ->
  month_grouped (Capitalizacao.dd2_append (Capitalizacao.month i) s i d) (rows ++ [i]).
Proof.
  intros [N G C P] Hs. unfold Capitalizacao.dd2_append. split.
  - apply dd_update_nodup; [exact string_eqb_spec|exact N].
  - intros m scopes I. rewrite filter_app. cbn [filter]. unfold in_month at 2.
    destruct (dd_update_in String.eqb string_eqb_spec _ _ _ _ _ _ N I)
      as [[X Y]|[X [(v & Y & Z)|[Y Z]]]].
    + assert (E : (Capitalizacao.month i =? m) = false)
        by (apply String.eqb_neq; congruence).
      rewrite E, app_nil_r. apply G. exact Y.
    + subst. rewrite String.eqb_refl.
      apply grouped_step; [exact pykey_eqb_spec|apply G; exact Y|exact Hs].
    + subst. rewrite String.eqb_refl.
      assert (E : filter (in_month (Capitalizacao.month i)) rows = []).
      { apply filter_none. intros x Ix. unfold in_month. apply String.eqb_neq.
        intro E. apply Y. rewrite <- E. apply C. exact Ix. }
      rewrite E. apply (grouped_step pykey_eqb pykey_eqb_spec cap_scope_key [] [] i s);
        [apply grouped_nil|exact Hs].
  - intros y Iy. apply in_app_or in Iy.
    destruct (dd_update_keys String.eqb string_eqb_spec (Capitalizacao.month i)
                (dd_append pykey_eqb s i) [] d) as [[Ik M]|[Nk M]]; rewrite M.
    + destruct Iy as [Iy|[<-|[]]]; [apply C; exact Iy|exact Ik].
    + apply in_or_app.
      destruct Iy as [Iy|[<-|[]]]; [left; apply C; exact Iy|right; left; reflexivity].
  - assert (F : forall dd : Capitalizacao.month_scope_dict,
               concat (map snd (concat (map snd dd)))
               = concat (map (fun kv => concat (map snd (snd kv))) dd)).
    { induction dd as [|[m sc] dd IH]; [reflexivity|].
      cbn [map snd concat]. rewrite map_app, concat_app, IH. reflexivity. }
    rewrite F.
    etransitivity;
      [apply (dd_update_perm String.eqb (Capitalizacao.month i) _ []
                (fun v : list (pykey * list Capitalizacao.issue_dict) =>
                   concat (map snd v)) i d)|].
    + intro v. unfold dd_append.
      apply (dd_update_perm pykey_eqb s _ []
               (fun xs : list Capitalizacao.issue_dict => xs) i v); reflexivity.
    + reflexivity.
    + rewrite <- F. apply Permutation_app_tail. exact P.
Qed.

Lemma month_scope_loop_grouped (project_title : json) (items : list json) :
  forall d rows0 d',
    month_grouped d rows0 ->
    Capitalizacao.month_scope_loop project_title items d = Ok d' ->
    exists rows, cap_extracted project_title items = Ok rows
                 /\ month_grouped d' (rows0 ++ rows).
Proof.
  induction items as [|item items IH]; intros d rows0 d' G H;
    cbn [Capitalizacao.month_scope_loop cap_extracted] in *.
  - inversion H; subst. exists []. rewrite app_nil_r. auto.
  - destruct (Capitalizacao.filter_item project_title item) as [[i|]|] eqn:F;
      cbn [bind] in *; [| |discriminate].
    + destruct (to_key (Capitalizacao.scope i)) as [s|] eqn:Ks; cbn [bind] in H;
        [|discriminate].
      destruct (IH _ (rows0 ++ [i])%list _ (month_grouped_step _ _ _ _ G Ks) H)
        as (rows & E & G').
      exists (i :: rows). rewrite E. cbn [bind]. split; [reflexivity|].
      rewrite <- app_assoc in G'. exact G'.
    + destruct (IH _ _ _ G H) as (rows & E & G').
      exists rows. rewrite E. auto.
Qed.

Lemma month_grouped_nil : month_grouped [] [].
Proof. split; cbn; try constructor; intros; contradiction. Qed.

Lemma mapM_length {A B : Type} (f : A -> result B) (l : list A) (r : list B) :
  mapM f l = Ok r -> length r = length l.
Proof.
  intro H. apply mapM_Forall2 in H. induction H; cbn; congruence.
Qed.


Lemma team_report_lines (filtered : list TeamMetrics.issue_dict) (total : nat)
    (lines : list (pykey * nat * Q * nat)) :
  TeamMetrics.report filtered = Ok (total, lines) ->
  exists groups,
    TeamMetrics.type_to_issues filtered = Ok groups
    /\ total = length filtered
    /\ Forall2 (fun g line =>
                  line_type line = fst g
                  /\ line_count line = length (snd g)
                  /\ line_perc line = percentage (length (snd g)) total)
               groups lines.
Proof.
  unfold TeamMetrics.report. intro H.
  destruct (TeamMetrics.type_to_issues filtered) as [groups|] eqn:G; cbn [bind] in H;
    [|discriminate].
  destruct (mapM _ groups) as [ls|] eqn:M; cbn [bind] in H; [|discriminate].
  inversion H; subst. exists groups. split; [reflexivity|]. split; [reflexivity|].
  apply mapM_Forall2 in M. clear G H.
  induction M as [|g line gs ls E _ IH]; [constructor|]. constructor; [|exact IH].
  unfold TeamMetrics.report_line in E.
  destruct (mapM to_key _); cbn [bind] in E; [|discriminate].
  inversion E; subst. repeat split.
Qed.





(** ** The extractors: coercion, fallbacks and failures *)

Lemma str_of_Z_nonempty (z : Z) : str_of_Z z <> "".
Proof.
  unfold str_of_Z. destruct (Z.to_int z) as [d|d]; cbn [NilZero.string_of_int].
  - destruct d; cbn; discriminate.
  - discriminate.
Qed.

(** X1. The value of a field-value record is its name when that is not empty,
    else its text when that is not empty, else the decimal form of its number;
    a record with none of the three is passed over. The name of the field is
    stripped and lowered. *)
Theorem scan_field_coercion (m : list (string * json)) (fname : string) :
  field_named m fname ->
  (forall s, lookup "name" m = Some (JStr s) -> s <> "" ->
             scan_field (JObj m) = Ok (Some (py_lower (py_strip fname), JStr s)))
  /\ (forall s, empty_str "name" m = true ->
                lookup "text" m = Some (JStr s) -> s <> "" ->
                scan_field (JObj m) = Ok (Some (py_lower (py_strip fname), JStr s)))
  /\ (forall z, empty_str "name" m = true -> empty_str "text" m = true ->
                lookup "number" m = Some (JNum z) ->
                scan_field (JObj m)
                = Ok (Some (py_lower (py_strip fname), JStr (str_of_Z z)))
                /\ str_of_Z z <> "")
  /\ (empty_str "name" m = true -> empty_str "text" m = true ->
      (lookup "number" m = None \/ lookup "number" m = Some JNull) ->
      scan_field (JObj m) = Ok None).
Proof.
  intros (p & fm & F & N).
  assert (M : m <> []) by (intro; subst; discriminate).
  destruct m as [|q m]; [contradiction|].
  assert (T : forall s, s <> "" -> negb (s =? "") = true).
  { intros s H. apply negb_true_iff, String.eqb_neq. exact H. }
  unfold scan_field, py_or, py_and, py_not, py_in, py_getitem, py_get, py_strip_lower, bind.
  cbn [truthy negb]. rewrite F. cbn [truthy negb]. rewrite N.
  split; [|split; [|split]].
  - intros s H Hs. rewrite H.
    repeat (progress (cbn [truthy negb]; rewrite ?(T s Hs))). reflexivity.
  - intros s E H Hs. unfold empty_str in E. rewrite H.
    destruct (lookup "name" (q :: m)) as [[| | |[|]| |]|]; try discriminate;
      repeat (progress (cbn [truthy String.eqb negb]; rewrite ?(T s Hs))); reflexivity.
  - intros z E1 E2 H. unfold empty_str in E1, E2. rewrite H.
    pose proof (str_of_Z_nonempty z) as Z0.
    split; [|exact Z0].
    destruct (lookup "name" (q :: m)) as [[| | |[|]| |]|]; try discriminate;
      destruct (lookup "text" (q :: m)) as [[| | |[|]| |]|]; try discriminate;
      repeat (progress (cbn [truthy String.eqb negb is_none py_str py_repr];
                        rewrite ?(T _ Z0))); reflexivity.
  - intros E1 E2 H. unfold empty_str in E1, E2.
    destruct (lookup "name" (q :: m)) as [[| | |[|]| |]|]; try discriminate;
      destruct (lookup "text" (q :: m)) as [[| | |[|]| |]|]; try discriminate;
      destruct H as [H|H]; rewrite H; reflexivity.
Qed.

Lemma scan_field_coercion_witness :
  scan_field (JObj points_entry_members) = Ok (Some ("story points", JStr "5")).
Proof.
  apply (proj1 (proj2 (proj2 (scan_field_coercion points_entry_members " Story Points "
           (ex_intro _ _ (ex_intro _ _ (conj eq_refl eq_refl)))))) 5%Z
           eq_refl eq_refl eq_refl).
Defined.

Lemma extract_type_tail (item : json) (k t : json) :
  wf_item item = true ->
  kind_and_type item = Ok (k, t) ->
  truthy k = false -> truthy t = false ->
  extract_type item
  = Ok (if truthy (issue_type_name item) then issue_type_name item
        else JStr "Desconhecido").
Proof.
  intros W H Tk Tt. unfold kind_and_type in H. unfold extract_type.
  destruct item as [| | | | |m]; try discriminate.
  destruct (field_nodes (JObj m)) as [o|e]; cbn [bind] in H |- *; [|discriminate].
  rewrite H. cbn [bind]. rewrite Tk, Tt.
  cbn [wf_item] in W. apply andb_true_iff in W. destruct W as [_ Wc].
  unfold wf_content, optional_str in Wc. cbn [issue_type_name].
  unfold py_get, py_and, py_in, py_getitem, bind.
  repeat (destr_match; try discriminate; subst; cbn [truthy negb bind] in * );
    try reflexivity; try congruence.
Qed.

Lemma kind_and_type_wf (item : json) :
  wf_item item = true ->
  exists k t,
    kind_and_type item = Ok (k, t)
    /\ (k = JNull \/ exists f, In f (item_fields item)
                               /\ populated_with (py_lower KIND_FIELD) f k)
    /\ (t = JNull \/ exists f, In f (item_fields item)
                               /\ populated_with (py_lower TYPE_FIELD) f t).
Proof.
  intro W. destruct (field_nodes_wf item W) as [[Hn|[Hn E]] Wl]; unfold kind_and_type;
    rewrite Hn; cbn [bind].
  - apply extract_type_loop_wf. exact Wl.
  - exists JNull, JNull. auto.
Qed.

Lemma populated_with_str (name : string) (f v : json) :
  wf_field_value f = true -> populated_with name f v ->
  exists s, v = JStr s /\ s <> "".
Proof.
  intros W P. destruct (scan_field_wf f W) as (r & Hr & Hv).
  unfold populated_with in P. rewrite P in Hr. inversion Hr; subst.
  eapply Hv. reflexivity.
Qed.

Lemma item_fields_wf (item f : json) :
  wf_item item = true -> In f (item_fields item) -> wf_field_value f = true.
Proof.
  intros W I. destruct (field_nodes_wf item W) as [_ Wl].
  rewrite forallb_forall in Wl. apply Wl. exact I.
Qed.

Lemma extract_type_of_type (item : json) (k t : json) :
  kind_and_type item = Ok (k, t) -> truthy k = false -> truthy t = true ->
  extract_type item = Ok t.
Proof.
  intros H Tk Tt. unfold kind_and_type in H. unfold extract_type.
  destruct (field_nodes item) as [o|e]; cbn [bind] in H |- *; [|discriminate].
  rewrite H. cbn [bind]. rewrite Tk, Tt. reflexivity.
Qed.

Lemma issue_type_name_wf (item : json) :
  wf_item item = true ->
  issue_type_name item = JNull \/ exists s, issue_type_name item = JStr s.
Proof.
  destruct item as [| | | | |m]; try discriminate. cbn [wf_item issue_type_name].
  intro W. apply andb_true_iff in W. destruct W as [_ W].
  unfold wf_content, optional_str in W.
  repeat (destr_match; try discriminate; subst); auto; right; eexists; reflexivity.
Qed.

Lemma extract_type_nonempty (item : json) :
  wf_item item = true ->
  exists s, extract_type item = Ok (JStr s) /\ s <> "".
Proof.
  intro W. destruct (kind_and_type_wf item W) as (k & t & H & Hk & Ht).
  assert (Fk : truthy k = false \/ exists s, k = JStr s /\ s <> "").
  { destruct Hk as [->|(f & I & P)]; [left; reflexivity|right].
    eapply populated_with_str; [eapply item_fields_wf; eauto|eauto]. }
  assert (Ft : truthy t = false \/ exists s, t = JStr s /\ s <> "").
  { destruct Ht as [->|(f & I & P)]; [left; reflexivity|right].
    eapply populated_with_str; [eapply item_fields_wf; eauto|eauto]. }
  assert (Tr : forall s, s <> "" -> truthy (JStr s) = true).
  { intros s Hs. cbn. apply negb_true_iff, String.eqb_neq. exact Hs. }
  destruct Fk as [Fk|(s & -> & Hs)].
  - destruct Ft as [Ft|(s & -> & Hs)].
    + rewrite (extract_type_tail item k t W H Fk Ft).
      destruct (issue_type_name_wf item W) as [E|(s & E)]; rewrite E.
      * exists "Desconhecido". split; [reflexivity|discriminate].
      * destruct (truthy (JStr s)) eqn:Ts.
        -- exists s. split; [reflexivity|]. intro; subst. discriminate.
        -- exists "Desconhecido". split; [reflexivity|discriminate].
    + exists s. split; [|exact Hs].
      apply (extract_type_of_type item k (JStr s) H Fk (Tr s Hs)).
  - exists s. split; [|exact Hs]. unfold kind_and_type in H.
    destruct (field_nodes item) as [[l|]|] eqn:Hn; cbn [bind] in H; try discriminate.
    apply (extract_type_of_kind item l (JStr s) t Hn H (Tr s Hs)).
Qed.

(** X2. On every well-formed item [extract_type] returns a string that is not
    empty: it never raises and never returns [None] or an empty value. *)
Theorem extract_type_total (item : json) :
  wf_item item = true ->
  exists s, extract_type item = Ok (JStr s) /\ s <> "".
Proof. exact (extract_type_nonempty item). Qed.

Lemma extract_type_total_witness :
  exists s, extract_type (closed_issue "2025-09-02T10:00:00Z" "Bug") = Ok (JStr s)
            /\ s <> "".
Proof. apply extract_type_total. reflexivity. Defined.


Lemma kind_and_type_fields (item : json) (f : json) :
  wf_item item = true -> In f (item_fields item) ->
  kind_and_type item = extract_type_loop (item_fields item) JNull JNull.
Proof.
  intros W I. unfold kind_and_type. rewrite (field_nodes_some item f W I). reflexivity.
Qed.

(** X3. When no Kind field is populated, [extract_type] returns the value of
    the last populated Type field; when no Type field is populated either, it
    returns the name of the issue type, if that is a string that is not
    empty. *)
Theorem extract_type_fallbacks (item : json) :
  wf_item item = true ->
  existsb (populated (py_lower KIND_FIELD)) (item_fields item) = false ->
  (forall pre f post v,
      item_fields item = (pre ++ f :: post)%list ->
      populated_with (py_lower TYPE_FIELD) f v ->
      existsb (populated (py_lower TYPE_FIELD)) post = false ->
      extract_type item = Ok v)
  /\ (existsb (populated (py_lower TYPE_FIELD)) (item_fields item) = false ->
      forall s, issue_type_name item = JStr s -> s <> "" ->
                extract_type item = Ok (JStr s)).
Proof.
  intros W Nk. destruct (field_nodes_wf item W) as [_ Wl]. split.
  - intros pre f post v E P Nt.
    assert (I : In f (item_fields item)) by (rewrite E; apply in_elt).
    pose proof (kind_and_type_fields item f W I) as KT.
    destruct (extract_type_loop_no_kind _ Wl Nk JNull JNull) as (t' & Hk).
    rewrite E in Wl, Hk, Nk.
    rewrite forallb_app in Wl. apply andb_true_iff in Wl. destruct Wl as [W1 W2].
    cbn [forallb] in W2. apply andb_true_iff in W2. destruct W2 as [_ W2].
    rewrite existsb_app in Nk. apply orb_false_iff in Nk. destruct Nk as [N1 N2].
    cbn [existsb] in N2. apply orb_false_iff in N2. destruct N2 as [_ N2].
    destruct (extract_type_loop_no_kind _ W1 N1 JNull JNull) as (t1 & H1).
    destruct (extract_type_loop_no_type _ W2 Nt JNull v) as (k2 & H2).
    assert (Hl : extract_type_loop (pre ++ f :: post) JNull JNull = Ok (k2, v)).
    { rewrite extract_type_loop_app, H1. cbn [bind fst snd].
      rewrite extract_type_loop_cons. unfold populated_with in P. rewrite P.
      cbn [bind]. change (py_lower TYPE_FIELD =? py_lower KIND_FIELD) with false.
      cbn iota. rewrite String.eqb_refl. exact H2. }
    rewrite Hk in Hl. inversion Hl; subst.
    apply (extract_type_of_type item JNull v); [rewrite KT, E; exact Hk|reflexivity|].
    eapply populated_with_truthy; eauto.
  - intros Nt s Es Hs.
    destruct (extract_type_loop_no_kind _ Wl Nk JNull JNull) as (t' & Hk).
    destruct (extract_type_loop_no_type _ Wl Nt JNull JNull) as (k' & Ht).
    rewrite Hk in Ht. inversion Ht; subst.
    assert (KT : kind_and_type item = Ok (JNull, JNull)).
    { unfold kind_and_type.
      destruct (field_nodes_wf item W) as [[Hn|[Hn _]] _]; rewrite Hn; cbn [bind];
        [exact Hk|reflexivity]. }
    rewrite (extract_type_tail item JNull JNull W KT eq_refl eq_refl), Es.
    assert (T : truthy (JStr s) = true).
    { cbn. apply negb_true_iff, String.eqb_neq. exact Hs. }
    rewrite T. reflexivity.
Qed.

Lemma extract_type_fallbacks_witness :
  extract_type item_two_types = Ok (JStr "Task")
  /\ extract_type item_with_issue_type = Ok (JStr "Bug").
Proof.
  split.
  - apply (proj1 (extract_type_fallbacks item_two_types eq_refl eq_refl)
             [select_entry "Type" "Feature"] (select_entry "Type" "Task") []
             (JStr "Task")); reflexivity.
  - apply (proj2 (extract_type_fallbacks item_with_issue_type eq_refl eq_refl)
             eq_refl "Bug"); [reflexivity|discriminate].
Defined.

(** X4. [extract_scope] returns the value of the first populated Scope field
    and reads no entry behind it: whatever follows, well formed or not, does
    not change the result. *)
Theorem extract_scope_first_match (pre post : list json) (f v : json)
    (other : list (string * json)) :
  forallb wf_field_value pre = true ->
  existsb (populated (py_lower SCOPE_FIELD)) pre = false ->
  populated_with (py_lower SCOPE_FIELD) f v ->
  extract_scope (item_with_nodes (pre ++ f :: post)%list other) = Ok v.
Proof.
  intros W N P. rewrite extract_scope_item_with_nodes.
  rewrite (extract_scope_loop_first pre post f v W N P). reflexivity.
Qed.

Lemma extract_scope_first_match_witness :
  extract_scope (item_with_nodes [JNull; select_entry "Scope" "Core";
                                  select_entry "Scope" "Edge"; JNum 3] [])
  = Ok (JStr "Core").
Proof.
  apply (extract_scope_first_match [JNull] [select_entry "Scope" "Edge"; JNum 3]
           (select_entry "Scope" "Core") (JStr "Core") []); reflexivity.
Defined.

(** X5. An item whose [fieldValues] is [null], or whose [fieldValues.nodes]
    is [null], makes both extractors raise a [TypeError]; an item without
    [fieldValues] has no scope. *)
Theorem extractors_need_a_list_of_nodes (m : list (string * json)) :
  (lookup "fieldValues" m = Some JNull ->
   extract_type (JObj m) = Raise TypeError /\ extract_scope (JObj m) = Raise TypeError)
  /\ (forall fv, lookup "fieldValues" m = Some (JObj fv) ->
                 lookup "nodes" fv = Some JNull ->
                 extract_type (JObj m) = Raise TypeError
                 /\ extract_scope (JObj m) = Raise TypeError)
  /\ (lookup "fieldValues" m = None ->
      extract_scope (JObj m) = Ok (JStr "Sem Scope")).
Proof.
  split; [|split].
  - intro H. unfold extract_type, extract_scope, field_nodes, py_and, py_in, py_getitem, bind.
    rewrite H. split; reflexivity.
  - intros fv H N.
    unfold extract_type, extract_scope, field_nodes, py_and, py_in, py_getitem, py_iter, bind.
    rewrite H, N. split; reflexivity.
  - intro H. unfold extract_scope, field_nodes, py_and, py_in, bind.
    rewrite H. reflexivity.
Qed.

Lemma extractors_need_a_list_of_nodes_witness :
  extract_type (JObj [("fieldValues", JObj [("nodes", JNull)])]) = Raise TypeError
  /\ extract_scope (JObj [("fieldValues", JObj [("nodes", JNull)])]) = Raise TypeError.
Proof.
  apply (proj1 (proj2 (extractors_need_a_list_of_nodes
                         [("fieldValues", JObj [("nodes", JNull)])]))
           [("nodes", JNull)]); reflexivity.
Defined.

Lemma scan_field_null_name (m fm : list (string * json)) :
  lookup "field" m = Some (JObj fm) -> lookup "name" fm = Some JNull ->
  scan_field (JObj m) = Raise AttributeError.
Proof.
  intros F N.
  assert (M : m <> []) by (intro; subst; discriminate).
  assert (FM : fm <> []) by (intro; subst; discriminate).
  destruct m as [|q m]; [contradiction|]. destruct fm as [|p fm]; [contradiction|].
  unfold scan_field, py_or, py_and, py_not, py_in, py_getitem, py_get, py_strip_lower, bind.
  cbn [truthy negb]. rewrite F. cbn [truthy negb]. rewrite N. reflexivity.
Qed.

Lemma extract_type_loop_raise (pre post : list json) (bad : json) (e : exn) :
  forallb wf_field_value pre = true -> scan_field bad = Raise e ->
  forall k t, extract_type_loop (pre ++ bad :: post) k t = Raise e.
Proof.
  intros W B k t. rewrite extract_type_loop_app.
  destruct (extract_type_loop_wf pre W k t) as (k' & t' & H & _). rewrite H.
  cbn [bind fst snd]. rewrite extract_type_loop_cons, B. reflexivity.
Qed.

Lemma extract_scope_loop_raise (pre post : list json) (bad : json) (e : exn) :
  forallb wf_field_value pre = true ->
  existsb (populated (py_lower SCOPE_FIELD)) pre = false ->
  scan_field bad = Raise e ->
  extract_scope_loop (pre ++ bad :: post) = Raise e.
Proof.
  intros W N B. induction pre as [|g pre IH].
  - cbn [Datatypes.app]. rewrite extract_scope_loop_cons, B. reflexivity.
  - cbn [forallb existsb] in W, N. apply andb_true_iff in W. destruct W as [Wg Wp].
    apply orb_false_iff in N. destruct N as [Ng Np].
    rewrite <- app_comm_cons, extract_scope_loop_cons.
    destruct (scan_field_wf g Wg) as (r & Hr & _). unfold populated in Ng.
    rewrite Hr in *. cbn [bind]. destruct r as [[n x]|]; [rewrite Ng|]; auto.
Qed.

(** X6. A field whose name is [null] makes [extract_type] raise an
    [AttributeError] wherever the entry stands, and [extract_scope] too unless
    a populated Scope field stands before it. *)
Theorem null_field_name_raises (pre post : list json) (m fm other : list (string * json)) :
  forallb wf_field_value pre = true ->
  lookup "field" m = Some (JObj fm) -> lookup "name" fm = Some JNull ->
  extract_type (item_with_nodes (pre ++ JObj m :: post)%list other)
  = Raise AttributeError
  /\ (existsb (populated (py_lower SCOPE_FIELD)) pre = false ->
      extract_scope (item_with_nodes (pre ++ JObj m :: post)%list other)
      = Raise AttributeError)
  /\ (forall pre1 f pre2 v,
         pre = (pre1 ++ f :: pre2)%list ->
         existsb (populated (py_lower SCOPE_FIELD)) pre1 = false ->
         populated_with (py_lower SCOPE_FIELD) f v ->
         extract_scope (item_with_nodes (pre ++ JObj m :: post)%list other) = Ok v).
Proof.
  intros W F N. pose proof (scan_field_null_name m fm F N) as B.
  split; [|split].
  - unfold extract_type. rewrite field_nodes_item_with_nodes. cbn [bind].
    rewrite (extract_type_loop_raise pre post _ _ W B). reflexivity.
  - intro Ns. rewrite extract_scope_item_with_nodes.
    rewrite (extract_scope_loop_raise pre post _ _ W Ns B). reflexivity.
  - intros pre1 f pre2 v E Ns P. subst pre. rewrite <- app_assoc, <- app_comm_cons.
    rewrite forallb_app in W. apply andb_true_iff in W. destruct W as [W1 _].
    rewrite extract_scope_item_with_nodes.
    rewrite (extract_scope_loop_first pre1 _ f v W1 Ns P). reflexivity.
Qed.

Lemma null_field_name_raises_witness :
  extract_type (item_with_nodes [select_entry "Kind" "Bug"; JObj null_name_members] [])
  = Raise AttributeError
  /\ extract_scope (item_with_nodes [select_entry "Scope" "Core";
                                     JObj null_name_members] [])
     = Ok (JStr "Core").
Proof.
  split.
  - apply (proj1 (null_field_name_raises [select_entry "Kind" "Bug"] []
                    null_name_members [("name", JNull)] [] eq_refl eq_refl eq_refl)).
  - apply (proj2 (proj2 (null_field_name_raises [select_entry "Scope" "Core"] []
                           null_name_members [("name", JNull)] []
                           eq_refl eq_refl eq_refl))
             [] (select_entry "Scope" "Core") [] (JStr "Core")); reflexivity.
Defined.


Lemma logins_choose (l : list json) :
  forallb wf_login_node l = true -> logins l = Ok (choose login_of l).
Proof.
  induction l as [|a l IH]; intro W; [reflexivity|].
  cbn [forallb] in W. apply andb_true_iff in W. destruct W as [Wa Wl].
  cbn [logins choose]. rewrite (IH Wl).
  destruct a as [| | | | |m]; try discriminate; [reflexivity|].
  cbn [wf_login_node] in Wa. unfold optional_str in Wa.
  unfold py_and, py_get, py_getitem, login_of, bind.
  destruct m as [|p m]; [reflexivity|]. cbn [truthy].
  destruct (lookup "login" (p :: m)) as [[| | |s| |]|]; try discriminate; try reflexivity.
  cbn [truthy]. destruct (s =? ""); reflexivity.
Qed.

Lemma choose_login_str (l : list json) :
  Forall (fun v => exists s, v = JStr s /\ s <> "") (choose login_of l).
Proof.
  induction l as [|a l IH]; cbn [choose]; [constructor|].
  destruct (login_of a) as [v|] eqn:E; [|exact IH].
  constructor; [|exact IH]. unfold login_of in E.
  destruct a; try discriminate. destruct (lookup "login" m) as [[| | |s| |]|];
    try discriminate.
  destruct (s =? "") eqn:Es; [discriminate|]. inversion E.
  exists s. split; [reflexivity|]. apply String.eqb_neq. exact Es.
Qed.

Lemma choose_length {A B : Type} (f : A -> option B) (l : list A) :
  (Datatypes.length (choose f l) <= Datatypes.length l)%nat.
Proof.
  induction l as [|x l IH]; cbn [choose]; [apply Nat.le_refl|].
  destruct (f x); cbn [Datatypes.length]; lia.
Qed.

Lemma extract_assignees_choose (item : json) :
  wf_assignees item = true ->
  extract_assignees item = Ok (choose login_of (assignee_nodes item))
  /\ Forall (fun v => exists s, v = JStr s /\ s <> "")
            (choose login_of (assignee_nodes item))
  /\ (Datatypes.length (choose login_of (assignee_nodes item))
      <= Datatypes.length (assignee_nodes item))%nat.
Proof.
  intro W. split; [|split; [apply choose_login_str|apply choose_length]].
  destruct item as [| | | | |m]; try discriminate.
  cbn [wf_assignees assignee_nodes] in *.
  unfold extract_assignees, py_get, py_and, py_in, py_getitem, py_iter, bind.
  destruct (lookup "content" m) as [[| | | | |c]|]; try discriminate; try reflexivity.
  destruct c as [|p c]; [reflexivity|]. cbn [truthy].
  destruct (lookup "assignees" (p :: c)) as [[| | | | |a]|]; try discriminate;
    try reflexivity.
  destruct a as [|q a]; [reflexivity|]. cbn [truthy].
  destruct (lookup "nodes" (q :: a)) as [[| | | |l|]|]; try discriminate;
    try reflexivity.
  apply logins_choose. exact W.
Qed.

(** X7. [extract_assignees] returns the logins of the assignee nodes that
    have one, in the order of the nodes: nodes that are [null] or have no
    login, or an empty one, are left out. *)
Theorem extract_assignees_logins (item : json) :
  wf_assignees item = true ->
  extract_assignees item = Ok (choose login_of (assignee_nodes item))
  /\ Forall (fun v => exists s, v = JStr s /\ s <> "")
            (choose login_of (assignee_nodes item))
  /\ (Datatypes.length (choose login_of (assignee_nodes item))
      <= Datatypes.length (assignee_nodes item))%nat.
Proof. exact (extract_assignees_choose item). Qed.

Lemma extract_assignees_logins_witness :
  extract_assignees assigned_item = Ok [JStr "ana"; JStr "bia"].
Proof. apply (proj1 (extract_assignees_logins assigned_item eq_refl)). Defined.

(** ** The resolver and the fetch: requests, results and failures *)


Section PaginationFailures.

Variable world : Type.
Variable requests_post :
  string -> json -> list (string * string) -> world -> response * world.
Variable GITHUB_TOKEN : string.
Variable query : string.
Variable project_id : json.

Lemma fetch_page_failure (cursor : json) (results : list json) (w w' : world)
    (resp : response) :
  requests_post API_URL (payload query (items_variables project_id cursor))
                (HEADERS GITHUB_TOKEN) w = (resp, w') ->
  status_code resp <> 200%Z ->
  fetch_page world requests_post GITHUB_TOKEN query project_id cursor results w
  = (Raise (Exception ("Erro na API GitHub: " ++ str_of_Z (status_code resp)
                       ++ ", " ++ text resp)), w').
Proof.
  intros P S. unfold fetch_page, mbind, run_query. rewrite P.
  apply Z.eqb_neq in S. rewrite S. reflexivity.
Qed.

Lemma get_project_items_loop_on (w w' : world) (cursor cursor' : json)
    (pages : list (list json)) :
  serves_on requests_post GITHUB_TOKEN query project_id w cursor pages w' cursor' ->
  forall (results : list json) (fuel : nat),
    get_project_items_loop world requests_post GITHUB_TOKEN (length pages + fuel) query
                           project_id cursor results w
    = get_project_items_loop world requests_post GITHUB_TOKEN fuel query
                             project_id cursor' (results ++ concat pages)%list w'.
Proof.
  induction 1 as [w cursor|w cursor resp w1 items next pages w' cursor' P R S IH];
    intros results fuel.
  - cbn [length concat Nat.add]. rewrite app_nil_r. reflexivity.
  - cbn [length Nat.add get_project_items_loop].
    rewrite (fetch_page_served _ _ _ _ _ _ _ _ _ _ _ _ P R).
    rewrite IH. cbn [concat]. rewrite app_assoc. reflexivity.
Qed.

End PaginationFailures.

(** X8. When a request for a page fails after other pages were fetched,
    [get_project_items] raises the error of that request: the pages fetched
    before it are not returned. *)
Theorem get_project_items_fails_whole (world : Type)
    (requests_post : string -> json -> list (string * string) -> world -> response * world)
    (GITHUB_TOKEN query : string) (project_id : json)
    (w w1 w2 : world) (cursor : json) (pages : list (list json)) (resp : response) :
  serves_on requests_post GITHUB_TOKEN query project_id w JNull pages w1 cursor ->
  requests_post API_URL (payload query (items_variables project_id cursor))
                (HEADERS GITHUB_TOKEN) w1 = (resp, w2) ->
  status_code resp <> 200%Z ->
  forall fuel, length pages < fuel ->
    get_project_items world requests_post GITHUB_TOKEN fuel query project_id w
    = (Some (Raise (Exception ("Erro na API GitHub: " ++ str_of_Z (status_code resp)
                               ++ ", " ++ text resp))), w2).
Proof.
  intros Hs P F fuel L. unfold get_project_items.
  replace fuel with (length pages + S (fuel - length pages - 1)) by lia.
  rewrite (get_project_items_loop_on _ _ _ _ _ _ _ _ _ _ Hs).
  cbn [get_project_items_loop].
  rewrite (fetch_page_failure _ _ _ _ _ _ _ _ _ _ P F). reflexivity.
Qed.

Lemma get_project_items_fails_whole_witness :
  get_project_items nat (flaky_server 1 (chunks 50 fixture_120)) "token" 5
                    ITEMS_QUERY_team_metrics (JStr "PVT_1") 0%nat
  = (Some (Raise (Exception ("Erro na API GitHub: " ++ str_of_Z 502 ++ ", "
                             ++ "Bad Gateway"))), 2%nat).
Proof.
  apply (get_project_items_fails_whole nat (flaky_server 1 (chunks 50 fixture_120))
           "token" ITEMS_QUERY_team_metrics (JStr "PVT_1") 0%nat 1%nat 2%nat
           (cursor_of_index 1) [firstn 50 fixture_120]
           {| status_code := 502; text := "Bad Gateway"; decoded := None |}).
  - eapply serves_on_cons; [reflexivity| |apply serves_on_nil].
    split; [reflexivity|]. do 3 eexists.
    split; [reflexivity|]. split; [reflexivity|]. split; [reflexivity|].
    split; [reflexivity|]. split; [reflexivity|]. split; reflexivity.
  - reflexivity.
  - discriminate.
  - repeat constructor.
Defined.

(** X9. The loop of [get_project_items] has no bound of its own: against an
    API that always announces a next page it returns after no number of
    turns. *)
Theorem get_project_items_runs_while_more (world : Type)
    (requests_post : string -> json -> list (string * string) -> world -> response * world)
    (GITHUB_TOKEN query : string) (project_id : json) :
  (forall w cursor, exists resp w' items next,
      requests_post API_URL (payload query (items_variables project_id cursor))
                    (HEADERS GITHUB_TOKEN) w = (resp, w')
      /\ page_response resp items (Some next)) ->
  forall fuel w,
    fst (get_project_items world requests_post GITHUB_TOKEN fuel query project_id w)
    = None.
Proof.
  intros A fuel w. unfold get_project_items.
  generalize (@nil json) as results. generalize JNull as cursor. revert w.
  induction fuel as [|fuel IH]; intros w cursor results; [reflexivity|].
  cbn [get_project_items_loop].
  destruct (A w cursor) as (resp & w' & items & next & P & R).
  rewrite (fetch_page_served _ _ _ _ _ _ _ _ _ _ _ _ P R). apply IH.
Qed.

Lemma get_project_items_runs_while_more_witness :
  fst (get_project_items unit
         (const_server (ok_response (page_json [JNum 1] true (JStr "next"))))
         "token" 1000 ITEMS_QUERY_team_metrics (JStr "PVT_1") tt) = None.
Proof.
  apply (get_project_items_runs_while_more unit
           (const_server (ok_response (page_json [JNum 1] true (JStr "next"))))
           "token" ITEMS_QUERY_team_metrics (JStr "PVT_1")).
  intros w cursor.
  exists (ok_response (page_json [JNum 1] true (JStr "next"))), w, [JNum 1], (JStr "next").
  split; [reflexivity|]. split; [reflexivity|]. do 3 eexists.
  split; [reflexivity|]. split; [reflexivity|]. split; [reflexivity|].
  split; [reflexivity|]. split; [reflexivity|]. split; reflexivity.
Defined.

Section LoggedRequests.

Variable world : Type.
Variable requests_post :
  string -> json -> list (string * string) -> world -> response * world.
Variable GITHUB_TOKEN : string.

Lemma run_query_logged (query : string) (variables : json) (w : world)
    (log : list request) :
  snd (run_query (world * list request) (logged requests_post) GITHUB_TOKEN
                 query variables (w, log))
  = (snd (requests_post API_URL (payload query variables) (HEADERS GITHUB_TOKEN) w),
     (log ++ [(API_URL, payload query variables, HEADERS GITHUB_TOKEN)])%list).
Proof.
  unfold run_query, logged. cbn [fst snd].
  destruct (requests_post API_URL (payload query variables) (HEADERS GITHUB_TOKEN) w)
    as [r w'].
  destruct (negb (status_code r =? 200)%Z); [reflexivity|].
  destruct (decoded r); reflexivity.
Qed.

Lemma mbind_lift_world {W A B : Type} (m : M W A) (f : A -> result B) (w : W) :
  snd (mbind m (fun x => lift (f x)) w) = snd (m w).
Proof.
  unfold mbind, lift. destruct (m w) as [[a|e] w']; reflexivity.
Qed.

Lemma fetch_page_logged (query : string) (project_id cursor : json)
    (results : list json) (w : world) (log : list request) :
  snd (fetch_page (world * list request) (logged requests_post) GITHUB_TOKEN
                  query project_id cursor results (w, log))
  = (snd (requests_post API_URL (payload query (items_variables project_id cursor))
                        (HEADERS GITHUB_TOKEN) w),
     (log ++ [(API_URL, payload query (items_variables project_id cursor),
               HEADERS GITHUB_TOKEN)])%list).
Proof.
  unfold fetch_page. rewrite mbind_lift_world. apply run_query_logged.
Qed.

Lemma get_project_items_loop_logged (query : string) (project_id : json) (fuel : nat) :
  forall (cursor : json) (results : list json) (w : world) (log : list request),
  exists new,
    snd (snd (get_project_items_loop (world * list request) (logged requests_post)
                GITHUB_TOKEN fuel query project_id cursor results (w, log)))
    = (log ++ new)%list
    /\ length new <= fuel
    /\ Forall (fun req => exists c,
                   req = (API_URL, payload query (items_variables project_id c),
                          HEADERS GITHUB_TOKEN)) new
    /\ (fuel <> O ->
        hd_error new = Some (API_URL, payload query (items_variables project_id cursor),
                             HEADERS GITHUB_TOKEN)).
Proof.
  induction fuel as [|fuel IH]; intros cursor results w log.
  - exists []. cbn. rewrite app_nil_r. repeat split; auto. contradiction.
  - cbn [get_project_items_loop].
    pose proof (fetch_page_logged query project_id cursor results w log) as L.
    destruct (fetch_page _ _ _ _ _ _ _ (w, log)) as [r [w1 log1]].
    cbn [snd] in L. inversion L as [[Hw Hl]]. clear L.
    set (req := (API_URL, payload query (items_variables project_id cursor),
                 HEADERS GITHUB_TOKEN)) in *.
    assert (One : exists new, (log ++ [req] = log ++ new)%list /\ length new <= S fuel
                   /\ Forall (fun r => exists c,
                        r = (API_URL, payload query (items_variables project_id c),
                             HEADERS GITHUB_TOKEN)) new
                   /\ (S fuel <> O -> hd_error new = Some req)).
    { exists [req]. repeat split; cbn; auto; [lia|].
      constructor; [exists cursor; reflexivity|constructor]. }
    destruct r as [[results' [cursor'|]]|e]; cbn [snd]; try exact One.
    destruct (IH cursor' results' (snd (requests_post API_URL
                (payload query (items_variables project_id cursor))
                (HEADERS GITHUB_TOKEN) w)) (log ++ [req])%list)
      as (new & E & Ln & F & _).
    exists (req :: new). rewrite E, <- app_assoc. repeat split; cbn; auto; [lia|].
    constructor; [exists cursor; reflexivity|exact F].
Qed.

End LoggedRequests.

(** X10. [get_project_items] makes at most one request per turn of its loop,
    every one a POST of the items query to the API with the bearer token, and
    the first one with the cursor [null]. *)
Theorem requests_go_to_the_api (world : Type)
    (requests_post : string -> json -> list (string * string) -> world -> response * world)
    (GITHUB_TOKEN query : string) (project_id : json) (fuel : nat) (w : world) :
  let log := snd (snd (get_project_items (world * list request) (logged requests_post)
                         GITHUB_TOKEN fuel query project_id (w, []))) in
  length log <= fuel
  /\ Forall (fun req => exists cursor,
                 req = (API_URL, payload query (items_variables project_id cursor),
                        [("Authorization", "Bearer " ++ GITHUB_TOKEN)])) log
  /\ (fuel <> O ->
      hd_error log = Some (API_URL, payload query (items_variables project_id JNull),
                           [("Authorization", "Bearer " ++ GITHUB_TOKEN)])).
Proof.
  cbv zeta. unfold get_project_items.
  destruct (get_project_items_loop_logged world requests_post GITHUB_TOKEN query
              project_id fuel JNull [] w []) as (new & E & L & F & H).
  rewrite E. cbn [Datatypes.app]. auto.
Qed.

Lemma requests_go_to_the_api_witness :
  hd_error (snd (snd (get_project_items (unit * list request)
                        (logged (paged_server (chunks 50 fixture_120))) "token" 3
                        ITEMS_QUERY_team_metrics (JStr "PVT_1") (tt, []))))
  = Some (API_URL,
          payload ITEMS_QUERY_team_metrics (items_variables (JStr "PVT_1") JNull),
          [("Authorization", "Bearer token")]).
Proof.
  apply (proj2 (proj2 (requests_go_to_the_api unit (paged_server (chunks 50 fixture_120))
                         "token" ITEMS_QUERY_team_metrics (JStr "PVT_1") 3 tt))).
  discriminate.
Defined.

(** X11. [get_project_id_from_url] makes no request for a URL that the
    pattern does not match, and exactly one otherwise: the query of the
    matched owner kind, with the matched name and the number as an integer. *)
Theorem resolver_requests (world : Type)
    (requests_post : string -> json -> list (string * string) -> world -> response * world)
    (GITHUB_TOKEN url : string) (w : world) :
  let out := get_project_id_from_url (world * list request) (logged requests_post)
               GITHUB_TOKEN url (w, []) in
  (re_search url = None -> snd out = (w, []))
  /\ (forall t n d, re_search url = Some (t, n, d) ->
        snd (snd out)
        = [(API_URL,
            payload (if t =? "orgs" then ORG_QUERY else USER_QUERY)
                    (JObj [(if t =? "orgs" then "org" else "user", JStr n);
                           ("number", JNum (py_int d))]),
            [("Authorization", "Bearer " ++ GITHUB_TOKEN)])]).
Proof.
  cbv zeta. unfold get_project_id_from_url. split.
  - intro E. rewrite E. reflexivity.
  - intros t n d E. rewrite E.
    destruct (t =? "orgs"); rewrite mbind_lift_world, run_query_logged; reflexivity.
Qed.

Lemma resolver_requests_witness :
  snd (snd (get_project_id_from_url (unit * list request)
              (logged (const_server project_response)) "token" PROJECT_URL (tt, [])))
  = [(API_URL,
      payload ORG_QUERY (JObj [("org", JStr "stack-spot"); ("number", JNum 251)]),
      [("Authorization", "Bearer token")])].
Proof.
  apply (proj2 (resolver_requests unit (const_server project_response) "token"
                  PROJECT_URL tt) "orgs" "stack-spot" "251").
  reflexivity.
Defined.

Lemma py_int_acc_uint (d : uint) (acc : Z) :
  (0 <= acc)%Z ->
  py_int_acc acc (NilEmpty.string_of_uint d)
  = (Z.of_N (DecimalPos.Unsigned.of_lu (Decimal.rev d))
     + acc * 10 ^ Z.of_N (DecimalPos.Unsigned.usize d))%Z.
Proof.
  revert acc.
  induction d as [|d IH|d IH|d IH|d IH|d IH|d IH|d IH|d IH|d IH|d IH]; intros acc A;
    cbn [NilEmpty.string_of_uint py_int_acc];
    [cbn; lia| | | | | | | | | |];
    match goal with
    | |- context [digit_value ?c] =>
        let v := eval vm_compute in (digit_value c) in change (digit_value c) with v
    end;
    rewrite IH by lia;
    match goal with
    | |- context [Decimal.rev (?C d)] =>
        change (Decimal.rev (C d)) with (Decimal.revapp d (C Nil));
        rewrite (DecimalPos.Unsigned.of_lu_revapp d (C Nil));
        let v := eval vm_compute in (DecimalPos.Unsigned.of_lu (C Nil)) in
        change (DecimalPos.Unsigned.of_lu (C Nil)) with v
    end;
    cbn [DecimalPos.Unsigned.usize];
    rewrite N2Z.inj_add, N2Z.inj_mul, N2Z.inj_pow, N2Z.inj_succ;
    rewrite Z.pow_succ_r by lia;
    cbn [Z.of_N]; ring.
Qed.

Lemma py_int_pos (p : positive) :
  py_int (NilEmpty.string_of_uint (Pos.to_uint p)) = Zpos p.
Proof.
  unfold py_int. rewrite py_int_acc_uint by lia.
  rewrite <- DecimalPos.Unsigned.of_uint_alt, DecimalPos.Unsigned.of_to. cbn. lia.
Qed.

(** [int(str(n)) == n] for a natural number [n]. *)
Lemma py_int_str_of_Z (z : Z) : (0 <= z)%Z -> py_int (str_of_Z z) = z.
Proof.
  intro H. unfold str_of_Z. destruct z as [|p|p]; [reflexivity| |lia].
  cbn [Z.to_int NilZero.string_of_int].
  assert (E : NilZero.string_of_uint (Pos.to_uint p)
              = NilEmpty.string_of_uint (Pos.to_uint p)).
  { unfold NilZero.string_of_uint. destruct (Pos.to_uint p) eqn:X; try reflexivity.
    pose proof (DecimalPos.Unsigned.of_to p) as O. rewrite X in O. discriminate. }
  rewrite E. apply py_int_pos.
Qed.

Lemma string_of_uint_digits (d : uint) :
  str_forall is_digit (NilEmpty.string_of_uint d) = true.
Proof.
  induction d; cbn [NilEmpty.string_of_uint str_forall]; try reflexivity;
    rewrite IHd; reflexivity.
Qed.

Lemma str_of_Z_digits (z : Z) :
  (0 <= z)%Z -> str_forall is_digit (str_of_Z z) = true.
Proof.
  intro H. unfold str_of_Z. destruct z as [|p|p]; [reflexivity| |lia].
  cbn [Z.to_int NilZero.string_of_int]. unfold NilZero.string_of_uint.
  destruct (Pos.to_uint p) eqn:X; try reflexivity;
    rewrite <- X; apply string_of_uint_digits.
Qed.


Lemma span_all (f : ascii -> bool) (a : string) :
  str_forall f a = true -> span f a = (a, "").
Proof.
  induction a as [|x a IH]; cbn; [reflexivity|]. intro F.
  apply andb_true_iff in F. destruct F as [Fx Fa]. rewrite Fx, (IH Fa). reflexivity.
Qed.

Lemma append_empty_r (s : string) : s ++ "" = s.
Proof. induction s; cbn; congruence. Qed.

Lemma re_match_exact (t n d rest : string) :
  (t = "orgs" \/ t = "users") ->
  n <> "" -> str_forall not_slash n = true ->
  d <> "" -> str_forall is_digit d = true ->
  (rest = "" \/ exists c r, rest = String c r /\ is_digit c = false) ->
  re_match ("github.com/" ++ t ++ "/" ++ n ++ "/projects/" ++ d ++ rest)
  = Some (t, n, d).
Proof.
  intros Ht Hn Fn Hd Fd Hr.
  assert (Sd : span is_digit (d ++ rest) = (d, rest)).
  { destruct Hr as [->|(c & r & -> & Hc)].
    - rewrite append_empty_r. apply span_all. exact Fd.
    - apply span_stop; assumption. }
  change ("github.com/" ++ t ++ "/" ++ n ++ "/projects/" ++ d ++ rest)
    with ("github" ++ String "." ("com/" ++ t ++ "/" ++ n ++ "/projects/" ++ d ++ rest)).
  unfold re_match, obind.
  rewrite strip_prefix_complete. cbn [re_dot].
  change (("." =? newline)%char) with false. cbv iota.
  rewrite strip_prefix_complete.
  assert (G : re_orgs_or_users (t ++ "/" ++ n ++ "/projects/" ++ d ++ rest)
              = Some (t, "/" ++ n ++ "/projects/" ++ d ++ rest)).
  { destruct Ht; subst; reflexivity. }
  rewrite G. cbn [fst snd]. rewrite strip_prefix_complete.
  change ("/projects/" ++ d ++ rest) with (String "/" ("projects/" ++ d ++ rest)).
  rewrite (span_stop not_slash n "/" _ Fn eq_refl).
  apply String.eqb_neq in Hn. rewrite Hn.
  change (String "/" ("projects/" ++ d ++ rest)) with ("/projects/" ++ d ++ rest).
  rewrite strip_prefix_complete, Sd.
  apply String.eqb_neq in Hd. rewrite Hd. reflexivity.
Qed.

Lemma re_search_skip (pre s : string) :
  str_forall (fun c => negb (c =? "g")%char) pre = true ->
  re_search (pre ++ s) = re_search s.
Proof.
  induction pre as [|c pre IH]; intro F; [reflexivity|].
  cbn [str_forall] in F. apply andb_true_iff in F. destruct F as [Fc Fp].
  cbn [append re_search]. unfold re_match at 1. cbn [strip_prefix].
  rewrite Ascii.eqb_sym. apply negb_true_iff in Fc. rewrite Fc. cbn [obind].
  apply IH. exact Fp.
Qed.

(** X12. The URL of a project, built from an owner kind, an owner name
    without a slash and a project number, is parsed back into that kind, that
    name and that number, whatever stands before the host (without a [g]) and
    whatever follows the number. *)
Theorem project_url_round_trip (pre kind name rest : string) (number : Z) :
  str_forall (fun c => negb (c =? "g")%char) pre = true ->
  (kind = "orgs" \/ kind = "users") ->
  name <> "" -> str_forall not_slash name = true ->
  (0 <= number)%Z ->
  (rest = "" \/ exists c r, rest = String c r /\ is_digit c = false) ->
  exists digits,
    re_search (pre ++ "github.com/" ++ kind ++ "/" ++ name ++ "/projects/"
                   ++ str_of_Z number ++ rest)
    = Some (kind, name, digits)
    /\ py_int digits = number.
Proof.
  intros Fp Hk Hn Fn Hz Hr. exists (str_of_Z number).
  split; [|apply py_int_str_of_Z; exact Hz].
  rewrite re_search_skip by exact Fp.
  apply re_search_here, re_match_exact; try assumption.
  - apply str_of_Z_nonempty.
  - apply str_of_Z_digits. exact Hz.
Qed.

Lemma project_url_round_trip_witness :
  exists digits,
    re_search ("https://" ++ "github.com/" ++ "orgs" ++ "/" ++ "stack-spot" ++ "/projects/"
                          ++ str_of_Z 251 ++ "/views/1")
    = Some ("orgs", "stack-spot", digits)
    /\ py_int digits = 251%Z.
Proof.
  apply (project_url_round_trip "https://" "orgs" "stack-spot" "/views/1" 251).
  - reflexivity.
  - left. reflexivity.
  - discriminate.
  - reflexivity.
  - lia.
  - right. exists "/"%char, "views/1". split; reflexivity.
Defined.

Section ResolverResult.

Variable world : Type.
Variable requests_post :
  string -> json -> list (string * string) -> world -> response * world.
Variable GITHUB_TOKEN : string.

Lemma run_query_ok (query : string) (variables : json) (w w' : world)
    (resp : response) (m : list (string * json)) :
  requests_post API_URL (payload query variables) (HEADERS GITHUB_TOKEN) w = (resp, w') ->
  status_code resp = 200%Z -> decoded resp = Some (JObj m) ->
  lookup "errors" m = None ->
  run_query world requests_post GITHUB_TOKEN query variables w = (Ok (JObj m), w').
Proof.
  intros P S D E. unfold run_query. rewrite P, S, D. cbn [Z.eqb Pos.eqb negb py_in bind].
  rewrite E. reflexivity.
Qed.

(** X13. For a URL that matches, [get_project_id_from_url] returns the id
    and the title of [data.<owner>.projectV2]; when the API answers that the
    project or the owner is [null] it raises a [TypeError], and a
    [KeyError] when the answer has no data. *)
Theorem get_project_id_from_url_result (url t n d : string) (w w' : world)
    (resp : response) (m : list (string * json)) :
  re_search url = Some (t, n, d) ->
  requests_post API_URL
    (payload (if t =? "orgs" then ORG_QUERY else USER_QUERY)
             (JObj [(if t =? "orgs" then "org" else "user", JStr n);
                    ("number", JNum (py_int d))]))
    (HEADERS GITHUB_TOKEN) w = (resp, w') ->
  status_code resp = 200%Z -> decoded resp = Some (JObj m) ->
  lookup "errors" m = None ->
  let owner := if t =? "orgs" then "organization" else "user" in
  let out := get_project_id_from_url world requests_post GITHUB_TOKEN url w in
  (forall dm om p id title,
      lookup "data" m = Some (JObj dm) -> lookup owner dm = Some (JObj om) ->
      lookup "projectV2" om = Some (JObj p) ->
      lookup "id" p = Some id -> lookup "title" p = Some title ->
      out = (Ok (id, title), w'))
  /\ (forall dm om,
         lookup "data" m = Some (JObj dm) -> lookup owner dm = Some (JObj om) ->
         lookup "projectV2" om = Some JNull ->
         out = (Raise TypeError, w'))
  /\ (forall dm,
         lookup "data" m = Some (JObj dm) -> lookup owner dm = Some JNull ->
         out = (Raise TypeError, w'))
  /\ (lookup "data" m = None -> out = (Raise (KeyError "data"), w')).
Proof.
  intros E P S D Er owner out.
  assert (O : out = (id_and_title owner (JObj m), w')).
  { unfold out, owner, get_project_id_from_url. rewrite E.
    destruct (t =? "orgs"); unfold mbind;
      rewrite (run_query_ok _ _ _ _ _ _ P S D Er); reflexivity. }
  rewrite O. clear O. clearbody owner. clear out.
  unfold id_and_title. cbn [py_path]. unfold py_getitem, bind.
  split; [|split; [|split]].
  - intros dm om p id title Hd Ho Hp Hi Ht. rewrite Hd, Ho, Hp, Hi, Ht. reflexivity.
  - intros dm om Hd Ho Hp. rewrite Hd, Ho, Hp. reflexivity.
  - intros dm Hd Ho. rewrite Hd, Ho. reflexivity.
  - intro Hd. rewrite Hd. reflexivity.
Qed.

End ResolverResult.

Lemma get_project_id_from_url_result_witness :
  get_project_id_from_url unit (const_server project_response) "token" PROJECT_URL tt
  = (Ok (JStr "PVT_1", JStr "Portal"), tt)
  /\ get_project_id_from_url unit (const_server no_project_response) "token"
       PROJECT_URL tt
     = (Raise TypeError, tt).
Proof.
  split.
  - destruct (get_project_id_from_url_result unit (const_server project_response)
                "token" PROJECT_URL "orgs" "stack-spot" "251" tt tt project_response
                _ eq_refl eq_refl eq_refl eq_refl eq_refl) as (A & _).
    apply (A _ _ _ (JStr "PVT_1") (JStr "Portal") eq_refl eq_refl eq_refl eq_refl eq_refl).
  - destruct (get_project_id_from_url_result unit (const_server no_project_response)
                "token" PROJECT_URL "orgs" "stack-spot" "251" tt tt no_project_response
                _ eq_refl eq_refl eq_refl eq_refl eq_refl) as (_ & B & _).
    apply (B _ _ eq_refl eq_refl eq_refl).
Defined.

(** ** The main blocks: filters, rows and reports *)

(** X14. Both scripts pass over an item that has no content, or whose content
    is empty or has no [closedAt], before they read anything else of it:
    pull requests and issues still open never reach the extractors. *)
Theorem items_without_closed_issue_are_skipped (project_title : json)
    (m : list (string * json)) :
  ((lookup "content" m = None \/ lookup "content" m = Some JNull
    \/ lookup "content" m = Some (JObj [])) ->
   TeamMetrics.filter_item project_title (JObj m) = Ok None
   /\ Capitalizacao.filter_item project_title (JObj m) = Ok None)
  /\ (forall c, lookup "content" m = Some (JObj c) -> empty_str "closedAt" c = true ->
        TeamMetrics.filter_item project_title (JObj m) = Ok None
        /\ Capitalizacao.filter_item project_title (JObj m) = Ok None)
  /\ TeamMetrics.filter_item project_title JNull = Raise AttributeError
  /\ Capitalizacao.filter_item project_title JNull = Raise AttributeError.
Proof.
  split; [|split; [|split; reflexivity]].
  - intros [H|[H|H]];
      unfold TeamMetrics.filter_item, Capitalizacao.filter_item, py_get, py_or, bind;
      rewrite H; split; reflexivity.
  - intros c H E. unfold empty_str in E.
    unfold TeamMetrics.filter_item, Capitalizacao.filter_item, py_get, py_or, bind.
    rewrite H. destruct c as [|p c]; [split; reflexivity|]. cbn [truthy negb].
    destruct (lookup "closedAt" (p :: c)) as [[| | |[|]| |]|]; try discriminate;
      split; reflexivity.
Qed.

Lemma items_without_closed_issue_are_skipped_witness :
  TeamMetrics.filter_item (JStr "Portal") (JObj pull_request_members) = Ok None
  /\ Capitalizacao.filter_item (JStr "Portal") (JObj pull_request_members) = Ok None.
Proof.
  apply (proj1 (items_without_closed_issue_are_skipped (JStr "Portal")
                  pull_request_members)).
  right. right. reflexivity.
Defined.

Lemma rows_of_length {R : Type} (built : json -> R -> Prop) items (rows : list R) :
  rows_of built items rows -> (Datatypes.length rows <= Datatypes.length items)%nat.
Proof. induction 1; cbn [Datatypes.length]; lia. Qed.

Lemma rows_of_In {R : Type} (built : json -> R -> Prop) items (rows : list R) :
  rows_of built items rows ->
  forall r, In r rows -> exists item, In item items /\ built item r.
Proof.
  induction 1 as [|item items rows _ IH|item items r rows B _ IH]; intros r' I.
  - destruct I.
  - destruct (IH _ I) as (it & Ii & Bi). exists it. split; [right; exact Ii|exact Bi].
  - destruct I as [<-|I].
    + exists item. split; [left; reflexivity|exact B].
    + destruct (IH _ I) as (it & Ii & Bi). exists it. split; [right; exact Ii|exact Bi].
Qed.

Lemma leb_compare (a b : string) : (a <=? b) = true <-> (a ?= b) <> Gt.
Proof.
  unfold String.leb. destruct (a ?= b); split; intro H; try reflexivity;
    try discriminate; try congruence.
Qed.

Lemma compare_antisym_str (a b : string) : (b ?= a) = CompOpp (a ?= b).
Proof. apply String.compare_antisym. Qed.

Lemma in_date_range_key (dt : datetime) (s : string) :
  isoparse_str s = Some dt ->
  TeamMetrics.in_date_range dt = true -> (20251007 <= date_key dt <= 20251210)%Z.
Proof.
  intros P H. destruct (isoparse_str_ranges _ _ P) as (Ry & Rm & Rd).
  destruct (isoformat_compare dt) as [C1 C2]; [lia|lia|lia|].
  unfold TeamMetrics.in_date_range in H. apply andb_true_iff in H.
  destruct H as [H1 H2].
  apply leb_compare in H1. apply leb_compare in H2.
  rewrite C1 in H1. rewrite compare_antisym_str, C2 in H2.
  split.
  - apply Z.compare_le_iff. exact H1.
  - apply Z.compare_ge_iff. intro X. rewrite X in H2. apply H2. reflexivity.
Qed.

Lemma team_filter_item_row (project_title item : json) (r : TeamMetrics.issue_dict) :
  TeamMetrics.filter_item project_title item = Ok (Some r) ->
  row_of_item project_title item r.
Proof.
  unfold TeamMetrics.filter_item. intro H.
  destruct (py_get item "content" JNull) as [issue|] eqn:Hi; cbn [bind] in H;
    [|discriminate].
  destruct (py_or _ _) as [[|]|]; cbn [bind] in H; try discriminate.
  destruct (py_getitem issue "closedAt") as [c|] eqn:Hc; cbn [bind] in H; [|discriminate].
  destruct (isoparse c) as [closed|] eqn:Hp; cbn [bind] in H; [|discriminate].
  destruct (TeamMetrics.in_date_range closed) eqn:Hr; cbn [negb] in H; [|discriminate].
  unfold TeamMetrics.build_issue_dict in H.
  destruct (extract_type item) as [tipo|] eqn:Et; cbn [bind] in H; [|discriminate].
  destruct (extract_scope item) as [scope|] eqn:Es; cbn [bind] in H; [|discriminate].
  destruct (extract_assignees item) as [assignees|] eqn:Ea; cbn [bind] in H;
    [|discriminate].
  destruct (py_path issue _) as [repo|] eqn:E1; cbn [bind] in H; [|discriminate].
  destruct (py_getitem issue "number") as [number|] eqn:E2; cbn [bind] in H;
    [|discriminate].
  destruct (py_getitem issue "title") as [title|] eqn:E3; cbn [bind] in H;
    [|discriminate].
  destruct (py_getitem issue "state") as [state|] eqn:E4; cbn [bind] in H;
    [|discriminate].
  rewrite Hc in H. cbn [bind] in H.
  destruct (parent_field issue "number") as [pn|] eqn:E5; cbn [bind] in H;
    [|discriminate].
  destruct (parent_field issue "title") as [pt|] eqn:E6; cbn [bind] in H;
    [|discriminate].
  inversion H; subst; clear H. unfold row_of_item.
  cbn [TeamMetrics.project TeamMetrics.type TeamMetrics.scope TeamMetrics.assignees
       TeamMetrics.closedAt TeamMetrics.repo TeamMetrics.number TeamMetrics.title
       TeamMetrics.state TeamMetrics.parent_number TeamMetrics.parent_title].
  split; [reflexivity|]. split; [exact Et|]. split; [exact Es|].
  split; [exact Ea|]. split.
  - unfold isoparse in Hp. destruct c as [| | |s| |]; try discriminate.
    destruct (isoparse_str s) as [dt|] eqn:Hs; [|discriminate]. inversion Hp; subst.
    exists s, closed. split; [reflexivity|]. split; [exact Hs|].
    apply (in_date_range_key closed s Hs Hr).
  - exists issue. repeat split; assumption.
Qed.

Lemma filtered_issues_rows_of (project_title : json) (items : list json)
    (rows : list TeamMetrics.issue_dict) :
  TeamMetrics.filtered_issues project_title items = Ok rows ->
  rows_of (row_of_item project_title) items rows.
Proof.
  revert rows. induction items as [|item items IH]; intros rows H;
    cbn [TeamMetrics.filtered_issues] in H.
  - inversion H. constructor.
  - destruct (TeamMetrics.filter_item project_title item) as [r|] eqn:F;
      cbn [bind] in H; [|discriminate].
    destruct (TeamMetrics.filtered_issues project_title items) as [rs|];
      cbn [bind] in H; [|discriminate].
    inversion H; subst; clear H. destruct r as [r|].
    + apply rows_of_keep; [apply team_filter_item_row; exact F|apply IH; reflexivity].
    + apply rows_of_skip. apply IH. reflexivity.
Qed.

(** X15. The rows of [team_metrics.py] are built from a selection of the
    items, in the order of the items: a row carries the title of the project,
    the type, the scope and the assignees extracted from its item, the
    repository, number, title, state and parent of its issue, and a
    [closedAt] whose date lies from 2025-10-07 to 2025-12-10. No row lies
    outside the range, and there are no more rows than items. *)
Theorem filtered_issues_rows (project_title : json) (items : list json)
    (rows : list TeamMetrics.issue_dict) :
  TeamMetrics.filtered_issues project_title items = Ok rows ->
  rows_of (row_of_item project_title) items rows
  /\ (Datatypes.length rows <= Datatypes.length items)%nat.
Proof.
  intro H. apply filtered_issues_rows_of in H.
  split; [exact H|apply (rows_of_length _ _ _ H)].
Qed.

Lemma filtered_issues_rows_witness :
  rows_of (row_of_item (JStr "Portal"))
          (closed_issue "2025-10-06T23:59:59Z" "Bug" :: october_items) october_rows
  /\ (Datatypes.length october_rows
      <= Datatypes.length (closed_issue "2025-10-06T23:59:59Z" "Bug" :: october_items))%nat.
Proof.
  apply (filtered_issues_rows (JStr "Portal")
           (closed_issue "2025-10-06T23:59:59Z" "Bug" :: october_items) october_rows).
  reflexivity.
Defined.

Lemma append_split (f : ascii -> bool) (c : ascii) (a a' b b' : string) :
  str_forall f a = true -> str_forall f a' = true -> f c = false ->
  a ++ String c b = a' ++ String c b' -> a = a' /\ b = b'.
Proof.
  intros Fa Fa' Fc. revert a' Fa'.
  induction a as [|x a IH]; intros [|x' a'] Fa' E; cbn in E.
  - inversion E. auto.
  - inversion E; subst. cbn in Fa'. rewrite Fc in Fa'. discriminate.
  - inversion E; subst. cbn in Fa. rewrite Fc in Fa. discriminate.
  - inversion E; subst. cbn in Fa, Fa'.
    apply andb_true_iff in Fa. apply andb_true_iff in Fa'.
    destruct (IH (proj2 Fa) a' (proj2 Fa') H1) as [-> ->]. auto.
Qed.

Lemma month_check :
  nat_forall 13 (fun m =>
    Bool.eqb (pad_zero 2 (Z.of_nat m) =? "09") (m =? 9)%nat) = true.
Proof. vm_compute. reflexivity. Qed.

Lemma year_month_september (dt : datetime) :
  (0 <= year dt < 10000)%Z -> (0 <= month dt <= 12)%Z ->
  (year_month dt =? "2025-09") = true <-> (year dt = 2025 /\ month dt = 9)%Z.
Proof.
  intros Ry Rm. rewrite String.eqb_eq. unfold year_month. split.
  - intro E.
    change "2025-09" with ("2025" ++ String "-" "09") in E.
    change ("-" ++ pad_zero 2 (month dt)) with (String "-" (pad_zero 2 (month dt))) in E.
    apply (append_split is_digit) in E;
      [|apply str_of_Z_digits; lia|reflexivity|reflexivity].
    destruct E as [Ey Em]. split.
    + rewrite <- (py_int_str_of_Z (year dt)) by lia. rewrite Ey. reflexivity.
    + pose proof (nat_forall_spec _ _ month_check (Z.to_nat (month dt))) as H.
      cbv beta in H. rewrite Z2Nat.id in H by lia.
      assert (L : (Z.to_nat (month dt) < 13)%nat) by lia.
      apply H in L. rewrite Em in L.
      destruct (Nat.eqb_spec (Z.to_nat (month dt)) 9); [lia|discriminate].
  - intros [-> ->]. reflexivity.
Qed.

Lemma cap_filter_item_row (project_title item : json) (r : Capitalizacao.issue_dict) :
  Capitalizacao.filter_item project_title item = Ok (Some r) ->
  month_row_of_item project_title item r.
Proof.
  unfold Capitalizacao.filter_item. intro H.
  destruct (py_get item "content" JNull) as [issue|] eqn:Hi; cbn [bind] in H;
    [|discriminate].
  destruct (py_or _ _) as [[|]|]; cbn [bind] in H; try discriminate.
  destruct (py_getitem issue "closedAt") as [c|] eqn:Hc; cbn [bind] in H; [|discriminate].
  destruct (isoparse c) as [closed|] eqn:Hp; cbn [bind] in H; [|discriminate].
  cbv zeta in H. unfold FILTER_MONTHS in H. cbn [existsb] in H.
  rewrite orb_false_r in H.
  destruct (year_month closed =? "2025-09") eqn:Hm; cbn [negb] in H; [|discriminate].
  unfold Capitalizacao.build_issue_dict in H.
  destruct (extract_type item) as [tipo|] eqn:Et; cbn [bind] in H; [|discriminate].
  destruct (extract_scope item) as [scope|] eqn:Es; cbn [bind] in H; [|discriminate].
  destruct (py_path issue _) as [repo|] eqn:E1; cbn [bind] in H; [|discriminate].
  destruct (py_getitem issue "number") as [number|] eqn:E2; cbn [bind] in H;
    [|discriminate].
  destruct (py_getitem issue "title") as [title|] eqn:E3; cbn [bind] in H;
    [|discriminate].
  destruct (py_getitem issue "state") as [state|] eqn:E4; cbn [bind] in H;
    [|discriminate].
  rewrite Hc in H. cbn [bind] in H.
  destruct (parent_field issue "number") as [pn|] eqn:E5; cbn [bind] in H;
    [|discriminate].
  destruct (parent_field issue "title") as [pt|] eqn:E6; cbn [bind] in H;
    [|discriminate].
  inversion H; subst; clear H. unfold month_row_of_item.
  cbn [Capitalizacao.project Capitalizacao.month Capitalizacao.type
       Capitalizacao.scope Capitalizacao.closedAt Capitalizacao.repo
       Capitalizacao.number Capitalizacao.title Capitalizacao.state
       Capitalizacao.parent_number Capitalizacao.parent_title].
  split; [reflexivity|]. split; [apply String.eqb_eq; exact Hm|].
  split; [exact Et|]. split; [exact Es|]. split.
  - unfold isoparse in Hp. destruct c as [| | |s| |]; try discriminate.
    destruct (isoparse_str s) as [dt|] eqn:Hs; [|discriminate]. inversion Hp; subst.
    exists s, closed. split; [reflexivity|]. split; [exact Hs|].
    destruct (isoparse_str_ranges _ _ Hs) as (Ry & Rm & Rd).
    apply year_month_september; [lia|lia|exact Hm].
  - exists issue. repeat split; assumption.
Qed.

Lemma cap_extracted_rows (project_title : json) (items : list json)
    (rows : list Capitalizacao.issue_dict) :
  cap_extracted project_title items = Ok rows ->
  rows_of (month_row_of_item project_title) items rows.
Proof.
  revert rows. induction items as [|item items IH]; intros rows H;
    cbn [cap_extracted] in H.
  - inversion H. constructor.
  - destruct (Capitalizacao.filter_item project_title item) as [r|] eqn:F;
      cbn [bind] in H; [|discriminate].
    destruct (cap_extracted project_title items) as [rs|];
      cbn [bind] in H; [|discriminate].
    inversion H; subst; clear H. destruct r as [r|].
    + apply rows_of_keep; [apply cap_filter_item_row; exact F|apply IH; reflexivity].
    + apply rows_of_skip. apply IH. reflexivity.
Qed.

Lemma month_scope_loop_one_month (project_title : json) (items : list json) :
  forall d d',
    (d = [] \/ exists scopes, d = [("2025-09", scopes)]) ->
    Capitalizacao.month_scope_loop project_title items d = Ok d' ->
    d' = [] \/ exists scopes, d' = [("2025-09", scopes)].
Proof.
  induction items as [|item items IH]; intros d d' I H;
    cbn [Capitalizacao.month_scope_loop] in H.
  - inversion H; subst. exact I.
  - destruct (Capitalizacao.filter_item project_title item) as [[i|]|] eqn:F;
      cbn [bind] in H; [| |discriminate].
    + destruct (to_key (Capitalizacao.scope i)) as [s|]; cbn [bind] in H; [|discriminate].
      apply (IH _ _) in H; [exact H|]. right.
      apply cap_filter_item_row in F. destruct F as (_ & Hm & _).
      rewrite Hm. unfold Capitalizacao.dd2_append.
      destruct I as [->|[scopes ->]]; cbn; eexists; reflexivity.
    + apply (IH _ _ I H).
Qed.


Lemma month_scope_loop_nonempty (project_title : json) (items : list json) :
  forall scopes,
    Capitalizacao.month_scope_loop project_title items [("2025-09", scopes)] <> Ok [].
Proof.
  induction items as [|item items IH]; intros sc H;
    cbn [Capitalizacao.month_scope_loop] in H; [discriminate|].
  destruct (Capitalizacao.filter_item project_title item) as [[j|]|] eqn:F;
    cbn [bind] in H; [| |discriminate].
  - destruct (to_key (Capitalizacao.scope j)) as [s|]; cbn [bind] in H;
      [|discriminate].
    apply cap_filter_item_row in F. destruct F as (_ & Hm & _).
    rewrite Hm in H. cbn in H. apply IH in H. exact H.
  - apply IH in H. exact H.
Qed.

Lemma month_scope_loop_scopes (project_title : json) (items : list json) :
  forall d d',
    (d = [] \/ exists scopes, d = [("2025-09", scopes)]) ->
    Capitalizacao.month_scope_loop project_title items d = Ok d' ->
    exists rows,
      cap_extracted project_title items = Ok rows
      /\ group_by_loop pykey_eqb cap_scope_key rows (concat (map snd d))
         = Ok (concat (map snd d'))
      /\ (d' = [] -> rows = [])
      /\ (rows = [] -> d' = d).
Proof.
  induction items as [|item items IH]; intros d d' I H;
    cbn [Capitalizacao.month_scope_loop cap_extracted] in *.
  - inversion H; subst. exists []. repeat split.
  - destruct (Capitalizacao.filter_item project_title item) as [[i|]|] eqn:F;
      cbn [bind] in *; [| |discriminate].
    + destruct (to_key (Capitalizacao.scope i)) as [s|] eqn:Ks; cbn [bind] in H;
        [|discriminate].
      apply cap_filter_item_row in F. destruct F as (_ & Hm & _).
      rewrite Hm in H.
      assert (D : Capitalizacao.dd2_append "2025-09" s i d
                  = [("2025-09", dd_append pykey_eqb s i (concat (map snd d)))]).
      { unfold Capitalizacao.dd2_append.
        destruct I as [->|[scopes ->]]; cbn; rewrite ?app_nil_r; reflexivity. }
      rewrite D in H.
      destruct (IH _ _ (or_intror (ex_intro _ _ eq_refl)) H) as (rows & E & G & N & _).
      exists (i :: rows). rewrite E. cbn [bind]. split; [reflexivity|].
      cbn [group_by_loop]. unfold cap_scope_key at 1. rewrite Ks. cbn [bind].
      cbn [map snd concat] in G. rewrite app_nil_r in G. split; [exact G|].
      split; [|discriminate].
      intro X. subst d'. exfalso. apply (month_scope_loop_nonempty _ _ _ H).
    + destruct (IH _ _ I H) as (rows & E & G & N & Z).
      exists rows. rewrite E. cbn [bind]. auto.
Qed.

(** X16. [capitalizacao.py] keeps the issues closed in September 2025 and no
    other. Its rows are built from a selection of the items, in the order of
    the items, each with the month 2025-09 and a [closedAt] of that month;
    its dictionary is empty when no row is kept and has the one month
    2025-09 otherwise, under which the rows are grouped by scope: one file of
    rows is written at most. *)
Theorem capitalizacao_keeps_september_only (project_title : json) (items : list json)
    (d : Capitalizacao.month_scope_dict) :
  Capitalizacao.month_scope_loop project_title items [] = Ok d ->
  exists rows,
    cap_extracted project_title items = Ok rows
    /\ rows_of (month_row_of_item project_title) items rows
    /\ ((d = [] /\ rows = [])
        \/ (exists scopes,
               d = [("2025-09", scopes)] /\ rows <> []
               /\ group_by_loop pykey_eqb cap_scope_key rows [] = Ok scopes)).
Proof.
  intro H.
  destruct (month_scope_loop_scopes _ _ _ _ (or_introl eq_refl) H)
    as (rows & E & G & N & Z).
  exists rows. split; [exact E|]. split; [apply cap_extracted_rows; exact E|].
  destruct (month_scope_loop_one_month _ _ _ _ (or_introl eq_refl) H)
    as [->|(scopes & ->)].
  - left. split; [reflexivity|apply N; reflexivity].
  - right. exists scopes. split; [reflexivity|]. split.
    + intro X. apply Z in X. discriminate.
    + cbn [map snd concat] in G. rewrite app_nil_r in G. exact G.
Qed.

Lemma capitalizacao_keeps_september_only_witness :
  exists rows,
    cap_extracted (JStr "Portal") autumn_items = Ok rows
    /\ rows_of (month_row_of_item (JStr "Portal")) autumn_items rows
    /\ ((september_dict = [] /\ rows = [])
        \/ (exists scopes,
               september_dict = [("2025-09", scopes)] /\ rows <> []
               /\ group_by_loop pykey_eqb cap_scope_key rows [] = Ok scopes)).
Proof.
  apply (capitalizacao_keeps_september_only (JStr "Portal") autumn_items september_dict).
  reflexivity.
Defined.


Lemma filter_all {A : Type} (f : A -> bool) (l : list A) :
  (forall x, f x = true) -> filter f l = l.
Proof.
  intro H. induction l as [|a l IH]; [reflexivity|].
  cbn [filter]. rewrite H, IH. reflexivity.
Qed.

Section FirstSeen.

Context {K : Type}.
Variable eqb : K -> K -> bool.
Hypothesis eqb_spec : forall a b, eqb a b = true <-> a = b.

Lemma not_among_spec (ks : list K) (x : K) : not_among eqb ks x = true <-> ~ In x ks.
Proof.
  unfold not_among. rewrite negb_true_iff. split.
  - intros H I. assert (X : existsb (fun k => eqb k x) ks = true).
    { apply existsb_exists. exists x. split; [exact I|]. apply eqb_spec. reflexivity. }
    congruence.
  - intro N. destruct (existsb _ ks) eqn:E; [|reflexivity].
    apply existsb_exists in E. destruct E as (k & I & E). apply eqb_spec in E.
    subst. contradiction.
Qed.

Lemma not_among_false (ks : list K) (x : K) : not_among eqb ks x = false <-> In x ks.
Proof.
  split.
  - intro H. unfold not_among in H. apply negb_false_iff, existsb_exists in H.
    destruct H as (k & I & E). apply eqb_spec in E. subst. exact I.
  - intro I. destruct (not_among eqb ks x) eqn:E; [|reflexivity].
    apply not_among_spec in E. contradiction.
Qed.

Lemma keys_step (ks0 : list K) (k : K) (fs : list K) :
  let ks1 := (ks0 ++ filter (not_among eqb ks0) [k])%list in
  (ks1 ++ filter (not_among eqb ks1) fs)%list
  = (ks0 ++ filter (not_among eqb ks0) (k :: filter (fun k' => negb (eqb k' k)) fs))%list.
Proof.
  cbv zeta. cbn [filter]. destruct (not_among eqb ks0 k) eqn:E.
  - rewrite <- app_assoc. cbn [Datatypes.app]. f_equal. f_equal.
    induction fs as [|x fs IH]; [reflexivity|]. cbn [filter].
    unfold not_among at 1. rewrite existsb_app. cbn [existsb]. rewrite orb_false_r.
    rewrite negb_orb. fold (not_among eqb ks0 x).
    destruct (eqb k x) eqn:Ek.
    + apply eqb_spec in Ek. subst x.
      assert (X : eqb k k = true) by (apply eqb_spec; reflexivity).
      rewrite X. cbn [negb]. rewrite andb_false_r. exact IH.
    + assert (X : eqb x k = false).
      { apply (eqb_false eqb eqb_spec). apply (eqb_false eqb eqb_spec) in Ek. congruence. }
      rewrite X. cbn [negb filter]. rewrite andb_true_r.
      destruct (not_among eqb ks0 x); rewrite IH; reflexivity.
  - rewrite app_nil_r. f_equal. apply not_among_false in E.
    induction fs as [|x fs IH]; [reflexivity|]. cbn [filter].
    destruct (eqb x k) eqn:Ek; cbn [negb filter].
    + apply eqb_spec in Ek. subst x.
      assert (X : not_among eqb ks0 k = false) by (apply not_among_false; exact E).
      rewrite X. exact IH.
    + destruct (not_among eqb ks0 x); rewrite IH; reflexivity.
Qed.

Lemma dd_update_keys_filter {V : Type} (k : K) (upd : V -> V) (default : V)
    (d : list (K * V)) :
  map fst (dd_update eqb k upd default d)
  = (map fst d ++ filter (not_among eqb (map fst d)) [k])%list.
Proof.
  cbn [filter].
  destruct (dd_update_keys eqb eqb_spec k upd default d) as [[I E]|[N E]]; rewrite E.
  - apply not_among_false in I. rewrite I, app_nil_r. reflexivity.
  - apply not_among_spec in N. rewrite N. reflexivity.
Qed.

Lemma group_by_loop_keys {A : Type} (key : A -> result K) (l : list A) :
  forall d d' ks,
    group_by_loop eqb key l d = Ok d' -> mapM key l = Ok ks ->
    map fst d' = (map fst d ++ filter (not_among eqb (map fst d)) (first_seen eqb ks))%list.
Proof.
  induction l as [|x l IH]; intros d d' ks H M; cbn [group_by_loop mapM] in H, M.
  - inversion H; inversion M; subst. cbn. rewrite app_nil_r. reflexivity.
  - destruct (key x) as [k|]; cbn [bind] in H, M; [|discriminate].
    destruct (mapM key l) as [ks'|]; cbn [bind] in M; [|discriminate].
    inversion M; subst; clear M.
    rewrite (IH _ _ _ H eq_refl). unfold dd_append.
    rewrite dd_update_keys_filter. cbn [first_seen]. apply keys_step.
Qed.

Lemma group_by_loop_mapM {A : Type} (key : A -> result K) (l : list A) :
  forall d d', group_by_loop eqb key l d = Ok d' -> exists ks, mapM key l = Ok ks.
Proof.
  induction l as [|x l IH]; intros d d' H; cbn [group_by_loop mapM] in *.
  - exists []. reflexivity.
  - destruct (key x) as [k|]; cbn [bind] in *; [|discriminate].
    destruct (IH _ _ H) as (ks & E). rewrite E. cbn [bind]. eexists. reflexivity.
Qed.

Lemma Counter_keys (l : list K) : map fst (Counter eqb l) = first_seen eqb l.
Proof.
  unfold Counter.
  assert (G : forall l c,
             map fst (fold_left (fun c k => counter_add eqb k c) l c)
             = (map fst c ++ filter (not_among eqb (map fst c)) (first_seen eqb l))%list).
  { clear l. induction l as [|k l IH]; intro c; cbn [fold_left first_seen].
    - cbn. rewrite app_nil_r. reflexivity.
    - rewrite IH. unfold counter_add. rewrite dd_update_keys_filter. apply keys_step. }
  rewrite G. cbn [map Datatypes.app]. apply filter_all. reflexivity.
Qed.

Lemma distinct_In (l : list K) (x : K) : In x (distinct eqb l) <-> In x l.
Proof.
  induction l as [|k l IH]; [reflexivity|]. cbn [distinct].
  destruct (existsb (eqb k) l) eqn:E.
  - rewrite IH. split; [intro I; right; exact I|].
    intros [<-|I]; [|exact I]. apply existsb_exists in E.
    destruct E as (y & I & E). apply eqb_spec in E. subst. exact I.
  - cbn [In]. rewrite IH. reflexivity.
Qed.

Lemma distinct_NoDup (l : list K) : NoDup (distinct eqb l).
Proof.
  induction l as [|k l IH]; cbn [distinct]; [constructor|].
  destruct (existsb (eqb k) l) eqn:E; [exact IH|].
  constructor; [|exact IH]. intro I. apply (proj1 (distinct_In _ _)) in I.
  assert (X : existsb (eqb k) l = true).
  { apply existsb_exists. exists k. split; [exact I|apply eqb_spec; reflexivity]. }
  congruence.
Qed.

Lemma distinct_length (l : list K) :
  (Datatypes.length (distinct eqb l) <= Datatypes.length l)%nat.
Proof.
  induction l as [|k l IH]; cbn [distinct]; [apply Nat.le_refl|].
  destruct (existsb (eqb k) l); cbn [Datatypes.length]; lia.
Qed.

End FirstSeen.

Lemma team_lines_types (groups : list (pykey * list TeamMetrics.issue_dict)) (total : nat)
    (lines : list (pykey * nat * Q * nat)) :
  Forall2 (fun g line =>
             line_type line = fst g
             /\ line_count line = Datatypes.length (snd g)
             /\ line_perc line = percentage (Datatypes.length (snd g)) total)
          groups lines ->
  map line_type lines = map fst groups.
Proof.
  induction 1 as [|g line gs ls (E & _) _ IH]; [reflexivity|].
  cbn [map]. rewrite E, IH. reflexivity.
Qed.

(** X17. The lines of both reports come in the order of first appearance:
    the types of [team_metrics.py] as they first appear among the rows, the
    types of a scope of [capitalizacao.py] as they first appear among the
    issues of the scope, and its scopes as they first appear among the
    rows. *)
Theorem report_lines_follow_first_appearance :
  (forall filtered total lines,
      TeamMetrics.report filtered = Ok (total, lines) ->
      exists types,
        mapM tm_type_key filtered = Ok types
        /\ map line_type lines = first_seen pykey_eqb types)
  /\ (forall issues total summary,
        Capitalizacao.scope_summary issues = Ok (total, summary) ->
        exists types,
          mapM cap_type_key issues = Ok types
          /\ map (fun e => fst (fst e)) summary = first_seen pykey_eqb types)
  /\ (forall project_title items m scopes rest,
        Capitalizacao.month_scope_loop project_title items [] = Ok ((m, scopes) :: rest) ->
        exists rows keys,
          cap_extracted project_title items = Ok rows
          /\ mapM cap_scope_key rows = Ok keys
          /\ map fst scopes = first_seen pykey_eqb keys).
Proof.
  split; [|split].
  - intros filtered total lines H.
    destruct (team_report_lines _ _ _ H) as (groups & G & _ & F).
    unfold TeamMetrics.type_to_issues in G.
    destruct (group_by_loop_mapM pykey_eqb _ _ _ _ G) as (types & M).
    exists types. split; [exact M|].
    rewrite (team_lines_types _ _ _ F).
    rewrite (group_by_loop_keys pykey_eqb pykey_eqb_spec _ _ _ _ _ G M).
    cbn [map Datatypes.app]. apply filter_all. reflexivity.
  - intros issues total summary H. unfold Capitalizacao.scope_summary in H.
    destruct (mapM _ issues) as [types|] eqn:M; cbn [bind] in H; [|discriminate].
    inversion H; subst; clear H. exists types. split; [reflexivity|].
    rewrite map_map. cbn [fst].
    rewrite <- (Counter_keys pykey_eqb pykey_eqb_spec types).
    apply map_ext. intros [k n]. reflexivity.
  - intros project_title items m scopes rest H.
    destruct (month_scope_loop_scopes _ _ _ _ (or_introl eq_refl) H)
      as (rows & E & G & _).
    destruct (month_scope_loop_one_month _ _ _ _ (or_introl eq_refl) H)
      as [X|(scopes' & X)]; [discriminate|].
    inversion X; subst. cbn [map snd concat] in G. rewrite app_nil_r in G.
    destruct (group_by_loop_mapM pykey_eqb _ _ _ _ G) as (keys & M).
    exists rows, keys. split; [exact E|]. split; [exact M|].
    rewrite (group_by_loop_keys pykey_eqb pykey_eqb_spec _ _ _ _ _ G M).
    cbn [map Datatypes.app]. apply filter_all. reflexivity.
Qed.

Lemma report_lines_follow_first_appearance_witness :
  (exists types,
      mapM tm_type_key october_rows = Ok types
      /\ map line_type october_lines = first_seen pykey_eqb types)
  /\ (exists rows keys,
        cap_extracted (JStr "Portal") september_items = Ok rows
        /\ mapM cap_scope_key rows = Ok keys
        /\ map fst september_scopes = first_seen pykey_eqb keys).
Proof.
  destruct report_lines_follow_first_appearance as (A & _ & C).
  split.
  - apply (A october_rows 3%nat october_lines). reflexivity.
  - apply (C (JStr "Portal") september_items "2025-09" september_scopes []). reflexivity.
Defined.

(** X18. The number of people on a line of the report of [team_metrics.py]
    is the number of distinct assignees of the issues of its type: every
    login counts once, however many issues it is assigned to. *)
Theorem people_are_the_distinct_assignees (filtered : list TeamMetrics.issue_dict)
    (total : nat) (lines : list (pykey * nat * Q * nat)) :
  TeamMetrics.report filtered = Ok (total, lines) ->
  exists groups,
    TeamMetrics.type_to_issues filtered = Ok groups
    /\ Forall2 (fun g line =>
                  exists logins people,
                    mapM to_key (concat (map TeamMetrics.assignees (snd g))) = Ok logins
                    /\ NoDup people
                    /\ (forall p, In p people <-> In p logins)
                    /\ line_people line = Datatypes.length people
                    /\ (line_people line <= Datatypes.length logins)%nat)
               groups lines.
Proof.
  unfold TeamMetrics.report. intro H.
  destruct (TeamMetrics.type_to_issues filtered) as [groups|] eqn:G; cbn [bind] in H;
    [|discriminate].
  destruct (mapM _ groups) as [ls|] eqn:M; cbn [bind] in H; [|discriminate].
  inversion H; subst. exists groups. split; [reflexivity|].
  apply mapM_Forall2 in M. clear G H.
  induction M as [|g line gs ls E _ IH]; [constructor|]. constructor; [|exact IH].
  unfold TeamMetrics.report_line in E.
  destruct (mapM to_key _) as [logins|]; cbn [bind] in E; [|discriminate].
  inversion E; subst. exists logins, (distinct pykey_eqb logins).
  split; [reflexivity|]. split; [apply distinct_NoDup; exact pykey_eqb_spec|].
  split; [intro p; apply distinct_In; exact pykey_eqb_spec|].
  split; [reflexivity|]. apply distinct_length.
Qed.

Lemma people_are_the_distinct_assignees_witness :
  exists groups,
    TeamMetrics.type_to_issues shared_rows = Ok groups
    /\ Forall2 (fun g line =>
                  exists logins people,
                    mapM to_key (concat (map TeamMetrics.assignees (snd g))) = Ok logins
                    /\ NoDup people
                    /\ (forall p, In p people <-> In p logins)
                    /\ line_people line = Datatypes.length people
                    /\ (line_people line <= Datatypes.length logins)%nat)
               groups shared_lines.
Proof.
  apply (people_are_the_distinct_assignees shared_rows 2%nat shared_lines).
  reflexivity.
Defined.

Lemma percentage_bounds (count total : nat) :
  (1 <= count <= total)%nat ->
  (0 < percentage count total)%Q /\ (percentage count total <= 100)%Q.
Proof.
  intro R. unfold percentage. destruct total as [|t]; [lia|]. cbn [Nat.eqb].
  assert (Z : (1 <= Z.of_nat count <= Z.succ (Z.of_nat t))%Z) by lia.
  revert Z. generalize (Z.of_nat count). intros z Z.
  unfold Qlt, Qle, Qdiv, Qmult, Qinv, inject_Z. cbn [Qnum Qden Z.of_nat].
  rewrite ?Pos2Z.inj_mul, ?Zpos_P_of_succ_nat. lia.
Qed.

(** X19. No line of a report is about an empty group: the count of a line is
    at least 1 and at most the total, and its percentage is above 0 and at
    most 100. *)
Theorem report_lines_bounds :
  (forall filtered total lines,
      TeamMetrics.report filtered = Ok (total, lines) ->
      Forall (fun line => (1 <= line_count line <= total)%nat
                          /\ (0 < line_perc line)%Q /\ (line_perc line <= 100)%Q) lines)
  /\ (forall issues total summary,
        Capitalizacao.scope_summary issues = Ok (total, summary) ->
        Forall (fun e => (1 <= snd (fst e) <= total)%nat
                         /\ (0 < snd e)%Q /\ (snd e <= 100)%Q) summary).
Proof.
  split.
  - intros filtered total lines H.
    destruct (team_report_lines _ _ _ H) as (groups & G & T & F).
    unfold TeamMetrics.type_to_issues in G.
    pose proof (group_by_loop_grouped pykey_eqb pykey_eqb_spec _ _ _ _ _
                  (grouped_nil pykey_eqb _) G) as Gr.
    cbn [Datatypes.app] in Gr. destruct Gr as [_ Gg _ _].
    assert (B : forall g, In g groups ->
                  (1 <= Datatypes.length (snd g) <= total)%nat).
    { intros [t issues] I. destruct (Gg _ _ I) as [E N]. cbn [snd]. split.
      - destruct issues; [contradiction|cbn; lia].
      - rewrite E, T. apply filter_length_le. }
    clear G Gg H.
    induction F as [|g line gs ls (_ & C & P) _ IH]; [constructor|].
    constructor.
    + rewrite C, P. pose proof (B g (or_introl eq_refl)) as R.
      split; [exact R|]. apply percentage_bounds. exact R.
    + apply IH. intros g' I. apply B. right. exact I.
  - intros issues total summary H. unfold Capitalizacao.scope_summary in H.
    destruct (mapM _ issues) as [types|] eqn:M; cbn [bind] in H; [|discriminate].
    inversion H; subst; clear H.
    pose proof (Counter_counted pykey_eqb pykey_eqb_spec types) as [_ Cc _ _].
    apply mapM_length in M. rewrite <- M.
    apply Forall_forall. intros e I. apply in_map_iff in I.
    destruct I as ([k n] & <- & I). cbn [fst snd].
    destruct (Cc _ _ I) as [E N].
    assert (R : (1 <= n <= Datatypes.length types)%nat).
    { split; [lia|]. rewrite E. apply filter_length_le. }
    split; [exact R|]. apply percentage_bounds. exact R.
Qed.


Lemma report_lines_bounds_witness :
  Forall (fun line => (1 <= line_count line <= 3)%nat
                      /\ (0 < line_perc line)%Q /\ (line_perc line <= 100)%Q)
         october_lines.
Proof.
  apply (proj1 report_lines_bounds october_rows 3%nat october_lines). reflexivity.
Defined.


Lemma mapM_total {A B : Type} (f : A -> result B) (l : list A) :
  (forall x, In x l -> exists y, f x = Ok y) -> exists r, mapM f l = Ok r.
Proof.
  induction l as [|a l IH]; intro T; cbn [mapM].
  - exists []. reflexivity.
  - destruct (T a (or_introl eq_refl)) as (y & E). rewrite E. cbn [bind].
    destruct IH as (r & Er); [intros x I; apply T; right; exact I|].
    rewrite Er. cbn [bind]. eexists. reflexivity.
Qed.

Lemma present_getitem (k : string) (m : list (string * json)) :
  present k m = true -> exists v, py_getitem (JObj m) k = Ok v.
Proof.
  unfold present, py_getitem. destruct (lookup k m) as [v|]; [|discriminate].
  intros _. exists v. reflexivity.
Qed.

Lemma parent_field_wf (c : list (string * json)) (k : string) :
  wf_parent c = true -> (k = "number" \/ k = "title") ->
  exists v, parent_field (JObj c) k = Ok v.
Proof.
  unfold wf_parent, parent_field, py_get. intros W Hk.
  destruct (lookup "parent" c) as [[| | | | |p]|] eqn:E; try discriminate;
    cbn [bind truthy]; try (eexists; reflexivity).
  destruct p as [|q p]; cbn [truthy negb]; [eexists; reflexivity|].
  apply andb_true_iff in W. destruct W as [W1 W2].
  cbn [py_path]. unfold py_getitem at 1. rewrite E. cbn [bind].
  destruct Hk as [->| ->]; [destruct (present_getitem _ _ W1) as (v & Ev)
                           |destruct (present_getitem _ _ W2) as (v & Ev)];
    rewrite Ev; cbn [bind]; exists v; reflexivity.
Qed.

Section CompleteItems.

Variable project_title : json.

(** What the loops of both scripts need of a closed issue, once the filter on
    its date has let it pass. *)
Lemma complete_item_parts (m c : list (string * json)) (s : string) :
  complete_item (JObj m) = true ->
  lookup "content" m = Some (JObj c) ->
  lookup "closedAt" c = Some (JStr s) -> s <> "" ->
  (exists dt, isoparse_str s = Some dt)
  /\ (exists t, extract_type (JObj m) = Ok t /\ nonempty_str t)
  /\ (exists sc, extract_scope (JObj m) = Ok sc /\ nonempty_str sc)
  /\ (exists a, extract_assignees (JObj m) = Ok a /\ Forall nonempty_str a)
  /\ (exists v, py_path (JObj c) ["repository"; "nameWithOwner"] = Ok v)
  /\ (exists v, py_getitem (JObj c) "number" = Ok v)
  /\ (exists v, py_getitem (JObj c) "title" = Ok v)
  /\ (exists v, py_getitem (JObj c) "state" = Ok v)
  /\ (exists v, parent_field (JObj c) "number" = Ok v)
  /\ (exists v, parent_field (JObj c) "title" = Ok v).
Proof.
  intros C Hc Hs Ns. unfold complete_item in C.
  apply andb_true_iff in C. destruct C as [C Ci].
  apply andb_true_iff in C. destruct C as [W Wa].
  rewrite Hc in Ci. unfold complete_issue in Ci. rewrite Hs in Ci.
  apply String.eqb_neq in Ns. rewrite Ns in Ci. cbn [orb] in Ci.
  apply andb_true_iff in Ci. destruct Ci as [Ci Pp].
  apply andb_true_iff in Ci. destruct Ci as [Ci Ps].
  apply andb_true_iff in Ci. destruct Ci as [Ci Pt].
  apply andb_true_iff in Ci. destruct Ci as [Ci Pn].
  apply andb_true_iff in Ci. destruct Ci as [Ci Pr].
  split; [destruct (isoparse_str s) as [dt|]; [exists dt; reflexivity|discriminate]|].
  split; [destruct (extract_type_nonempty _ W) as (t & E & N); exists (JStr t);
          split; [exact E|exists t; auto]|].
  split; [destruct (extract_scope_nonempty _ W) as (t & E & N); exists (JStr t);
          split; [exact E|exists t; auto]|].
  split; [destruct (extract_assignees_choose _ Wa) as (E & F & _); eexists;
          split; [exact E|exact F]|].
  split.
  { cbn [py_path]. unfold py_getitem at 1.
    destruct (lookup "repository" c) as [[| | | | |r]|]; try discriminate.
    cbn [bind]. destruct (present_getitem _ _ Pr) as (v & E). rewrite E.
    exists v. reflexivity. }
  split; [apply present_getitem; assumption|].
  split; [apply present_getitem; assumption|].
  split; [apply present_getitem; assumption|].
  split; apply parent_field_wf; auto.
Qed.

Lemma skip_or_closed (m : list (string * json)) :
  complete_item (JObj m) = true ->
  (forall pt, TeamMetrics.filter_item pt (JObj m) = Ok None
              /\ Capitalizacao.filter_item pt (JObj m) = Ok None)
  \/ exists c s, lookup "content" m = Some (JObj c)
                 /\ lookup "closedAt" c = Some (JStr s) /\ s <> "".
Proof.
  intro C. unfold complete_item in C.
  apply andb_true_iff in C. destruct C as [C Ci].
  apply andb_true_iff in C. destruct C as [W _].
  cbn [wf_item] in W. apply andb_true_iff in W. destruct W as [_ Wc].
  unfold wf_content in Wc.
  destruct (lookup "content" m) as [[| | | | |c]|] eqn:Hc; try discriminate;
    try (left; intro pt;
         unfold TeamMetrics.filter_item, Capitalizacao.filter_item, py_get, py_or, bind;
         rewrite Hc; split; reflexivity).
  unfold complete_issue in Ci.
  destruct (lookup "closedAt" c) as [[| | |s| |]|] eqn:Hs; try discriminate.
  - left; intro pt.
    unfold TeamMetrics.filter_item, Capitalizacao.filter_item, py_get, py_or, bind.
    rewrite Hc. destruct c as [|p c]; [split; reflexivity|]. cbn [truthy negb].
    rewrite Hs. split; reflexivity.
  - destruct (s =? "") eqn:Es.
    + apply String.eqb_eq in Es. subst s. left; intro pt.
      unfold TeamMetrics.filter_item, Capitalizacao.filter_item, py_get, py_or, bind.
      rewrite Hc. destruct c as [|p c]; [split; reflexivity|]. cbn [truthy negb].
      rewrite Hs. split; reflexivity.
    + right. exists c, s. repeat split; auto. apply String.eqb_neq. exact Es.
  - left; intro pt.
    unfold TeamMetrics.filter_item, Capitalizacao.filter_item, py_get, py_or, bind.
    rewrite Hc. destruct c as [|p c]; [split; reflexivity|]. cbn [truthy negb].
    rewrite Hs. split; reflexivity.
Qed.

Lemma closed_not_skipped (m c : list (string * json)) (s : string) :
  lookup "content" m = Some (JObj c) ->
  lookup "closedAt" c = Some (JStr s) -> s <> "" ->
  py_get (JObj m) "content" JNull = Ok (JObj c)
  /\ py_or (Ok (negb (truthy (JObj c))))
           (let* x := py_get (JObj c) "closedAt" JNull in Ok (negb (truthy x)))
     = Ok false
  /\ py_getitem (JObj c) "closedAt" = Ok (JStr s).
Proof.
  intros Hc Hs Ns. unfold py_get, py_getitem, py_or, bind. rewrite Hc.
  destruct c as [|p c]; [discriminate|]. cbn [truthy negb]. rewrite Hs.
  apply String.eqb_neq in Ns. cbn [truthy]. rewrite Ns. repeat split.
Qed.

Lemma team_filter_item_complete (item : json) :
  complete_item item = true ->
  exists r, TeamMetrics.filter_item project_title item = Ok r
            /\ forall i, r = Some i ->
                 nonempty_str (TeamMetrics.type i)
                 /\ nonempty_str (TeamMetrics.scope i)
                 /\ Forall nonempty_str (TeamMetrics.assignees i).
Proof.
  intro C. destruct item as [| | | | |m]; try discriminate.
  destruct (skip_or_closed m C) as [S|(c & s & Hc & Hs & Ns)].
  - exists None. split; [apply S|discriminate].
  - destruct (complete_item_parts m c s C Hc Hs Ns)
      as ((dt & P) & (t & Et & Nt) & (sc & Esc & Nsc) & (a & Ea & Na) & (v1 & E1)
          & (v2 & E2) & (v3 & E3) & (v4 & E4) & (v5 & E5) & (v6 & E6)).
    destruct (closed_not_skipped m c s Hc Hs Ns) as (G1 & G2 & G3).
    unfold TeamMetrics.filter_item. rewrite G1. cbn [bind]. rewrite G2. cbn [bind].
    rewrite G3. cbn [bind]. unfold isoparse. rewrite P. cbn [bind].
    destruct (TeamMetrics.in_date_range dt); cbn [negb].
    + unfold TeamMetrics.build_issue_dict.
      rewrite Et, Esc, Ea, E1, E2, E3, E4, G3, E5, E6. cbn [bind].
      eexists. split; [reflexivity|]. intros i X. inversion X; subst. cbn. auto.
    + exists None. split; [reflexivity|discriminate].
Qed.

Lemma cap_filter_item_complete (item : json) :
  complete_item item = true ->
  exists r, Capitalizacao.filter_item project_title item = Ok r
            /\ forall i, r = Some i ->
                 nonempty_str (Capitalizacao.type i)
                 /\ nonempty_str (Capitalizacao.scope i).
Proof.
  intro C. destruct item as [| | | | |m]; try discriminate.
  destruct (skip_or_closed m C) as [S|(c & s & Hc & Hs & Ns)].
  - exists None. split; [apply S|discriminate].
  - destruct (complete_item_parts m c s C Hc Hs Ns)
      as ((dt & P) & (t & Et & Nt) & (sc & Esc & Nsc) & _ & (v1 & E1)
          & (v2 & E2) & (v3 & E3) & (v4 & E4) & (v5 & E5) & (v6 & E6)).
    destruct (closed_not_skipped m c s Hc Hs Ns) as (G1 & G2 & G3).
    unfold Capitalizacao.filter_item. rewrite G1. cbn [bind]. rewrite G2. cbn [bind].
    rewrite G3. cbn [bind]. unfold isoparse. rewrite P. cbn [bind]. cbv zeta.
    destruct (existsb _ FILTER_MONTHS); cbn [negb].
    + unfold Capitalizacao.build_issue_dict.
      rewrite Et, Esc, E1, E2, E3, E4, G3, E5, E6. cbn [bind].
      eexists. split; [reflexivity|]. intros i X. inversion X; subst. cbn. auto.
    + exists None. split; [reflexivity|discriminate].
Qed.

Lemma team_filtered_complete (items : list json) :
  forallb complete_item items = true ->
  exists rows,
    TeamMetrics.filtered_issues project_title items = Ok rows
    /\ Forall (fun i => nonempty_str (TeamMetrics.type i)
                        /\ nonempty_str (TeamMetrics.scope i)
                        /\ Forall nonempty_str (TeamMetrics.assignees i)) rows.
Proof.
  induction items as [|item items IH]; intro C; cbn [TeamMetrics.filtered_issues].
  - exists []. split; [reflexivity|constructor].
  - cbn [forallb] in C. apply andb_true_iff in C. destruct C as [Ci Cs].
    destruct (team_filter_item_complete item Ci) as (r & E & F).
    destruct (IH Cs) as (rows & Er & Fr). rewrite E, Er. cbn [bind].
    eexists. split; [reflexivity|]. destruct r as [i|]; [|exact Fr].
    constructor; [apply F; reflexivity|exact Fr].
Qed.

Lemma cap_extracted_complete (items : list json) :
  forallb complete_item items = true ->
  exists rows,
    cap_extracted project_title items = Ok rows
    /\ Forall (fun i => nonempty_str (Capitalizacao.type i)
                        /\ nonempty_str (Capitalizacao.scope i)) rows.
Proof.
  induction items as [|item items IH]; intro C; cbn [cap_extracted].
  - exists []. split; [reflexivity|constructor].
  - cbn [forallb] in C. apply andb_true_iff in C. destruct C as [Ci Cs].
    destruct (cap_filter_item_complete item Ci) as (r & E & F).
    destruct (IH Cs) as (rows & Er & Fr). rewrite E, Er. cbn [bind].
    eexists. split; [reflexivity|]. destruct r as [i|]; [|exact Fr].
    constructor; [apply F; reflexivity|exact Fr].
Qed.

Lemma month_scope_loop_complete (items : list json) :
  forallb complete_item items = true ->
  forall d, exists d', Capitalizacao.month_scope_loop project_title items d = Ok d'.
Proof.
  induction items as [|item items IH]; intros C d; cbn [Capitalizacao.month_scope_loop].
  - exists d. reflexivity.
  - cbn [forallb] in C. apply andb_true_iff in C. destruct C as [Ci Cs].
    destruct (cap_filter_item_complete item Ci) as (r & E & F). rewrite E. cbn [bind].
    destruct r as [i|]; [|apply IH; exact Cs].
    destruct (F i eq_refl) as (_ & (s & Es & _)). rewrite Es. cbn [to_key bind].
    apply IH. exact Cs.
Qed.

End CompleteItems.

Lemma nonempty_str_key (v : json) : nonempty_str v -> exists k, to_key v = Ok k.
Proof. intros (s & -> & _). exists (KStr s). reflexivity. Qed.

Lemma team_report_total (rows : list TeamMetrics.issue_dict) :
  Forall (fun i => nonempty_str (TeamMetrics.type i)
                   /\ nonempty_str (TeamMetrics.scope i)
                   /\ Forall nonempty_str (TeamMetrics.assignees i)) rows ->
  exists lines, TeamMetrics.report rows = Ok (Datatypes.length rows, lines).
Proof.
  intro F. rewrite Forall_forall in F. unfold TeamMetrics.report.
  destruct (group_by_loop_total pykey_eqb (fun i => to_key (TeamMetrics.type i)) rows [])
    as (groups & G).
  { intros x I. apply nonempty_str_key. apply (F x I). }
  unfold TeamMetrics.type_to_issues. rewrite G. cbn [bind].
  pose proof (group_by_loop_grouped pykey_eqb pykey_eqb_spec _ _ _ _ _
                (grouped_nil pykey_eqb _) G) as [_ Gg _ _].
  cbn [Datatypes.app] in Gg.
  destruct (mapM_total (TeamMetrics.report_line (Datatypes.length rows)) groups)
    as (lines & L).
  { intros [t issues] I. destruct (Gg _ _ I) as [E _].
    unfold TeamMetrics.report_line. cbn [snd fst].
    destruct (mapM_total to_key (concat (map TeamMetrics.assignees issues))) as (ks & K).
    { intros v Iv. apply in_concat in Iv. destruct Iv as (l & Il & Iv).
      apply in_map_iff in Il. destruct Il as (i & <- & Ii).
      rewrite E in Ii. apply filter_In in Ii. destruct Ii as [Ii _].
      destruct (F i Ii) as (_ & _ & Fa). rewrite Forall_forall in Fa.
      apply nonempty_str_key, Fa, Iv. }
    rewrite K. cbn [bind]. eexists. reflexivity. }
  rewrite L. cbn [bind]. exists lines. reflexivity.
Qed.

Lemma cap_report_total (d : Capitalizacao.month_scope_dict) :
  (forall i, In i (concat (map snd (concat (map snd d)))) ->
             nonempty_str (Capitalizacao.type i)) ->
  exists r, Capitalizacao.report d = Ok r.
Proof.
  intro F. unfold Capitalizacao.report. apply mapM_total.
  intros [m scopes] I. cbn [snd fst]. unfold Capitalizacao.month_report.
  destruct (mapM_total
              (fun g : pykey * list Capitalizacao.issue_dict =>
                 let* s := Capitalizacao.scope_summary (snd g) in Ok (fst g, s)) scopes)
    as (summaries & S).
  { intros [s issues] Is. cbn [snd fst]. unfold Capitalizacao.scope_summary.
    destruct (mapM_total (fun i => to_key (Capitalizacao.type i)) issues) as (ks & K).
    { intros i Ii. apply nonempty_str_key, F.
      apply in_concat. exists issues. split; [|exact Ii].
      apply in_map_iff. exists (s, issues). split; [reflexivity|].
      apply in_concat. exists scopes. split; [|exact Is].
      apply in_map_iff. exists (m, scopes). split; [reflexivity|exact I]. }
    rewrite K. cbn [bind]. eexists. reflexivity. }
  rewrite S. cbn [bind]. eexists. reflexivity.
Qed.

(** X20. On items of the shape the items query gives, the main blocks of
    both scripts run to the end: no item makes the filter, the extractors,
    the grouping or the report raise, and every row has a type and a scope
    that are strings and not empty. *)
Theorem complete_items_are_reported (project_title : json) (items : list json) :
  forallb complete_item items = true ->
  (exists rows lines,
     TeamMetrics.filtered_issues project_title items = Ok rows
     /\ TeamMetrics.report rows = Ok (Datatypes.length rows, lines)
     /\ Forall (fun i => nonempty_str (TeamMetrics.type i)
                         /\ nonempty_str (TeamMetrics.scope i)
                         /\ Forall nonempty_str (TeamMetrics.assignees i)) rows)
  /\ (exists d r,
        Capitalizacao.month_scope_loop project_title items [] = Ok d
        /\ Capitalizacao.report d = Ok r
        /\ forall i, In i (concat (map snd (concat (map snd d)))) ->
                     nonempty_str (Capitalizacao.type i)
                     /\ nonempty_str (Capitalizacao.scope i)).
Proof.
  intro C. split.
  - destruct (team_filtered_complete project_title items C) as (rows & E & F).
    destruct (team_report_total rows F) as (lines & L).
    exists rows, lines. auto.
  - destruct (month_scope_loop_complete project_title items C []) as (d & D).
    destruct (month_scope_loop_grouped _ _ _ [] _ month_grouped_nil D) as (rows & E & G).
    destruct (cap_extracted_complete project_title items C) as (rows' & E' & F).
    rewrite E in E'. inversion E'; subst rows'. cbn [Datatypes.app] in G.
    assert (Fd : forall i, In i (concat (map snd (concat (map snd d)))) ->
                   nonempty_str (Capitalizacao.type i)
                   /\ nonempty_str (Capitalizacao.scope i)).
    { intros i I. rewrite Forall_forall in F. apply F.
      apply (Permutation_in _ (month_perm _ _ G) I). }
    destruct (cap_report_total d) as (r & R); [intros i I; apply (Fd i I)|].
    exists d, r. auto.
Qed.

Lemma complete_items_are_reported_witness :
  (exists rows lines,
     TeamMetrics.filtered_issues (JStr "Portal") autumn_items = Ok rows
     /\ TeamMetrics.report rows = Ok (Datatypes.length rows, lines)
     /\ Forall (fun i => nonempty_str (TeamMetrics.type i)
                         /\ nonempty_str (TeamMetrics.scope i)
                         /\ Forall nonempty_str (TeamMetrics.assignees i)) rows)
  /\ (exists d r,
        Capitalizacao.month_scope_loop (JStr "Portal") autumn_items [] = Ok d
        /\ Capitalizacao.report d = Ok r
        /\ forall i, In i (concat (map snd (concat (map snd d)))) ->
                     nonempty_str (Capitalizacao.type i)
                     /\ nonempty_str (Capitalizacao.scope i)).
Proof.
  apply (complete_items_are_reported (JStr "Portal") autumn_items). reflexivity.
Defined.






